(** * OWGenes: the gene matching widget of orange3-bioinformatics

    A shallow embedding of
    [orangecontrib/bioinformatics/widgets/OWGenes.py]: the Python values
    the widget computes with, the part of the [Orange.data] table model it
    calls, the gene matcher's gene list, the two display models and the
    widget methods that locate the genes, read them from the input table
    and assemble the outputs. *)

From stdpp Require Import base strings gmap list pretty.
From Stdlib Require Import Ascii ZArith Lia Permutation Sorted.

Open Scope string_scope.
Open Scope nat_scope.
Open Scope list_scope.

(** ** Python values *)

(** A Python string is kept as the bytes of its UTF-8 encoding: two
    strings are equal, one is part of the other or comes before it in
    the order of strings exactly when this holds of their encodings. *)

(** Exceptions the modelled code can raise. [Unmodelled] is none of
    Python: a computation ends with it where its result takes a part of
    a library that is left out here. *)
Inductive exn :=
  IndexError | KeyError | ValueError | AttributeError | Unmodelled.

(** A computation that returns a value or raises. *)
Inductive result (A : Type) :=
  | Ok (a : A)
  | Raise (e : exn).
Arguments Ok {A} a.
Arguments Raise {A} e.

#[global] Instance result_ret : MRet result := λ A a, Ok a.
#[global] Instance result_bind : MBind result := λ A B f m,
  match m with Ok a => f a | Raise e => Raise e end.

(** [for x in l: ...] with a body that can raise: the elements are
    visited from the left and the first exception stops the loop. *)
Fixpoint mapR {A B} (f : A → result B) (l : list A) : result (list B) :=
  match l with
  | [] => Ok []
  | x :: l' => y ← f x; ys ← mapR f l'; Ok (y :: ys)
  end.

(** A comprehension [[x for x in l if p(x)]] whose test can raise. *)
Fixpoint filterR {A} (p : A → result bool) (l : list A) : result (list A) :=
  match l with
  | [] => Ok []
  | x :: l' =>
      b ← p x; ys ← filterR p l';
      Ok (if b : bool then x :: ys else ys)
  end.

(** The objects stored in attribute dictionaries. *)
Inductive pyval :=
  | PStr (s : string)
  | PInt (z : Z)
  | PBool (b : bool).

#[global] Instance pyval_eq_dec : EqDecision pyval.
Proof. solve_decision. Defined.

(** [str(v)] *)
Definition py_str (v : pyval) : string :=
  match v with
  | PStr s => s
  | PInt z => pretty z
  | PBool true => "True"
  | PBool false => "False"
  end.

(** [bool(v)] *)
Definition py_truthy (v : pyval) : bool :=
  match v with
  | PStr s => negb (String.eqb s "")
  | PInt z => negb (Z.eqb z 0)
  | PBool b => b
  end.

(** [x in l] for a list of strings. *)
Definition str_in (s : string) (l : list string) : bool :=
  existsb (String.eqb s) l.

(** [v in l] where [l] holds strings: only a string compares equal to a
    string. *)
Definition pyval_in (v : pyval) (l : list string) : bool :=
  match v with
  | PStr s => str_in s l
  | _ => false
  end.

(** [l[i]] for a non-negative index. *)
Definition py_index {A} (l : list A) (i : nat) : result A :=
  match l !! i with
  | Some x => Ok x
  | None => Raise IndexError
  end.

(** [l[z]] for an integer index: a negative index counts from the end. *)
Definition py_index_Z {A} (l : list A) (z : Z) : result A :=
  if (0 <=? z)%Z then py_index l (Z.to_nat z)
  else if (0 <=? Z.of_nat (length l) + z)%Z
       then py_index l (Z.to_nat (Z.of_nat (length l) + z))
       else Raise IndexError.

(** [l.index(x)] on a list of strings: the first position of [x], none
    when [x] is not in the list. *)
Fixpoint list_index (x : string) (l : list string) : option nat :=
  match l with
  | [] => None
  | y :: l' => if String.eqb y x then Some 0 else S <$> list_index x l'
  end.

(** [sep.join(l)] *)
Definition join (sep : string) (l : list string) : string :=
  String.concat sep l.

(** The bytes of a string: a Python string is kept as its UTF-8
    encoding. *)
Definition bytes (s : string) : list ascii := String.list_ascii_of_string s.

(** The white space of [str.strip]: the characters U+0009 to U+000D,
    U+001C to U+0020, U+0085, U+00A0, U+1680, U+2000 to U+200A, U+2028,
    U+2029, U+202F, U+205F and U+3000, each as the bytes of its
    encoding. *)
Definition whitespace : list (list ascii) :=
  map (map ascii_of_nat)
      [[9]; [10]; [11]; [12]; [13]; [28]; [29]; [30]; [31]; [32];
       [194; 133]; [194; 160]; [225; 154; 128];
       [226; 128; 128]; [226; 128; 129]; [226; 128; 130]; [226; 128; 131];
       [226; 128; 132]; [226; 128; 133]; [226; 128; 134]; [226; 128; 135];
       [226; 128; 136]; [226; 128; 137]; [226; 128; 138];
       [226; 128; 168]; [226; 128; 169]; [226; 128; 175];
       [226; 129; 159]; [227; 128; 128]].

(** The text after the character of [chars] it starts with, when it
    starts with one. *)
Definition drop_char (chars : list (list ascii)) (l : list ascii)
  : option (list ascii) :=
  match list_find (λ c, c `prefix_of` l) chars with
  | Some (_, c) => Some (drop (length c) l)
  | None => None
  end.

(** The characters of [chars] are dropped from the start for as long as
    there is one; no more than [fuel] can be. *)
Fixpoint lstrip_by (chars : list (list ascii)) (fuel : nat) (l : list ascii)
  : list ascii :=
  match fuel with
  | O => l
  | S fuel' =>
      match drop_char chars l with
      | Some l' => lstrip_by chars fuel' l'
      | None => l
      end
  end.

Definition lstrip (l : list ascii) : list ascii :=
  lstrip_by whitespace (length l) l.

(** At the end the encodings are met in reverse. *)
Definition rstrip (l : list ascii) : list ascii :=
  reverse (lstrip_by (map reverse whitespace) (length l) (reverse l)).

(** [s.strip()] *)
Definition strip (s : string) : string :=
  String.string_of_list_ascii (rstrip (lstrip (bytes s))).

(** A run of white space characters. *)
Definition white (l : list ascii) : Prop :=
  ∃ run : list (list ascii),
    Forall (λ c, c ∈ whitespace) run ∧ l = concat run.

(** [r] is [s] without the white space at its two ends: what is cut off
    is white space, and what is left neither starts nor ends with a
    white space character. *)
Definition stripped (s r : string) : Prop :=
  ∃ pre suf,
    bytes s = pre ++ bytes r ++ suf ∧ white pre ∧ white suf ∧
    (∀ c, c ∈ whitespace → ¬ c `prefix_of` bytes r) ∧
    (∀ c, c ∈ whitespace → ¬ c `suffix_of` bytes r).

(** [float(s)] for the strings the widget writes into a numeric column:
    a run of decimal digits with an optional minus sign gives that number,
    the unknown mark ['?'] (and any other text without digits) raises
    ValueError. *)
Definition digit_of (a : ascii) : option Z :=
  let n := nat_of_ascii a in
  if (48 <=? n)%nat && (n <=? 57)%nat then Some (Z.of_nat (n - 48)) else None.

Fixpoint digits (s : string) (acc : Z) : option Z :=
  match s with
  | EmptyString => Some acc
  | String a s' =>
      match digit_of a with
      | Some d => digits s' (10 * acc + d)%Z
      | None => None
      end
  end.

Definition py_float (s : string) : result Z :=
  let parsed :=
    match s with
    | EmptyString => None
    | String "-" EmptyString => None
    | String "-" s' => Z.opp <$> digits s' 0
    | _ => digits s 0
    end in
  match parsed with
  | Some z => Ok z
  | None => Raise ValueError
  end.

(** ["{:.{}f}".format(z, n)] for an integer-valued float. *)
Definition format_float (z : Z) (n : nat) : string :=
  match n with
  | O => pretty z
  | S _ => pretty z +:+ "." +:+
           String.string_of_list_ascii (replicate n "0"%char)
  end.

(** ** The Orange data model *)

(** The variable classes the widget tells apart with [isinstance]. *)
Inductive var_type :=
  | DiscreteVariable (values : list string)
  | ContinuousVariable (number_of_decimals : nat)
  | StringVariable.

#[global] Instance var_type_eq_dec : EqDecision var_type.
Proof. solve_decision. Defined.

(** [Variable.is_primitive()] *)
Definition is_primitive (ty : var_type) : bool :=
  match ty with
  | StringVariable => false
  | _ => true
  end.

(** A column descriptor: its name, its class and its [attributes]
    dictionary. *)
Record variable := mkVariable {
  var_name : string;
  var_type_of : var_type;
  var_attributes : gmap string pyval
}.

#[global] Instance variable_eq_dec : EqDecision variable.
Proof. solve_decision. Defined.

(** A stored value. Numeric columns hold floats, of which the model keeps
    the integer-valued ones and NaN; the metas hold objects, of which the
    model keeps strings, numbers and the unknown value. A column of a
    table holds numbers and NaN, or strings. *)
Inductive cell :=
  | CNum (z : Z)
  | CStr (s : string)
  | CNaN.

#[global] Instance cell_eq_dec : EqDecision cell.
Proof. solve_decision. Defined.

(** A data instance: its parts in [X], [Y] and [metas]. *)
Record row := mkRow {
  row_X : list cell;
  row_Y : list cell;
  row_metas : list cell
}.

Record Domain := mkDomain {
  dom_attributes : list variable;
  dom_class_vars : list variable;
  dom_metas : list variable
}.

Record Table := mkTable {
  tab_domain : Domain;
  tab_rows : list row;
  tab_attributes : gmap string pyval
}.

(** Where a variable sits in a domain. *)
Inductive place :=
  | Attr (i : nat)
  | Class (i : nat)
  | Meta (i : nat).

#[global] Instance place_eq_dec : EqDecision place.
Proof. solve_decision. Defined.

(** The index of the last element that passes [p], counting from [i]. *)
Fixpoint find_last {A} (p : A → bool) (l : list A) (i : nat) : option nat :=
  match l with
  | [] => None
  | x :: l' =>
      match find_last p l' (S i) with
      | Some j => Some j
      | None => if p x then Some i else None
      end
  end.

(** [Domain._indices]: a dictionary filled from the attributes, then the
    class variables, then the metas, so that of several entries under one
    key the last one written stays. *)
Definition domain_find (p : variable → bool) (d : Domain) : option place :=
  match find_last p (dom_metas d) 0 with
  | Some i => Some (Meta i)
  | None =>
      match find_last p (dom_class_vars d) 0 with
      | Some i => Some (Class i)
      | None => Attr <$> find_last p (dom_attributes d) 0
      end
  end.

(** [name in domain], [domain[name]], [domain.index(name)] *)
Definition domain_index_name (d : Domain) (n : string) : option place :=
  domain_find (λ v, String.eqb (var_name v) n) d.

(** [domain.index(var)] *)
Definition domain_index_var (d : Domain) (v : variable) : option place :=
  domain_find (λ v', bool_decide (v' = v)) d.

Definition domain_var (d : Domain) (p : place) : option variable :=
  match p with
  | Attr i => dom_attributes d !! i
  | Class i => dom_class_vars d !! i
  | Meta i => dom_metas d !! i
  end.

(** [row[place]] on the stored arrays. *)
Definition row_cell (r : row) (p : place) : option cell :=
  match p with
  | Attr i => row_X r !! i
  | Class i => row_Y r !! i
  | Meta i => row_metas r !! i
  end.

Definition row_set (r : row) (p : place) (c : cell) : row :=
  match p with
  | Attr i => mkRow (<[i:=c]> (row_X r)) (row_Y r) (row_metas r)
  | Class i => mkRow (row_X r) (<[i:=c]> (row_Y r)) (row_metas r)
  | Meta i => mkRow (row_X r) (row_Y r) (<[i:=c]> (row_metas r))
  end.

(** [table.get_column_view(p)[0]]: one column of the stored array. *)
Definition get_column_view (t : Table) (p : place) : result (list cell) :=
  mapR (λ r, match row_cell r p with
             | Some c => Ok c
             | None => Raise IndexError
             end) (tab_rows t).

(** [np.isnan] on a stored value. *)
Definition is_nan (c : cell) : bool :=
  match c with
  | CNaN => true
  | _ => false
  end.

(** [np.unique(col).size]. [np.unique] sorts the column and keeps a value
    when it differs from the one before it: equal values are kept once,
    and NaN, which differs from every value and from itself, is kept as
    often as it occurs (NumPy before 1.21 for a column of floats and any
    NumPy for a column of objects, as the metas are). *)
Definition np_unique_size (col : list cell) : nat :=
  length (remove_dups (List.filter (λ c, negb (is_nan c)) col)) +
  length (List.filter is_nan col).

(** The value [row[var]] of an instance, as the [Value] class wraps it. *)
Inductive value :=
  | VNum (z : Z)
  | VStr (s : string)
  | VUnknown.

(** [Value(var, c)]: a primitive variable turns what is stored into a
    float ([float(c)], which parses a string), a string variable keeps
    the object; its unknown value is the empty string. *)
Definition Value (ty : var_type) (c : cell) : result value :=
  match c with
  | CNaN => Ok VUnknown
  | CNum z => Ok (VNum z)
  | CStr s => if is_primitive ty then z ← py_float s; Ok (VNum z)
              else if String.eqb s "" then Ok VUnknown
              else Ok (VStr s)
  end.

(** [np.isnan(value)] *)
Definition value_isnan (v : value) : bool :=
  match v with
  | VUnknown => true
  | _ => false
  end.

(** [str(value)], that is [var.str_val(value)]. *)
Definition str_val (ty : var_type) (v : value) : result string :=
  match v with
  | VUnknown => Ok "?"
  | VStr s => Ok s
  | VNum z =>
      match ty with
      | DiscreteVariable values => py_index_Z values z
      | ContinuousVariable n => Ok (format_float z n)
      | StringVariable => Ok (format_float z 1)
      end
  end.

(** [str(row[var])] for the variable of type [ty] at place [p]. *)
Definition row_str (ty : var_type) (p : place) (r : row) : result string :=
  match row_cell r p with
  | Some c => v ← Value ty c; str_val ty v
  | None => Raise IndexError
  end.

(** [table[rows]]: the instances at the given indices, with the table's
    domain and attributes. *)
Definition table_rows_at (t : Table) (idx : list nat) : result Table :=
  rs ← mapR (py_index (tab_rows t)) idx;
  Ok (mkTable (tab_domain t) rs (tab_attributes t)).

(** [Values([FilterStringList(p, values)])(table)]: the instances whose
    stored object in column [p] equals one of the strings. A number never
    equals a string. *)
Definition cell_in (c : option cell) (values : list string) : bool :=
  match c with
  | Some (CStr s) => str_in s values
  | _ => false
  end.

Definition filter_string_list (p : place) (values : list string) (t : Table)
  : Table :=
  mkTable (tab_domain t)
          (List.filter (λ r, cell_in (row_cell r p) values) (tab_rows t))
          (tab_attributes t).

(** [col[:] = ids] on a column view. Numpy takes a list as long as the
    column or of length one (which it repeats) and refuses other lengths;
    a float column converts each string with [float], an object column
    stores the strings. *)
Definition coerce (p : place) (s : string) : result cell :=
  match p with
  | Meta _ => Ok (CStr s)
  | _ => z ← py_float s; Ok (CNum z)
  end.

Fixpoint zip_set (p : place) (rs : list row) (cs : list cell) : list row :=
  match rs, cs with
  | r :: rs', c :: cs' => row_set r p c :: zip_set p rs' cs'
  | _, _ => rs
  end.

Definition assign_column (t : Table) (p : place) (ids : list string)
  : result Table :=
  let n := length (tab_rows t) in
  if bool_decide (length ids = n) || bool_decide (length ids = 1) then
    cs ← mapR (coerce p) ids;
    let cs' := if bool_decide (length ids = n) then cs
               else replicate n (default CNaN (head cs)) in
    Ok (mkTable (tab_domain t) (zip_set p (tab_rows t) cs')
                (tab_attributes t))
  else Raise ValueError.

(** ** Constants of the package *)

(** Modelled from the spec: the keys of [widgets/utils/data.py] that mark
    a table are not in the sources; they are four distinct dictionary
    keys, and [NCBI_ID] of [ncbi/gene] is the title of the Entrez id
    column. *)
Definition TAX_ID : string := "taxonomy_id".
Definition GENE_AS_ATTRIBUTE_NAME : string := "gene_as_attribute_name".
Definition GENE_ID_COLUMN : string := "gene_id_column".
Definition GENE_ID_ATTRIBUTE : string := "gene_id_attribute".
Definition NCBI_ID : string := "Entrez ID".

(** ** The gene matcher *)

(** A gene of the matcher. [ncbi_id] is [None] until the matcher finds the
    gene and an integer afterwards; [symbol] is a slot that stays unset
    ([None] here, an AttributeError on access in Python) for a gene
    without Entrez record. *)
Record Gene := mkGene {
  input_name : string;
  ncbi_id : option Z;
  symbol : option string
}.

#[global] Instance Gene_eq_dec : EqDecision Gene.
Proof. solve_decision. Defined.

(** [if gene.ncbi_id]: neither [None] nor zero. *)
Definition has_ncbi_id (g : Gene) : bool :=
  match ncbi_id g with
  | Some z => negb (Z.eqb z 0)
  | None => false
  end.

(** [str(gene.ncbi_id) if gene.ncbi_id else '?'] *)
Definition target_id (g : Gene) : string :=
  match ncbi_id g with
  | Some z => if Z.eqb z 0 then "?" else pretty z
  | None => "?"
  end.

Record GeneMatcher := mkGeneMatcher {
  genes : list Gene;
  organism : string
}.

(** Modelled from the spec: [GeneMatcher.get_known_genes] of [ncbi/gene]
    is not in the sources; the known (matched) genes are the genes of the
    matcher with an Entrez id. *)
Definition get_known_genes (gm : GeneMatcher) : list Gene :=
  List.filter has_ncbi_id (genes gm).

(** Modelled from the spec: the constructor of [GeneMatcher] is not in the
    sources; a new matcher is made for an organism and holds no gene. *)
Definition GeneMatcher_init (tax_id : string) : GeneMatcher :=
  mkGeneMatcher [] tax_id.

(** Modelled from the spec: the setter of [GeneMatcher.genes] is not in
    the sources; it receives the input names and holds one gene, not yet
    matched, for each. *)
Definition genes_of_names (names : list string) : list Gene :=
  map (λ n, mkGene n None None) names.

(** Modelled from the spec: [Gene.to_list] is not in the sources; it is
    the row of the match table, which has a column for the Entrez id. The
    model gives it the input name, the id and the symbol. *)
Definition to_list (g : Gene) : list string :=
  [input_name g; from_option pretty "None" (ncbi_id g);
   default "None" (symbol g)].

(** The result of [GeneMatcher.to_data_table(selected_genes=...)], the
    match report, kept as the genes it is built from and the selection it
    is restricted to. *)
Record MatchReport := mkMatchReport {
  report_genes : list Gene;
  report_selected : option (list string)
}.

Definition to_data_table (gm : GeneMatcher) (selected : option (list string))
  : MatchReport :=
  mkMatchReport (genes gm) selected.

(** ** The display models *)

(** The model of the table of matched genes. [gim_genes] is
    [self.genes] and [data_table] the array made of the genes with an
    Entrez id. [_table] is the array the model wraps and [_rows] the
    number of rows [PyTableModel] keeps for [rowCount]. [row_cache] is
    the cache that [lru_cache] puts before [_row_instance]: the calls it
    keeps, with their results, the most recently used first. *)
Record GeneInfoModel := mkGeneInfoModel {
  gim_genes : option (list Gene);
  data_table : option (list (list string));
  _table : list (list string);
  _rows : nat;
  row_cache : list (nat * nat * string)
}.

Record UnknownGeneInfoModel := mkUnknownGeneInfoModel {
  ugm_genes : list Gene;
  ugm_items : list string
}.

Definition set_row_cache (cache : list (nat * nat * string))
  (m : GeneInfoModel) : GeneInfoModel :=
  mkGeneInfoModel (gim_genes m) (data_table m) (_table m) (_rows m) cache.

(** [PyTableModel.wrap]: the model takes the table, counts its rows and
    resets the sorting. *)
Definition wrap (table : list (list string)) (m : GeneInfoModel)
  : GeneInfoModel :=
  mkGeneInfoModel (gim_genes m) (data_table m) table (length table)
                  (row_cache m).

(** [self._row_instance.cache_clear()] *)
Definition cache_clear (m : GeneInfoModel) : GeneInfoModel :=
  set_row_cache [] m.

(** The size of the cache, [maxsize=10000]. *)
Definition maxsize : nat := 100 * 100.

(** [_row_instance(row, column)] behind [lru_cache]. A call that the
    cache holds returns what it returned before and becomes the most
    recently used; another call computes [self[row][column]] from the
    wrapped table and, when this returns, is put into the cache, which
    drops its least recently used call when it is full. A call that
    raises is not kept. *)
Definition _row_instance (row column : nat) (m : GeneInfoModel)
  : result string * GeneInfoModel :=
  match list_find (λ e, bool_decide (e.1 = (row, column))) (row_cache m) with
  | Some (i, e) => (Ok e.2, set_row_cache (e :: delete i (row_cache m)) m)
  | None =>
      match r ← py_index (_table m) row; py_index r column with
      | Ok value =>
          (Ok value,
           set_row_cache (take maxsize ((row, column, value) :: row_cache m))
                         m)
      | Raise e => (Raise e, m)
      end
  end.

(** [GeneInfoModel.data(index, Qt.DisplayRole)] for the index of the cell
    at [row] and [column], while the view sorts by no column, as after
    [wrap]: the text of the cell, or [None] for a row beyond
    [rowCount()] and for a cell the wrapped table does not have. *)
Definition data (row column : nat) (m : GeneInfoModel)
  : option string * GeneInfoModel :=
  if row <=? _rows m then
    match _row_instance row column m with
    | (Ok value, m') => (Some value, m')
    | (Raise _, m') => (None, m')
    end
  else (None, m).

(** [_, col_size = self.data_table.shape] in [filter_table]: the array
    made of the rows has two dimensions when there is a row and the rows
    are equally long; otherwise the unpacking raises. *)
Definition data_table_shape (rows : list (list string))
  : result (nat * nat) :=
  match rows with
  | [] => Raise ValueError
  | r :: rs =>
      if forallb (λ r', length r' =? length r) rs
      then Ok (length rows, length r)
      else Raise ValueError
  end.

(** [str.lower] and [np.char.lower]. In text of ASCII characters they put
    the letters A to Z in lower case. For other text they take the case
    tables of Unicode, which are left out here: [lower] gives no result
    for it. *)
Definition lower_ascii (a : ascii) : ascii :=
  let n := nat_of_ascii a in
  if (65 <=? n)%nat && (n <=? 90)%nat then ascii_of_nat (n + 32) else a.

Definition lower (s : string) : result string :=
  if forallb (λ a, nat_of_ascii a <? 128) (bytes s)
  then Ok (String.string_of_list_ascii (map lower_ascii (bytes s)))
  else Raise Unmodelled.

Fixpoint str_contains (pat s : string) : bool :=
  String.prefix pat s ||
  match s with
  | EmptyString => false
  | String _ s' => str_contains pat s'
  end.

(** [GeneInfoModel.filter_table]: after the shape of the table is taken,
    a row passes when the lower-cased pattern occurs in one of its
    lower-cased fields. *)
Definition filter_table (m : GeneInfoModel) (filter_pattern : string)
  : result (list bool) :=
  let rows := default [] (data_table m) in
  _ ← data_table_shape rows;
  mapR (λ row,
          fields ← mapR lower row;
          pattern ← lower filter_pattern;
          Ok (existsb (str_contains pattern) fields))
       rows.

Fixpoint mask {A} (l : list A) (bs : list bool) : list A :=
  match l, bs with
  | x :: l', b :: bs' => if b then x :: mask l' bs' else mask l' bs'
  | _, _ => []
  end.

(** [GeneInfoModel.show_table]. With a pattern that is not empty the
    cache is cleared before the table is filtered; without one the model
    wraps the whole table and the cache stays. *)
Definition show_table (filter_pattern : option string) (m : GeneInfoModel)
  : result unit * GeneInfoModel :=
  let rows := default [] (data_table m) in
  match filter_pattern with
  | Some (String _ _ as pattern) =>
      let m := cache_clear m in
      match filter_table m pattern with
      | Ok filtered_rows => (Ok tt, wrap (mask rows filtered_rows) m)
      | Raise e => (Raise e, m)
      end
  | _ => (Ok tt, wrap rows m)
  end.

(** [GeneInfoModel.initialize] *)
Definition GeneInfoModel_initialize (list_of_genes : list Gene)
  (m : GeneInfoModel) : result unit * GeneInfoModel :=
  show_table None
    (mkGeneInfoModel (Some list_of_genes)
       (Some (map to_list (List.filter has_ncbi_id list_of_genes)))
       (_table m) (_rows m) (row_cache m)).

(** [GeneInfoModel.clear]: the model wraps an array of one empty row;
    the number of rows and the cache are not touched. *)
Definition GeneInfoModel_clear (m : GeneInfoModel) : GeneInfoModel :=
  mkGeneInfoModel (gim_genes m) (data_table m) [[]] (_rows m) (row_cache m).

(** [UnknownGeneInfoModel.initialize] *)
Definition UnknownGeneInfoModel_initialize (m : UnknownGeneInfoModel)
  (list_of_genes : list Gene) : UnknownGeneInfoModel :=
  mkUnknownGeneInfoModel list_of_genes
    [join ", "
       (map input_name
            (List.filter (λ g, negb (has_ncbi_id g)) list_of_genes))].

Definition UnknownGeneInfoModel_clear (m : UnknownGeneInfoModel)
  : UnknownGeneInfoModel :=
  mkUnknownGeneInfoModel (ugm_genes m) [].

(** ** The widget *)

(** What the model of the gene column combo box holds: the variables of
    the valid types and the separators between the parts of the domain. *)
Inductive model_item :=
  | Separator
  | Column (v : variable).

(** A value sent on one of the two output channels, [Data] and [Genes]. *)
Inductive signal :=
  | Data (t : option Table)
  | Genes (r : option MatchReport).

(** The widget's state: the settings, the attributes set in [__init__]
    and, of the user interface, what the methods read or write.
    [table_view] is [None] while the view has no model and otherwise the
    Entrez ids of the selected rows; [replace_radio] and [exclude_radio]
    tell whether the check boxes are enabled; [saved_context] is what the
    settings handler restores for a domain; [threadpool] holds the matcher
    runs that were started; [outputs] is the trace of the signals sent,
    the oldest first; [commit_dirty] is the mark that the gate of the
    commit button keeps of outputs that are out of date. *)
Record OWGenes := mkOWGenes {
  target_database : string;
  selected_organism : nat;
  exclude_unmatched : bool;
  replace_id_with_symbol : bool;
  selected_gene_col : option variable;
  use_attr_names : bool;
  input_data : option Table;
  input_genes : option (list string);
  tax_id : option string;
  organisms : list string;
  gene_columns_model : list model_item;
  gene_matcher : option GeneMatcher;
  table_model : GeneInfoModel;
  unknown_model : UnknownGeneInfoModel;
  table_view : option (list string);
  replace_radio : bool;
  exclude_radio : bool;
  info_box : string;
  saved_context : Domain → option (option variable * bool);
  threadpool : list GeneMatcher;
  outputs : list signal;
  auto_commit : bool;
  commit_dirty : bool
}.

(** Assignments to the attributes of [self]. *)
Definition set_selected_organism (x : nat) (w : OWGenes) : OWGenes :=
  mkOWGenes (target_database w) x (exclude_unmatched w)
    (replace_id_with_symbol w) (selected_gene_col w) (use_attr_names w)
    (input_data w) (input_genes w) (tax_id w) (organisms w)
    (gene_columns_model w) (gene_matcher w) (table_model w)
    (unknown_model w) (table_view w) (replace_radio w) (exclude_radio w)
    (info_box w) (saved_context w) (threadpool w) (outputs w)
    (auto_commit w) (commit_dirty w).

Definition set_exclude_unmatched (x : bool) (w : OWGenes) : OWGenes :=
  mkOWGenes (target_database w) (selected_organism w) x
    (replace_id_with_symbol w) (selected_gene_col w) (use_attr_names w)
    (input_data w) (input_genes w) (tax_id w) (organisms w)
    (gene_columns_model w) (gene_matcher w) (table_model w)
    (unknown_model w) (table_view w) (replace_radio w) (exclude_radio w)
    (info_box w) (saved_context w) (threadpool w) (outputs w)
    (auto_commit w) (commit_dirty w).

Definition set_selected_gene_col (x : option variable) (w : OWGenes)
  : OWGenes :=
  mkOWGenes (target_database w) (selected_organism w) (exclude_unmatched w)
    (replace_id_with_symbol w) x (use_attr_names w) (input_data w)
    (input_genes w) (tax_id w) (organisms w) (gene_columns_model w)
    (gene_matcher w) (table_model w) (unknown_model w) (table_view w)
    (replace_radio w) (exclude_radio w) (info_box w) (saved_context w)
    (threadpool w) (outputs w) (auto_commit w) (commit_dirty w).

Definition set_use_attr_names (x : bool) (w : OWGenes) : OWGenes :=
  mkOWGenes (target_database w) (selected_organism w) (exclude_unmatched w)
    (replace_id_with_symbol w) (selected_gene_col w) x (input_data w)
    (input_genes w) (tax_id w) (organisms w) (gene_columns_model w)
    (gene_matcher w) (table_model w) (unknown_model w) (table_view w)
    (replace_radio w) (exclude_radio w) (info_box w) (saved_context w)
    (threadpool w) (outputs w) (auto_commit w) (commit_dirty w).

Definition set_input_data (x : option Table) (w : OWGenes) : OWGenes :=
  mkOWGenes (target_database w) (selected_organism w) (exclude_unmatched w)
    (replace_id_with_symbol w) (selected_gene_col w) (use_attr_names w) x
    (input_genes w) (tax_id w) (organisms w) (gene_columns_model w)
    (gene_matcher w) (table_model w) (unknown_model w) (table_view w)
    (replace_radio w) (exclude_radio w) (info_box w) (saved_context w)
    (threadpool w) (outputs w) (auto_commit w) (commit_dirty w).

Definition set_input_genes (x : option (list string)) (w : OWGenes) : OWGenes :=
  mkOWGenes (target_database w) (selected_organism w) (exclude_unmatched w)
    (replace_id_with_symbol w) (selected_gene_col w) (use_attr_names w)
    (input_data w) x (tax_id w) (organisms w) (gene_columns_model w)
    (gene_matcher w) (table_model w) (unknown_model w) (table_view w)
    (replace_radio w) (exclude_radio w) (info_box w) (saved_context w)
    (threadpool w) (outputs w) (auto_commit w) (commit_dirty w).

Definition set_tax_id (x : option string) (w : OWGenes) : OWGenes :=
  mkOWGenes (target_database w) (selected_organism w) (exclude_unmatched w)
    (replace_id_with_symbol w) (selected_gene_col w) (use_attr_names w)
    (input_data w) (input_genes w) x (organisms w) (gene_columns_model w)
    (gene_matcher w) (table_model w) (unknown_model w) (table_view w)
    (replace_radio w) (exclude_radio w) (info_box w) (saved_context w)
    (threadpool w) (outputs w) (auto_commit w) (commit_dirty w).

Definition set_gene_columns_model (x : list model_item) (w : OWGenes)
  : OWGenes :=
  mkOWGenes (target_database w) (selected_organism w) (exclude_unmatched w)
    (replace_id_with_symbol w) (selected_gene_col w) (use_attr_names w)
    (input_data w) (input_genes w) (tax_id w) (organisms w) x
    (gene_matcher w) (table_model w) (unknown_model w) (table_view w)
    (replace_radio w) (exclude_radio w) (info_box w) (saved_context w)
    (threadpool w) (outputs w) (auto_commit w) (commit_dirty w).

Definition set_gene_matcher (x : option GeneMatcher) (w : OWGenes) : OWGenes :=
  mkOWGenes (target_database w) (selected_organism w) (exclude_unmatched w)
    (replace_id_with_symbol w) (selected_gene_col w) (use_attr_names w)
    (input_data w) (input_genes w) (tax_id w) (organisms w)
    (gene_columns_model w) x (table_model w) (unknown_model w)
    (table_view w) (replace_radio w) (exclude_radio w) (info_box w)
    (saved_context w) (threadpool w) (outputs w)
    (auto_commit w) (commit_dirty w).

Definition set_table_model (x : GeneInfoModel) (w : OWGenes) : OWGenes :=
  mkOWGenes (target_database w) (selected_organism w) (exclude_unmatched w)
    (replace_id_with_symbol w) (selected_gene_col w) (use_attr_names w)
    (input_data w) (input_genes w) (tax_id w) (organisms w)
    (gene_columns_model w) (gene_matcher w) x (unknown_model w)
    (table_view w) (replace_radio w) (exclude_radio w) (info_box w)
    (saved_context w) (threadpool w) (outputs w)
    (auto_commit w) (commit_dirty w).

Definition set_unknown_model (x : UnknownGeneInfoModel) (w : OWGenes)
  : OWGenes :=
  mkOWGenes (target_database w) (selected_organism w) (exclude_unmatched w)
    (replace_id_with_symbol w) (selected_gene_col w) (use_attr_names w)
    (input_data w) (input_genes w) (tax_id w) (organisms w)
    (gene_columns_model w) (gene_matcher w) (table_model w) x (table_view w)
    (replace_radio w) (exclude_radio w) (info_box w) (saved_context w)
    (threadpool w) (outputs w) (auto_commit w) (commit_dirty w).

Definition set_table_view (x : option (list string)) (w : OWGenes) : OWGenes :=
  mkOWGenes (target_database w) (selected_organism w) (exclude_unmatched w)
    (replace_id_with_symbol w) (selected_gene_col w) (use_attr_names w)
    (input_data w) (input_genes w) (tax_id w) (organisms w)
    (gene_columns_model w) (gene_matcher w) (table_model w)
    (unknown_model w) x (replace_radio w) (exclude_radio w) (info_box w)
    (saved_context w) (threadpool w) (outputs w)
    (auto_commit w) (commit_dirty w).

Definition set_replace_radio (x : bool) (w : OWGenes) : OWGenes :=
  mkOWGenes (target_database w) (selected_organism w) (exclude_unmatched w)
    (replace_id_with_symbol w) (selected_gene_col w) (use_attr_names w)
    (input_data w) (input_genes w) (tax_id w) (organisms w)
    (gene_columns_model w) (gene_matcher w) (table_model w)
    (unknown_model w) (table_view w) x (exclude_radio w) (info_box w)
    (saved_context w) (threadpool w) (outputs w)
    (auto_commit w) (commit_dirty w).

Definition set_exclude_radio (x : bool) (w : OWGenes) : OWGenes :=
  mkOWGenes (target_database w) (selected_organism w) (exclude_unmatched w)
    (replace_id_with_symbol w) (selected_gene_col w) (use_attr_names w)
    (input_data w) (input_genes w) (tax_id w) (organisms w)
    (gene_columns_model w) (gene_matcher w) (table_model w)
    (unknown_model w) (table_view w) (replace_radio w) x (info_box w)
    (saved_context w) (threadpool w) (outputs w)
    (auto_commit w) (commit_dirty w).

Definition set_info_box (x : string) (w : OWGenes) : OWGenes :=
  mkOWGenes (target_database w) (selected_organism w) (exclude_unmatched w)
    (replace_id_with_symbol w) (selected_gene_col w) (use_attr_names w)
    (input_data w) (input_genes w) (tax_id w) (organisms w)
    (gene_columns_model w) (gene_matcher w) (table_model w)
    (unknown_model w) (table_view w) (replace_radio w) (exclude_radio w) x
    (saved_context w) (threadpool w) (outputs w)
    (auto_commit w) (commit_dirty w).

Definition set_threadpool (x : list GeneMatcher) (w : OWGenes) : OWGenes :=
  mkOWGenes (target_database w) (selected_organism w) (exclude_unmatched w)
    (replace_id_with_symbol w) (selected_gene_col w) (use_attr_names w)
    (input_data w) (input_genes w) (tax_id w) (organisms w)
    (gene_columns_model w) (gene_matcher w) (table_model w)
    (unknown_model w) (table_view w) (replace_radio w) (exclude_radio w)
    (info_box w) (saved_context w) x (outputs w)
    (auto_commit w) (commit_dirty w).

Definition set_outputs (x : list signal) (w : OWGenes) : OWGenes :=
  mkOWGenes (target_database w) (selected_organism w) (exclude_unmatched w)
    (replace_id_with_symbol w) (selected_gene_col w) (use_attr_names w)
    (input_data w) (input_genes w) (tax_id w) (organisms w)
    (gene_columns_model w) (gene_matcher w) (table_model w)
    (unknown_model w) (table_view w) (replace_radio w) (exclude_radio w)
    (info_box w) (saved_context w) (threadpool w) x
    (auto_commit w) (commit_dirty w).

Definition set_auto_commit (x : bool) (w : OWGenes) : OWGenes :=
  mkOWGenes (target_database w) (selected_organism w) (exclude_unmatched w)
    (replace_id_with_symbol w) (selected_gene_col w) (use_attr_names w)
    (input_data w) (input_genes w) (tax_id w) (organisms w)
    (gene_columns_model w) (gene_matcher w) (table_model w)
    (unknown_model w) (table_view w) (replace_radio w) (exclude_radio w)
    (info_box w) (saved_context w) (threadpool w) (outputs w) x
    (commit_dirty w).

Definition set_commit_dirty (x : bool) (w : OWGenes) : OWGenes :=
  mkOWGenes (target_database w) (selected_organism w) (exclude_unmatched w)
    (replace_id_with_symbol w) (selected_gene_col w) (use_attr_names w)
    (input_data w) (input_genes w) (tax_id w) (organisms w)
    (gene_columns_model w) (gene_matcher w) (table_model w)
    (unknown_model w) (table_view w) (replace_radio w) (exclude_radio w)
    (info_box w) (saved_context w) (threadpool w) (outputs w)
    (auto_commit w) x.

(** A method of the widget: it reads and changes the state and either
    returns or raises; what it changed before raising stays changed. *)
Definition M (A : Type) : Type := OWGenes → result A * OWGenes.

#[global] Instance M_ret : MRet M := λ A a w, (Ok a, w).
#[global] Instance M_bind : MBind M := λ A B f m w,
  match m w with
  | (Ok a, w') => f a w'
  | (Raise e, w') => (Raise e, w')
  end.

Definition get : M OWGenes := λ w, (Ok w, w).
Definition modify (f : OWGenes → OWGenes) : M unit := λ w, (Ok tt, f w).
Definition lift {A} (r : result A) : M A := λ w, (r, w).

(** Access to an attribute of an object that may be [None]. *)
Definition attr_of {A} (o : option A) : result A :=
  match o with
  | Some a => Ok a
  | None => Raise AttributeError
  end.

(** [Outputs.<channel>.send(value)] *)
Definition send (s : signal) : M unit :=
  modify (λ w, set_outputs (outputs w ++ [s]) w).

(** A call of a method of [self.table_model]. *)
Definition on_table_model {A} (f : GeneInfoModel → result A * GeneInfoModel)
  : M A :=
  λ w, let '(r, m) := f (table_model w) in (r, set_table_model m w).

(** [bool(table)]: a table is true when it has instances. *)
Definition table_truthy (o : option Table) : bool :=
  match o with
  | Some t => negb (bool_decide (tab_rows t = []))
  | None => false
  end.

(** [OWGenes.get_selected_organism] *)
Definition get_selected_organism (w : OWGenes) : result string :=
  py_index (organisms w) (selected_organism w).

(** [OWGenes.get_target_ids] *)
Definition get_target_ids (w : OWGenes) : result (list string) :=
  gm ← attr_of (gene_matcher w);
  Ok (map target_id (genes gm)).

(** [sorted(l, key=...)]: a stable sort, here by insertion from the
    right, each element going before the first one whose key is not
    smaller. *)
Fixpoint insert_by {A} (key : A → nat) (x : A) (l : list A) : list A :=
  match l with
  | [] => [x]
  | y :: l' => if (key x <=? key y)%nat then x :: y :: l'
               else y :: insert_by key x l'
  end.

Fixpoint sorted {A} (key : A → nat) (l : list A) : list A :=
  match l with
  | [] => []
  | x :: l' => insert_by key x (sorted key l')
  end.

(** [isinstance(col, DiscreteVariable) or isinstance(col, StringVariable)]
    on an item of the combo box model. *)
Definition is_candidate (it : model_item) : option variable :=
  match it with
  | Separator => None
  | Column v =>
      match var_type_of v with
      | DiscreteVariable _ | StringVariable => Some v
      | ContinuousVariable _ => None
      end
  end.

(** The generator of [gene_column_identifier]: each candidate with the
    number of unique values of its column. The input data is looked at
    when the first candidate is reached. *)
Definition candidates (w : OWGenes) : result (list (variable * nat)) :=
  mapR (λ col,
          t ← attr_of (input_data w);
          match domain_index_var (tab_domain t) col with
          | Some p => view ← get_column_view t p;
                      Ok (col, np_unique_size view)
          | None => Raise ValueError
          end)
       (omap is_candidate (gene_columns_model w)).

(** [OWGenes.gene_column_identifier] *)
Definition gene_column_identifier (w : OWGenes) : result variable :=
  cs ← candidates w;
  match last (sorted snd cs) with
  | Some (best_candidate, _) => Ok best_candidate
  | None => Raise IndexError
  end.

(** [OWGenes.find_genes_location] *)
Definition find_genes_location : M unit :=
  w ← get;
  t ← lift (attr_of (input_data w));
  match dom_attributes (tab_domain t), selected_gene_col w with
  | [], None =>
      col ← lift (gene_column_identifier w);
      modify (set_selected_gene_col (Some col));;
      modify (set_use_attr_names false)
  | _, _ => mret tt
  end.

(** The comprehension of [gene_names_from_table] over the instances:
    [[str(e[col]) for e in data if not np.isnan(e[col])]]. The first
    component is what one instance contributes. *)
Definition gene_name_of (ty : var_type) (p : place) (e : row)
  : result (option string) :=
  match row_cell e p with
  | Some c =>
      v ← Value ty c;
      if value_isnan v then Ok None else s ← str_val ty v; Ok (Some s)
  | None => Raise IndexError
  end.

Definition column_names (t : Table) (col : variable)
  : result (list string) :=
  match domain_index_var (tab_domain t) col with
  | None => if bool_decide (tab_rows t = []) then Ok [] else Raise ValueError
  | Some p =>
      ns ← mapR (gene_name_of (var_type_of col) p) (tab_rows t);
      Ok (omap id (ns : list (option string)))
  end.

(** [OWGenes.gene_names_from_table] *)
Definition gene_names_from_table : M unit :=
  modify (set_input_genes (Some []));;
  w ← get;
  match input_data w with
  | Some t =>
      if table_truthy (input_data w) then
        if use_attr_names w then
          modify (set_input_genes
                    (Some (map (λ attr, strip (var_name attr))
                               (dom_attributes (tab_domain t)))))
        else
          match selected_gene_col w with
          | None =>
              col ← lift (gene_column_identifier w);
              modify (set_selected_gene_col (Some col))
          | Some _ => mret tt
          end;;
          w' ← get;
          col ← lift (attr_of (selected_gene_col w'));
          names ← lift (column_names t col);
          modify (set_input_genes (Some names))
      else mret tt
  | None => mret tt
  end.

(** The line feed. *)
Definition nl : string := String (ascii_of_nat 10) EmptyString.

(** [OWGenes._update_info_box] *)
Definition _update_info_box : M unit :=
  w ← get;
  match input_genes w, gene_matcher w with
  | Some (_ :: _), Some gm =>
      let num_genes := length (genes gm) in
      let known_genes := length (get_known_genes gm) in
      modify (set_info_box
        (pretty num_genes +:+ " genes in input data" +:+ nl +:+
         pretty known_genes +:+ " genes match Entrez database" +:+ nl +:+
         pretty (num_genes - known_genes)%nat +:+
         " genes with match conflicts" +:+ nl))
  | _, _ => modify (set_info_box "No data on input.")
  end.

(** [OWGenes.__reset_widget_state] *)
Definition __reset_widget_state : M unit :=
  modify (set_table_view None);;
  modify (λ w, set_table_model (GeneInfoModel_clear (table_model w)) w);;
  modify (λ w, set_unknown_model
                 (UnknownGeneInfoModel_clear (unknown_model w)) w);;
  _update_info_box.

(** [OWGenes._update_gene_matcher] *)
Definition _update_gene_matcher : M unit :=
  gene_names_from_table;;
  w ← get;
  org ← lift (get_selected_organism w);
  modify (set_gene_matcher (Some (GeneMatcher_init org)));;
  w ← get;
  gm ← lift (attr_of (gene_matcher w));
  names ← lift (attr_of (input_genes w));
  modify (set_gene_matcher
            (Some (mkGeneMatcher (genes_of_names names) (organism gm))));;
  w ← get;
  gm ← lift (attr_of (gene_matcher w));
  org ← lift (get_selected_organism w);
  modify (set_gene_matcher (Some (mkGeneMatcher (genes gm) org))).

(** [OWGenes.match_genes]: the run of the matcher is handed to the thread
    pool; its end is the call of [_handle_matcher_results]. *)
Definition match_genes : M unit :=
  w ← get;
  match gene_matcher w with
  | Some gm => modify (set_threadpool (threadpool w ++ [gm]))
  | None => mret tt
  end.

(** [OWGenes.on_input_option_change] *)
Definition on_input_option_change : M unit :=
  __reset_widget_state;;
  _update_gene_matcher;;
  match_genes.

(** [DomainModel.set_domain] for the order classes, separator, metas,
    separator, attributes and the valid types string and discrete: the
    variables marked as hidden are left out, and a separator comes
    between two parts that are not empty. *)
Definition is_hidden (v : variable) : bool :=
  from_option py_truthy false (var_attributes v !! "hidden").

Definition valid_type (v : variable) : bool :=
  negb (is_hidden v) &&
  match var_type_of v with
  | ContinuousVariable _ => false
  | _ => true
  end.

Definition add_section (content : list model_item) (vars : list variable)
  : list model_item :=
  match List.filter valid_type vars with
  | [] => content
  | to_add =>
      (match content with [] => [] | _ => content ++ [Separator] end)
      ++ map Column to_add
  end.

Definition set_domain (d : option Domain) : list model_item :=
  match d with
  | None => []
  | Some d =>
      add_section (add_section (add_section [] (dom_class_vars d))
                               (dom_metas d))
                  (dom_attributes d)
  end.

(** [openContext(domain)]: the settings handler restores the two context
    settings when it has a context for the domain. *)
Definition openContext (d : Domain) : M unit :=
  w ← get;
  match saved_context w d with
  | Some (col, attr_names) =>
      modify (set_selected_gene_col col);;
      modify (set_use_attr_names attr_names)
  | None => mret tt
  end.

(** [OWGenes.handle_input]. Writing the widget's settings into the
    handler ([closeContext]) is the framework's and leaves the modelled
    state as it is. *)
Definition handle_input (data : option Table) : M unit :=
  modify (set_input_data None);;
  modify (set_input_genes None);;
  __reset_widget_state;;
  modify (set_gene_columns_model (set_domain None));;
  modify (set_selected_gene_col None);;
  match data with
  | Some t =>
      if table_truthy data then
        modify (set_input_data data);;
        modify (set_gene_columns_model (set_domain (Some (tab_domain t))));;
        modify (set_tax_id
                  (Some (py_str (default (PStr "9606")
                                         (tab_attributes t !! TAX_ID)))));;
        modify (λ w, set_use_attr_names
                       (from_option py_truthy (use_attr_names w)
                          (tab_attributes t !! GENE_AS_ATTRIBUTE_NAME)) w);;
        w ← get;
        match tax_id w with
        | Some tid =>
            match list_index tid (organisms w) with
            | Some i => modify (set_selected_organism i)
            | None => mret tt
            end
        | None => mret tt
        end;;
        openContext (tab_domain t);;
        find_genes_location;;
        on_input_option_change
      else mret tt
  | None => mret tt
  end.

(** [OWGenes.toggle_radio_options] *)
Definition toggle_radio_options : M unit :=
  w ← get;
  modify (set_replace_radio (use_attr_names w));;
  gm ← lift (attr_of (gene_matcher w));
  match genes gm with
  | [] => mret tt
  | _ :: _ =>
      let unknown_detected :=
        negb (length (genes gm) =? length (get_known_genes gm))%nat in
      modify (set_exclude_radio unknown_detected);;
      modify (set_exclude_unmatched unknown_detected)
  end.

(** ** Assembling the outputs *)

(** [[gid for gid in gene_ids if gid != '?']] *)
Definition known_of (gene_ids : list string) : list string :=
  List.filter (λ gid, negb (String.eqb gid "?")) gene_ids.

(** The variable that receives the ids when the genes are in rows: the
    variable of the input domain named [target_database] when there is
    one, and otherwise a new string variable added to the metas. The
    result is the variable, its place and the metas of the new domain. *)
Definition gene_variable (target : string) (d : Domain)
  : variable * place * list variable :=
  match domain_index_name d target with
  | Some p =>
      (default (mkVariable target StringVariable ∅) (domain_var d p), p,
       dom_metas d)
  | None =>
      let gene_var := mkVariable target StringVariable ∅ in
      (gene_var, Meta (length (dom_metas d)), dom_metas d ++ [gene_var])
  end.

(** [input_data.transform(domain)] for the domain of the branch with the
    genes in rows: the columns of the input are kept, and a meta column
    that the input does not have holds the unknown value of a string
    variable. *)
Definition transform_rows (t : Table) (metas : list variable) : Table :=
  let extra := length metas - length (dom_metas (tab_domain t)) in
  mkTable (mkDomain (dom_attributes (tab_domain t))
                    (dom_class_vars (tab_domain t)) metas)
          (map (λ r, mkRow (row_X r) (row_Y r)
                           (row_metas r ++ replicate extra (CStr "")))
               (tab_rows t))
          (tab_attributes t).

(** The comprehension that keeps the indices of the rows whose gene id is
    selected. *)
Fixpoint selected_rows_from (ty : var_type) (p : place)
  (selected_genes : list string) (i : nat) (rs : list row)
  : result (list nat) :=
  match rs with
  | [] => Ok []
  | r :: rs' =>
      s ← row_str ty p r;
      rest ← selected_rows_from ty p selected_genes (S i) rs';
      Ok (if str_in s selected_genes then i :: rest else rest)
  end.

Definition set_table_attributes (attrs : gmap string pyval) (t : Table)
  : Table :=
  mkTable (tab_domain t) (tab_rows t) attrs.

(** What [col[:] = ids] leaves in a column, whether it returns or
    raises. A list as long as the column, or of length one, is converted
    and stored value by value, so that a value that cannot be converted
    leaves the values before it in the column; a list of another length
    is refused before anything is stored. *)
Fixpoint store_each (p : place) (rs : list row) (ids : list string)
  : list row :=
  match rs, ids with
  | r :: rs', id :: ids' =>
      match coerce p id with
      | Ok c => row_set r p c :: store_each p rs' ids'
      | Raise _ => rs
      end
  | _, _ => rs
  end.

Definition assign_written (p : place) (rs : list row) (ids : list string)
  : list row :=
  let n := length rs in
  if bool_decide (length ids = n) then store_each p rs ids
  else if bool_decide (length ids = 1)
       then store_each p rs (replicate n (default "" (head ids)))
       else rs.

(** The branch of [commit] for genes in rows. *)
Definition commit_rows (w : OWGenes) (t : Table)
  (gene_ids known_genes selected_genes : list string) : result Table :=
  let '(gene_var, p, metas) :=
    gene_variable (target_database w) (tab_domain t) in
  let table := transform_rows t metas in
  table ← assign_column table p gene_ids;
  selected_rows ←
    selected_rows_from (var_type_of gene_var) p selected_genes 0
                       (tab_rows table);
  org ← get_selected_organism w;
  let table :=
    set_table_attributes
      (<[GENE_ID_COLUMN := PStr (target_database w)]>
         (<[GENE_AS_ATTRIBUTE_NAME := PBool false]>
            (<[TAX_ID := PStr org]> (tab_attributes table)))) table in
  table ← match selected_rows with
          | [] => Ok table
          | _ => table_rows_at table selected_rows
          end;
  Ok (if exclude_unmatched w then filter_string_list p known_genes table
      else table).

(** The input table as the branch for genes in rows leaves it, whether
    the branch returns or raises. A table that Orange makes of another,
    with [transform], [from_table] or an index, has the attributes of its
    source, the same dictionary, and with a domain equal to that of its
    source also its columns. With a variable named [target_database] in
    the input domain, the ids are thus assigned to the column of the
    input; and the three entries are written into the attributes of the
    input once the rows are filtered and the organism is found. *)
Definition commit_rows_input (w : OWGenes) (t : Table)
  (gene_ids selected_genes : list string) : Table :=
  let '(gene_var, p, metas) :=
    gene_variable (target_database w) (tab_domain t) in
  let rows :=
    match domain_index_name (tab_domain t) (target_database w) with
    | Some _ => assign_written p (tab_rows t) gene_ids
    | None => tab_rows t
    end in
  match (table ← assign_column (transform_rows t metas) p gene_ids;
         _ ← selected_rows_from (var_type_of gene_var) p selected_genes 0
                                (tab_rows table);
         get_selected_organism w) with
  | Ok org =>
      mkTable (tab_domain t) rows
        (<[GENE_ID_COLUMN := PStr (target_database w)]>
           (<[GENE_AS_ATTRIBUTE_NAME := PBool false]>
              (<[TAX_ID := PStr org]> (tab_attributes t))))
  | Raise _ => mkTable (tab_domain t) rows (tab_attributes t)
  end.

(** The body of the loop over the genes when the genes are in columns.
    The domain resolves a name with the index it built when it was
    made, from the names the variables had then; [d0] is the domain as
    it was made and [d] the domain with the variables as they are now. *)
Definition annotate_variable (target : string) (replace : bool) (g : Gene)
  (v : variable) : variable :=
  mkVariable
    (if replace then default (var_name v) (symbol g) else var_name v)
    (var_type_of v)
    (<[target := PStr (target_id g)]> (var_attributes v)).

Definition domain_alter (f : variable → variable) (p : place) (d : Domain)
  : Domain :=
  match p with
  | Attr i => mkDomain (alter f i (dom_attributes d)) (dom_class_vars d)
                       (dom_metas d)
  | Class i => mkDomain (dom_attributes d) (alter f i (dom_class_vars d))
                        (dom_metas d)
  | Meta i => mkDomain (dom_attributes d) (dom_class_vars d)
                       (alter f i (dom_metas d))
  end.

Definition annotate_gene (target : string) (replace : bool) (d0 : Domain)
  (d : Domain) (g : Gene) : Domain :=
  match domain_index_name d0 (input_name g) with
  | Some p => domain_alter (annotate_variable target replace g) p d
  | None => d
  end.

Definition annotate_domain (target : string) (replace : bool)
  (gs : list Gene) (d0 : Domain) : Domain :=
  fold_left (annotate_gene target replace d0) gs d0.

(** [target in column.attributes and
     str(column.attributes[target]) in selected_genes] *)
Definition column_selected (target : string) (selected_genes : list string)
  (column : variable) : bool :=
  match var_attributes column !! target with
  | Some v => str_in (py_str v) selected_genes
  | None => false
  end.

(** [col.attributes[target] in known_genes] *)
Definition column_known (target : string) (known_genes : list string)
  (col : variable) : result bool :=
  match var_attributes col !! target with
  | Some v => Ok (pyval_in v known_genes)
  | None => Raise KeyError
  end.

(** [table.from_table(Domain(output_attrs, ...), table)]: the columns of
    the chosen attributes, given with their positions in the source. *)
Definition from_table_columns (output_attrs : list (nat * variable))
  (t : Table) : Table :=
  mkTable (mkDomain (map snd output_attrs)
                    (dom_class_vars (tab_domain t))
                    (dom_metas (tab_domain t)))
          (map (λ r, mkRow (map (λ iv, default CNaN (row_X r !! fst iv))
                                output_attrs)
                           (row_Y r) (row_metas r))
               (tab_rows t))
          (tab_attributes t).

(** The attributes of a domain with their positions. *)
Definition enumerate {A} (l : list A) : list (nat * A) :=
  zip (seq 0 (length l)) l.

(** The branch of [commit] for genes in columns. *)
Definition commit_columns (w : OWGenes) (t : Table) (gm : GeneMatcher)
  (known_genes selected_genes : list string) : result Table :=
  let target := target_database w in
  let domain :=
    annotate_domain target (replace_id_with_symbol w) (genes gm)
                    (tab_domain t) in
  let table := mkTable domain (tab_rows t) (tab_attributes t) in
  let columns := enumerate (dom_attributes domain) in
  let selected :=
    List.filter (λ iv, column_selected target selected_genes (snd iv))
                columns in
  let output_attrs := match selected with [] => columns | _ => selected end in
  output_attrs ←
    (if exclude_unmatched w
     then filterR (λ iv, column_known target known_genes (snd iv))
                  output_attrs
     else Ok output_attrs);
  let table := from_table_columns output_attrs table in
  org ← get_selected_organism w;
  Ok (set_table_attributes
        (<[GENE_ID_ATTRIBUTE := PStr target]>
           (<[GENE_AS_ATTRIBUTE_NAME := PBool true]>
              (<[TAX_ID := PStr org]> (tab_attributes table)))) table).

(** The input table as the branch for genes in columns leaves it. The
    loop works on the variables of a copy of the domain; the three
    entries, the last statements of the branch, are written into the
    attributes the table has from the input. *)
Definition commit_columns_input (w : OWGenes) (t : Table) (gm : GeneMatcher)
  (known_genes selected_genes : list string) : Table :=
  match commit_columns w t gm known_genes selected_genes with
  | Ok table => mkTable (tab_domain t) (tab_rows t) (tab_attributes table)
  | Raise _ => t
  end.

(** [OWGenes.commit]. The tables of the trace are the tables as they
    were sent. *)
Definition commit : M unit :=
  w ← get;
  selected_genes ← lift (attr_of (table_view w));
  gene_ids ← lift (get_target_ids w);
  let known_genes := known_of gene_ids in
  tables ←
    match known_genes with
    | [] => mret (None, None)
    | _ :: _ =>
        t ← lift (attr_of (input_data w));
        gm ← lift (attr_of (gene_matcher w));
        table ←
          (if negb (use_attr_names w) then
             modify (set_input_data
                       (Some (commit_rows_input w t gene_ids
                                                selected_genes)));;
             table ← lift (commit_rows w t gene_ids known_genes
                                       selected_genes);
             send (Data (Some table));;
             mret table
           else
             modify (set_input_data
                       (Some (commit_columns_input w t gm known_genes
                                                   selected_genes)));;
             lift (commit_columns w t gm known_genes selected_genes));
        mret (Some table,
              Some (to_data_table gm
                      (match selected_genes with
                       | [] => None
                       | _ => Some selected_genes
                       end)))
    end;
  send (Data (fst tables));;
  send (Genes (snd tables)).

(** What [self.commit] is after [__init__]. [gui.auto_commit], called in
    line 266, keeps the method [commit] and puts a gate in its place as
    the attribute [commit] of the widget: with the setting [auto_commit]
    on, the gate runs the method and then marks the outputs as up to
    date; with the setting off it runs nothing and marks them as out of
    date. A commit that raises leaves the mark as it was. *)
Definition self_commit : M unit :=
  w ← get;
  if auto_commit w then commit;; modify (set_commit_dirty false)
  else modify (set_commit_dirty true).

(** [OWGenes._handle_matcher_results] *)
Definition _handle_matcher_results : M unit :=
  _update_info_box;;
  toggle_radio_options;;
  w ← get;
  gm ← lift (attr_of (gene_matcher w));
  on_table_model (GeneInfoModel_initialize (genes gm));;
  modify (set_table_view (Some []));;
  modify (set_unknown_model
            (UnknownGeneInfoModel_initialize (unknown_model w) (genes gm)));;
  self_commit.

(** The instances of a table have one stored value for each variable of
    its domain. *)
Definition table_wf (t : Table) : Prop :=
  Forall (λ r,
            length (row_X r) = length (dom_attributes (tab_domain t)) ∧
            length (row_Y r) = length (dom_class_vars (tab_domain t)) ∧
            length (row_metas r) = length (dom_metas (tab_domain t)))
         (tab_rows t).

(** The columns of the combo box model are variables of the domain. *)
Definition model_of_domain (d : Domain) (model : list model_item) : Prop :=
  Forall (λ it, match it with
                | Column v => is_Some (domain_index_var d v)
                | Separator => True
                end) model.

(** [np.isnan(e[col])] for an instance: whether its value in the column at
    place [p] is missing. *)
Definition row_missing (ty : var_type) (p : place) (e : row) : bool :=
  match row_cell e p with
  | Some c =>
      match Value ty c with
      | Ok v => value_isnan v
      | Raise _ => false
      end
  | None => false
  end.

(** The genes of a list whose input name the domain [d0] resolves to the
    variable at place [p], in the order of the list. *)
Definition resolving_genes (d0 : Domain) (p : place) (gs : list Gene)
  : list Gene :=
  List.filter
    (λ g, bool_decide (domain_index_name d0 (input_name g) = Some p)) gs.

(** A variable after the loop body ran on it for each gene of a list. *)
Definition annotate_all (target : string) (replace : bool) (gs : list Gene)
  (v : variable) : variable :=
  fold_left (λ v g, annotate_variable target replace g v) gs v.

(** ** The widget at work *)

(** The state [__init__] leaves, for the organisms the taxonomy service
    offers and the stored index of the selected one. *)
Definition OWGenes_init (organisms : list string) (selected : nat)
  : OWGenes :=
  mkOWGenes NCBI_ID selected true true None true None None None organisms
            [] None (mkGeneInfoModel None None [] 0 [])
            (mkUnknownGeneInfoModel [] []) None true true
            ("No data on input." +:+ nl) (λ _, None) [] [] true false.

Definition no_table : Table := mkTable (mkDomain [] [] []) [] ∅.

(** The table of the last Data signal. *)
Definition last_data (signals : list signal) : Table :=
  match last (omap (λ s, match s with Data t => Some t | _ => None end)
                   signals) with
  | Some (Some t) => t
  | _ => no_table
  end.

(** The signals a commit adds to the trace. *)
Definition commit_signals (w : OWGenes) : list signal :=
  drop (length (outputs w)) (outputs (snd (commit w))).

(** The end of a run of the matcher: the worker has set the Entrez ids
    and symbols of the matcher's genes and the results are handled. *)
Definition matcher_finished (matched : list Gene) : M unit :=
  w ← get;
  gm ← lift (attr_of (gene_matcher w));
  modify (set_gene_matcher (Some (mkGeneMatcher matched (organism gm))));;
  _handle_matcher_results.

Definition widget0 : OWGenes := OWGenes_init ["9606"; "10090"] 0.

(** Genes in rows: a table without attributes, with a string column of
    gene names and a discrete column. *)
Definition v_gene : variable := mkVariable "gene" StringVariable ∅.
Definition v_tissue : variable :=
  mkVariable "tissue" (DiscreteVariable ["liver"; "brain"]) ∅.

Definition t_rows : Table :=
  mkTable (mkDomain [] [] [v_gene; v_tissue])
          [mkRow [] [] [CStr "BRCA1"; CNum 0];
           mkRow [] [] [CStr "FOO"; CNum 1];
           mkRow [] [] [CStr "P53"; CNum 0]]
          ∅.

Definition matched_rows : list Gene :=
  [mkGene "BRCA1" (Some 672%Z) (Some "BRCA1");
   mkGene "FOO" None None;
   mkGene "P53" (Some 7157%Z) (Some "TP53")].

Definition w_rows_input : OWGenes := snd (handle_input (Some t_rows) widget0).
Definition w_rows : OWGenes := snd (matcher_finished matched_rows w_rows_input).

(** The same results with the setting [auto_commit] off: they are shown,
    and the commit is left to the button. *)
Definition w_rows_shown : OWGenes :=
  snd (matcher_finished matched_rows (set_auto_commit false w_rows_input)).

(** Genes in columns: three features named by genes. *)
Definition t_columns : Table :=
  mkTable (mkDomain [mkVariable "BRCA1" (ContinuousVariable 3) ∅;
                     mkVariable "P53" (ContinuousVariable 3) ∅;
                     mkVariable "FOO" (ContinuousVariable 3) ∅] [] [])
          [mkRow [CNum 1; CNum 2; CNum 3] [] [];
           mkRow [CNum 4; CNum 5; CNum 6] [] []]
          ∅.

Definition matched_columns : list Gene :=
  [mkGene "BRCA1" (Some 672%Z) (Some "BRCA1");
   mkGene "P53" (Some 7157%Z) (Some "TP53");
   mkGene "FOO" None None].

Definition w_columns_input : OWGenes :=
  snd (handle_input (Some t_columns) widget0).
Definition w_columns : OWGenes :=
  snd (matcher_finished matched_columns w_columns_input).

(** No gene of the input is found. *)
Definition w_unmatched : OWGenes :=
  snd (matcher_finished (genes_of_names ["BRCA1"; "FOO"; "P53"])
                        w_rows_input).

(** The gene column holds no value: the matcher has no gene. *)
Definition v_kind : variable :=
  mkVariable "kind" (DiscreteVariable ["a"; "b"]) ∅.

Definition t_missing : Table :=
  mkTable (mkDomain [] [] [v_kind])
          [mkRow [] [] [CNaN]; mkRow [] [] [CNaN]] ∅.

Definition w_missing_input : OWGenes :=
  snd (handle_input (Some t_missing) widget0).

(** The input has a numeric column named as the target database, and says
    that its genes are in rows. *)
Definition v_entrez : variable :=
  mkVariable "Entrez ID" (ContinuousVariable 3) ∅.

Definition t_entrez : Table :=
  mkTable (mkDomain [v_entrez] [] [v_gene])
          [mkRow [CNum 0] [] [CStr "BRCA1"]]
          {[GENE_AS_ATTRIBUTE_NAME := PBool false]}.

Definition w_entrez : OWGenes :=
  snd (handle_input (Some t_entrez) widget0).

Definition w_entrez_matched : OWGenes :=
  snd (matcher_finished [mkGene "BRCA1" (Some 672%Z) (Some "BRCA1")]
                        w_entrez).

(** The same with a second gene, which is not known. *)
Definition t_entrez_pair : Table :=
  mkTable (mkDomain [v_entrez] [] [v_gene])
          [mkRow [CNum 0] [] [CStr "BRCA1"]; mkRow [CNum 0] [] [CStr "FOO"]]
          {[GENE_AS_ATTRIBUTE_NAME := PBool false]}.

Definition matched_pair : list Gene :=
  [mkGene "BRCA1" (Some 672%Z) (Some "BRCA1"); mkGene "FOO" None None].

Definition w_entrez_pair : OWGenes :=
  snd (handle_input (Some t_entrez_pair) widget0).

(** The order of the keys of a sort. *)
Definition key_le {A} (key : A → nat) (a b : A) : Prop := key a ≤ key b.

(** [keeps proj m]: whatever [m] does, the part [proj] of the state is
    afterwards what it was, also when [m] raises. *)
Definition keeps {A B} (proj : OWGenes → B) (m : M A) : Prop :=
  ∀ w, proj (snd (m w)) = proj w.

(** A feature whose name has white space around it, and a gene that is
    not known. *)
Definition t_padded : Table :=
  mkTable (mkDomain [mkVariable "BRCA1" (ContinuousVariable 3) ∅;
                     mkVariable " P53 " (ContinuousVariable 3) ∅;
                     mkVariable "FOO" (ContinuousVariable 3) ∅] [] [])
          [mkRow [CNum 1; CNum 2; CNum 3] [] []]
          ∅.

Definition w_padded_input : OWGenes :=
  snd (handle_input (Some t_padded) widget0).

(** Two features, one with white space around its name, and both genes
    known. *)
Definition t_spaced : Table :=
  mkTable (mkDomain [mkVariable "BRCA1" (ContinuousVariable 3) ∅;
                     mkVariable " P53 " (ContinuousVariable 3) ∅] [] [])
          [mkRow [CNum 1; CNum 2] [] []]
          ∅.

Definition matched_spaced : list Gene :=
  [mkGene "BRCA1" (Some 672%Z) (Some "BRCA1");
   mkGene "P53" (Some 7157%Z) (Some "TP53")].

Definition w_spaced_input : OWGenes :=
  snd (handle_input (Some t_spaced) widget0).
Definition w_spaced : OWGenes :=
  snd (matcher_finished matched_spaced w_spaced_input).

(** ** The rest of the widget *)

Definition set_organisms (x : list string) (w : OWGenes) : OWGenes :=
  mkOWGenes (target_database w) (selected_organism w) (exclude_unmatched w)
    (replace_id_with_symbol w) (selected_gene_col w) (use_attr_names w)
    (input_data w) (input_genes w) (tax_id w) x (gene_columns_model w)
    (gene_matcher w) (table_model w) (unknown_model w) (table_view w)
    (replace_radio w) (exclude_radio w) (info_box w) (saved_context w)
    (threadpool w) (outputs w) (auto_commit w) (commit_dirty w).

(** [sorted(l, key=...)] for a key that is a string: the same stable
    sort, with the order of Python's strings, which compares them
    character by character. *)
Fixpoint insert_on {A} (key : A → string) (x : A) (l : list A) : list A :=
  match l with
  | [] => [x]
  | y :: l' => if String.leb (key x) (key y) then x :: y :: l'
               else y :: insert_on key x l'
  end.

Fixpoint sorted_on {A} (key : A → string) (l : list A) : list A :=
  match l with
  | [] => []
  | x :: l' => insert_on key x (sorted_on key l')
  end.

(** [OWGenes.get_available_organisms]. The taxonomy module is not in the
    sources: [common_taxids] stands for the list
    [taxonomy.common_taxids()] and [name] for [taxonomy.name]. The method
    sets [organisms]; the result is the list of items it adds to the
    combo box of the organisms. *)
Definition get_available_organisms (common_taxids : list string)
  (name : string → string) : M (list string) :=
  let available_organism :=
    sorted_on snd (map (λ tax_id, (tax_id, name tax_id)) common_taxids) in
  modify (set_organisms (map fst available_organism));;
  mret (map snd available_organism).

(** [OWGenes.apply_filter], for the text [search_pattern] of the filter
    line. The view loses its model, the table model shows the rows the
    pattern selects, and the view gets the model again, with a new and
    empty selection. *)
Definition apply_filter (search_pattern : string) : M unit :=
  w ← get;
  match input_data w, data_table (table_model w) with
  | Some _, Some _ =>
      modify (set_table_view None);;
      on_table_model (show_table (Some search_pattern));;
      modify (set_table_view (Some []))
  | _, _ => mret tt
  end.

(** The view paints a cell of the table of matched genes: it asks its
    model for the text, [data(index, Qt.DisplayRole)]. A view without
    model paints nothing. *)
Definition paint_cell (row column : nat) : M (option string) :=
  w ← get;
  match table_view w with
  | Some _ =>
      on_table_model (λ m, let '(text, m') := data row column m in
                           (Ok text, m'))
  | None => mret None
  end.

(** A row of the input with the id of its gene in a new last meta
    column. *)
Definition with_gene_id (r : row) (g : Gene) : row :=
  mkRow (row_X r) (row_Y r) (row_metas r ++ [CStr (target_id g)]).

(** A table whose gene column has a gap, and two genes for three rows. *)
Definition t_gap : Table :=
  mkTable (mkDomain [] [] [v_gene])
          [mkRow [] [] [CStr "BRCA1"]; mkRow [] [] [CStr ""];
           mkRow [] [] [CStr "P53"]] ∅.

Definition w_gap : OWGenes :=
  snd (matcher_finished
         [mkGene "BRCA1" (Some 672%Z) (Some "BRCA1");
          mkGene "P53" (Some 7157%Z) (Some "TP53")]
         (snd (handle_input (Some t_gap) widget0))).

(** A table without a column that could hold gene names. *)
Definition t_numeric : Table :=
  mkTable (mkDomain [] [] [mkVariable "weight" (ContinuousVariable 3) ∅])
          [mkRow [] [] [CNum 70]] ∅.

(** A table of the mouse. *)
Definition t_mouse : Table :=
  mkTable (mkDomain [] [] [v_gene]) [mkRow [] [] [CStr "Trp53"]]
          {[TAX_ID := PStr "10090"]}.

Definition matched_mouse : list Gene :=
  [mkGene "Trp53" (Some 22059%Z) (Some "Trp53")].

(** Two match runs: the view paints the first cell of the table of the
    genes in rows, then the table of the mouse arrives and its gene is
    matched. *)
Definition w_painted : OWGenes := snd (paint_cell 0 0 w_rows).
Definition w_second : OWGenes :=
  snd (matcher_finished matched_mouse
         (snd (handle_input (Some t_mouse) w_painted))).

(** A row holds a string that is not empty in the column at [p]. *)
Definition has_gene_id (p : place) (r : row) : Prop :=
  ∃ s, row_cell r p = Some (CStr s) ∧ s ≠ "".

(** The rows a commit with the genes in rows sends, of the rows [all] of
    the table with the ids in column [p]: the rows whose id is selected,
    or all rows when the id of no row is selected, and of these, when
    unmatched genes are excluded, the rows with a known id. *)
Definition kept_rows (p : place) (selected_genes known_genes : list string)
  (exclude : bool) (all : list row) : list row :=
  let chosen :=
    List.filter (λ r, cell_in (row_cell r p) selected_genes) all in
  let kept := match chosen with [] => all | _ => chosen end in
  if exclude
  then List.filter (λ r, cell_in (row_cell r p) known_genes) kept
  else kept.

(** The state [__reset_widget_state] leaves when the widget has no input
    genes. *)
Definition reset_state (w : OWGenes) : OWGenes :=
  set_info_box "No data on input."
    (set_unknown_model (UnknownGeneInfoModel_clear (unknown_model w))
       (set_table_model (GeneInfoModel_clear (table_model w))
          (set_table_view None w))).

(** The organism of the table: its index is selected when the widget
    offers the taxonomy id. *)
Definition select_tax_id (w : OWGenes) : OWGenes :=
  match tax_id w with
  | Some tid =>
      match list_index tid (organisms w) with
      | Some i => set_selected_organism i w
      | None => w
      end
  | None => w
  end.

(** The state of [handle_input] for a table with instances when it has
    stored the table and opened the context, before it looks for the
    genes. *)
Definition input_stored (t : Table) (w : OWGenes) : OWGenes :=
  let w1 :=
    set_selected_gene_col None
      (set_gene_columns_model []
         (reset_state (set_input_genes None (set_input_data None w)))) in
  let w2 :=
    set_use_attr_names
      (from_option py_truthy (use_attr_names w)
                   (tab_attributes t !! GENE_AS_ATTRIBUTE_NAME))
      (set_tax_id
         (Some (py_str (default (PStr "9606") (tab_attributes t !! TAX_ID))))
         (set_gene_columns_model (set_domain (Some (tab_domain t)))
            (set_input_data (Some t) w1))) in
  let w3 := select_tax_id w2 in
  match saved_context w (tab_domain t) with
  | Some (col, attr_names) =>
      set_use_attr_names attr_names (set_selected_gene_col col w3)
  | None => w3
  end.

(** The state in which the commit for the table with the padded feature
    name is started. *)
Definition w_padded : OWGenes :=
  snd (matcher_finished matched_columns w_padded_input).

(** Two columns with as many unique values. *)
Definition t_tie : Table :=
  mkTable (mkDomain [] [] [v_gene; v_tissue])
          [mkRow [] [] [CStr "BRCA1"; CNum 0];
           mkRow [] [] [CStr "P53"; CNum 1]]
          ∅.

Definition w_tie : OWGenes := snd (handle_input (Some t_tie) widget0).

(** ** Counting the values of a column *)

(** The count of unique values in the words of a specification, without
    the function that computes it: [n] is the number of the different
    values of [col] that are not missing. *)
Definition present_count (col : list cell) (n : nat) : Prop :=
  ∃ present : list cell,
    NoDup present ∧ (∀ c, c ∈ present ↔ c ∈ col ∧ c ≠ CNaN) ∧
    n = length present.

(** The count [np.unique] gives: the different values that are not
    missing, and every missing value for itself. *)
Definition unique_count (col : list cell) (n : nat) : Prop :=
  ∃ k, present_count col k ∧ n = k + count_occ cell_eq_dec col CNaN.

(** The number of different values of a column, a missing value being a
    value like the others. *)
Definition distinct_count (col : list cell) (n : nat) : Prop :=
  ∃ values : list cell,
    NoDup values ∧ (∀ c, c ∈ values ↔ c ∈ col) ∧ n = length values.

(** A string column with three different names and a discrete column
    with one value and three missing values. *)
Definition t_nan : Table :=
  mkTable (mkDomain [] [] [v_gene; v_kind])
          [mkRow [] [] [CStr "BRCA1"; CNum 0];
           mkRow [] [] [CStr "FOO"; CNaN];
           mkRow [] [] [CStr "P53"; CNaN];
           mkRow [] [] [CStr "BRCA1"; CNaN]]
          ∅.

Definition w_nan : OWGenes := snd (handle_input (Some t_nan) widget0).

(** * Properties *)

(** ** The error monad and the list functions *)

Lemma mapR_Forall2 {A B} (f : A → result B) l ys :
  mapR f l = Ok ys ↔ Forall2 (λ x y, f x = Ok y) l ys.
Proof.
  revert ys. induction l as [|x l IH]; intros ys; simpl.
  - split.
    + intros [= <-]. constructor.
    + intros H. inversion H. reflexivity.
  - split.
    + destruct (f x) as [y|e] eqn:Hx; simpl; [|discriminate].
      destruct (mapR f l) as [ys'|e] eqn:Hl; simpl; [|discriminate].
      intros [= <-]. constructor; [exact Hx|]. apply IH. reflexivity.
    + intros H. inversion H as [|? y ? ys' Hx Hl]; subst.
      rewrite Hx. simpl. apply IH in Hl. rewrite Hl. reflexivity.
Qed.

Lemma mapR_total {A B} (f : A → result B) l :
  (∀ x, x ∈ l → ∃ y, f x = Ok y) → ∃ ys, mapR f l = Ok ys.
Proof.
  induction l as [|x l IH]; intros H; simpl.
  - eexists. reflexivity.
  - destruct (H x) as [y Hy]; [left|]. rewrite Hy. simpl.
    destruct IH as [ys Hys].
    + intros x' Hx'. apply H. right. exact Hx'.
    + rewrite Hys. simpl. eexists. reflexivity.
Qed.

Lemma mapR_length {A B} (f : A → result B) l ys :
  mapR f l = Ok ys → length ys = length l.
Proof.
  intros H. apply mapR_Forall2 in H. symmetry. eapply Forall2_length, H.
Qed.

Lemma mapR_elem_of {A B} (f : A → result B) l ys y :
  mapR f l = Ok ys → y ∈ ys → ∃ x, x ∈ l ∧ f x = Ok y.
Proof.
  intros H Hy. apply mapR_Forall2 in H.
  induction H as [|x y' l ys' Hxy _ IH].
  - inversion Hy.
  - apply elem_of_cons in Hy as [->|Hy].
    + exists x. split; [left|exact Hxy].
    + destruct (IH Hy) as (x' & Hx' & Hf). exists x'. split; [right|]; done.
Qed.

Lemma str_in_spec s l : str_in s l = true ↔ s ∈ l.
Proof.
  unfold str_in. rewrite existsb_exists. split.
  - intros (x & Hx & Heq). apply String.eqb_eq in Heq as ->.
    by apply list_elem_of_In.
  - intros H. exists s. split; [by apply list_elem_of_In|].
    apply String.eqb_refl.
Qed.

(** ** Sorting by a key *)

Section sorting.
Context {A : Type} (key : A → nat).

Lemma insert_by_Permutation x l : insert_by key x l ≡ₚ x :: l.
Proof.
  induction l as [|y l IH]; simpl; [done|].
  destruct (key x <=? key y)%nat; [done|].
  rewrite IH. apply Permutation_swap.
Qed.

Lemma sorted_Permutation l : sorted key l ≡ₚ l.
Proof.
  induction l as [|x l IH]; simpl; [done|].
  rewrite insert_by_Permutation. by rewrite IH.
Qed.

Lemma insert_by_StronglySorted x l :
  StronglySorted (key_le key) l →
  StronglySorted (key_le key) (insert_by key x l).
Proof.
  induction 1 as [|y l Hl IH Hy]; simpl.
  - repeat constructor.
  - destruct (key x <=? key y)%nat eqn:Hle.
    + apply Nat.leb_le in Hle. constructor; [by constructor|].
      constructor; [exact Hle|].
      eapply Forall_impl; [exact Hy|]. unfold key_le. simpl. lia.
    + apply Nat.leb_gt in Hle. constructor; [exact IH|].
      rewrite insert_by_Permutation. constructor; [|exact Hy].
      unfold key_le. lia.
Qed.

Lemma sorted_StronglySorted l : StronglySorted (key_le key) (sorted key l).
Proof.
  induction l; simpl; [constructor|]. by apply insert_by_StronglySorted.
Qed.

Lemma last_StronglySorted l b :
  StronglySorted (key_le key) l → last l = Some b → ∀ x, x ∈ l → key x ≤ key b.
Proof.
  induction 1 as [|y l Hl IH Hy]; intros Hlast x Hx; [inversion Hx|].
  destruct l as [|z l'].
  - simpl in Hlast. injection Hlast as <-.
    apply list_elem_of_singleton in Hx as ->. done.
  - change (last (z :: l') = Some b) in Hlast.
    apply elem_of_cons in Hx as [->|Hx]; [|by apply IH].
    rewrite Forall_forall in Hy. apply Hy.
    apply last_Some_elem_of. exact Hlast.
Qed.

(** The last element of the sorted list is an element of the list with
    the largest key. *)
Lemma last_sorted_max l b :
  last (sorted key l) = Some b → b ∈ l ∧ ∀ x, x ∈ l → key x ≤ key b.
Proof.
  intros H. split.
  - rewrite <- (sorted_Permutation l). by apply last_Some_elem_of.
  - intros x Hx. apply (last_StronglySorted (sorted key l)).
    + apply sorted_StronglySorted.
    + exact H.
    + by rewrite sorted_Permutation.
Qed.

Lemma last_sorted_is_Some l : l ≠ [] → is_Some (last (sorted key l)).
Proof.
  intros Hl. apply last_is_Some. intros Hs. apply Hl.
  apply Permutation_nil_r. rewrite <- Hs. symmetry. apply sorted_Permutation.
Qed.
End sorting.

(** ** The domain and its columns *)

Lemma find_last_Some {A} (p : A → bool) l i j :
  find_last p l i = Some j →
  ∃ k v, j = i + k ∧ l !! k = Some v ∧ p v = true.
Proof.
  revert i j. induction l as [|x l IH]; intros i j; simpl; [discriminate|].
  destruct (find_last p l (S i)) as [j'|] eqn:Hrec.
  - intros [= <-]. destruct (IH _ _ Hrec) as (k & v & -> & Hk & Hv).
    exists (S k), v. split; [lia|]. split; done.
  - destruct (p x) eqn:Hx; [|discriminate]. intros [= <-].
    exists 0, x. split; [lia|]. split; done.
Qed.

Lemma domain_find_Some p d pl :
  domain_find p d = Some pl → ∃ v, domain_var d pl = Some v ∧ p v = true.
Proof.
  unfold domain_find.
  destruct (find_last p (dom_metas d) 0) as [i|] eqn:Hm.
  { intros [= <-]. apply find_last_Some in Hm as (k & v & -> & Hk & Hv).
    exists v. split; done. }
  destruct (find_last p (dom_class_vars d) 0) as [i|] eqn:Hc.
  { intros [= <-]. apply find_last_Some in Hc as (k & v & -> & Hk & Hv).
    exists v. split; done. }
  destruct (find_last p (dom_attributes d) 0) as [i|] eqn:Ha; [|discriminate].
  intros [= <-]. apply find_last_Some in Ha as (k & v & -> & Hk & Hv).
  exists v. split; done.
Qed.

Lemma row_cell_is_Some t r pl v :
  table_wf t → r ∈ tab_rows t → domain_var (tab_domain t) pl = Some v →
  is_Some (row_cell r pl).
Proof.
  intros Hwf Hr Hv. unfold table_wf in Hwf. rewrite Forall_forall in Hwf.
  destruct (Hwf r Hr) as (HX & HY & HM).
  destruct pl as [i|i|i]; simpl in *; apply lookup_lt_is_Some;
    apply lookup_lt_Some in Hv; lia.
Qed.

Lemma get_column_view_total t pl v :
  table_wf t → domain_var (tab_domain t) pl = Some v →
  ∃ col, get_column_view t pl = Ok col.
Proof.
  intros Hwf Hv. apply mapR_total. intros r Hr.
  destruct (row_cell_is_Some t r pl v Hwf Hr Hv) as [c Hc].
  exists c. by rewrite Hc.
Qed.

Lemma find_last_is_Some {A} (p : A → bool) l i x :
  x ∈ l → p x = true → is_Some (find_last p l i).
Proof.
  intros Hx Hp. revert i. induction Hx as [x l|x y l _ IH]; intros i; simpl.
  - destruct (find_last p l (S i)); [by eexists|]. rewrite Hp. by eexists.
  - destruct (IH Hp (S i)) as [j ->]. by eexists.
Qed.

Lemma domain_index_var_is_Some d v :
  v ∈ dom_attributes d ++ dom_class_vars d ++ dom_metas d →
  is_Some (domain_index_var d v).
Proof.
  intros Hv. unfold domain_index_var, domain_find.
  set (p := λ v' : variable, bool_decide (v' = v)).
  assert (Hp : p v = true) by (by apply bool_decide_eq_true_2).
  destruct (find_last p (dom_metas d) 0) as [i|] eqn:Hm; [by eexists|].
  destruct (find_last p (dom_class_vars d) 0) as [i|] eqn:Hc; [by eexists|].
  rewrite !elem_of_app in Hv. destruct Hv as [Hv|[Hv|Hv]].
  - destruct (find_last_is_Some p _ 0 v Hv Hp) as [i ->]. by eexists.
  - destruct (find_last_is_Some p _ 0 v Hv Hp) as [i Hi]. congruence.
  - destruct (find_last_is_Some p _ 0 v Hv Hp) as [i Hi]. congruence.
Qed.

Lemma add_section_Forall (P : model_item → Prop) content vars :
  Forall P content → P Separator → (∀ v, v ∈ vars → P (Column v)) →
  Forall P (add_section content vars).
Proof.
  intros Hc Hs Hv. unfold add_section.
  assert (Hf : Forall P (map Column (List.filter valid_type vars))).
  { apply Forall_fmap, Forall_forall. intros v Hin. apply Hv.
    apply list_elem_of_In, filter_In in Hin as [Hin _].
    by apply list_elem_of_In. }
  destruct (List.filter valid_type vars) as [|v vs]; [exact Hc|].
  apply Forall_app. split; [|exact Hf].
  destruct content; [constructor|].
  apply Forall_app. split; [exact Hc|]. by constructor.
Qed.

(** The model that [handle_input] fills from the domain of the input
    holds variables of that domain. *)
Lemma set_domain_model_of_domain d : model_of_domain d (set_domain (Some d)).
Proof.
  unfold model_of_domain, set_domain.
  repeat apply add_section_Forall; try done;
    intros v Hv; apply domain_index_var_is_Some; rewrite !elem_of_app; auto.
Qed.

Lemma is_candidate_Some it v : is_candidate it = Some v → it = Column v.
Proof.
  destruct it as [|v']; simpl; [discriminate|].
  by destruct (var_type_of v'); intros [= <-].
Qed.

(** ** Locating the gene column *)

Lemma count_occ_nan (col : list cell) :
  count_occ cell_eq_dec col CNaN = length (List.filter is_nan col).
Proof.
  induction col as [|c col IH]; [reflexivity|]. simpl.
  destruct (cell_eq_dec c CNaN) as [->|Hc]; simpl; [by rewrite IH|].
  destruct c; simpl; try exact IH. by destruct Hc.
Qed.

Lemma present_count_remove_dups (col : list cell) :
  present_count col
    (length (remove_dups (List.filter (λ c, negb (is_nan c)) col))).
Proof.
  eexists. split; [apply NoDup_remove_dups|]. split; [|reflexivity].
  intros c. rewrite elem_of_remove_dups, !list_elem_of_In, filter_In.
  destruct c; simpl; split; intros [H1 H2]; split; try done.
Qed.

(** What [np_unique_size] computes is the count of unique values. *)
Lemma np_unique_size_spec (col : list cell) :
  unique_count col (np_unique_size col).
Proof.
  eexists. split; [apply present_count_remove_dups|].
  unfold np_unique_size. by rewrite count_occ_nan.
Qed.

Lemma present_count_fun (col : list cell) (n m : nat) :
  present_count col n → present_count col m → n = m.
Proof.
  intros (l1 & Hnd1 & Hl1 & ->) (l2 & Hnd2 & Hl2 & ->).
  apply Permutation_length.
  apply list.NoDup_Permutation; [exact Hnd1|exact Hnd2|].
  intros c. by rewrite Hl1, Hl2.
Qed.

Lemma unique_count_fun (col : list cell) (n m : nat) :
  unique_count col n → unique_count col m → n = m.
Proof.
  intros (k1 & Hk1 & ->) (k2 & Hk2 & ->).
  by rewrite (present_count_fun col k1 k2).
Qed.

(** The candidates are the discrete and string columns of the model,
    each with what [np_unique_size] gives for its column, and the column
    returned is a candidate with the largest number. *)
Lemma gene_column_identifier_candidates (w : OWGenes) (t : Table) :
  input_data w = Some t →
  table_wf t →
  model_of_domain (tab_domain t) (gene_columns_model w) →
  omap is_candidate (gene_columns_model w) ≠ [] →
  ∃ cs best n,
    candidates w = Ok cs ∧
    cs.*1 = omap is_candidate (gene_columns_model w) ∧
    (∀ c m, (c, m) ∈ cs →
       ∃ p view, domain_index_var (tab_domain t) c = Some p ∧
                 get_column_view t p = Ok view ∧ m = np_unique_size view) ∧
    gene_column_identifier w = Ok best ∧
    (best, n) ∈ cs ∧
    (∀ c m, (c, m) ∈ cs → m ≤ n).
Proof.
  intros Hin Hwf Hdom Hne.
  unfold gene_column_identifier, candidates. rewrite Hin. simpl.
  set (f := λ col : variable,
        match domain_index_var (tab_domain t) col with
        | Some p => view ← get_column_view t p; Ok (col, np_unique_size view)
        | None => Raise ValueError
        end).
  change (mapR _ (omap is_candidate (gene_columns_model w)))
    with (mapR f (omap is_candidate (gene_columns_model w))).
  assert (Hf : ∀ c, c ∈ omap is_candidate (gene_columns_model w) →
                    ∃ y, f c = Ok y).
  { intros c Hc. apply list_elem_of_omap in Hc as (it & Hit & Hc).
    apply is_candidate_Some in Hc as ->.
    unfold model_of_domain in Hdom. rewrite Forall_forall in Hdom.
    destruct (Hdom _ Hit) as [p Hp]. unfold f. rewrite Hp.
    apply domain_find_Some in Hp as (v & Hv & _).
    destruct (get_column_view_total t p v Hwf Hv) as [col Hcol].
    rewrite Hcol. simpl. eexists. reflexivity. }
  destruct (mapR_total f _ Hf) as [cs Hcs]. rewrite Hcs. simpl.
  assert (Hcs2 := Hcs). apply mapR_Forall2 in Hcs2.
  assert (Hfst : cs.*1 = omap is_candidate (gene_columns_model w)).
  { clear -Hcs2. induction Hcs2 as [|c y l ys Hy _ IH]; [done|].
    rewrite fmap_cons, IH. f_equal. unfold f in Hy.
    destruct (domain_index_var (tab_domain t) c); [|discriminate].
    destruct (get_column_view t p); simpl in Hy; [|discriminate].
    by injection Hy as <-. }
  assert (Hcsne : cs ≠ []).
  { intros ->. apply Hne. by rewrite <- Hfst. }
  destruct (last_sorted_is_Some snd cs Hcsne) as [[best n] Hlast].
  rewrite Hlast. apply last_sorted_max in Hlast as [Hbest Hmax].
  exists cs, best, n. split; [reflexivity|]. split; [exact Hfst|].
  split; [|split; [reflexivity|]; split; [exact Hbest|]].
  - intros c m Hcm.
    destruct (mapR_elem_of f _ _ _ Hcs Hcm) as (c' & _ & Hc'). unfold f in Hc'.
    destruct (domain_index_var (tab_domain t) c') as [p|] eqn:Hp;
      [|discriminate].
    destruct (get_column_view t p) as [view|] eqn:Hview; simpl in Hc';
      [|discriminate].
    injection Hc' as <- <-. exists p, view. done.
  - intros c m Hcm. apply (Hmax (c, m) Hcm).
Qed.


(** ** What a method leaves unchanged *)

Section keeps.
Context {B : Type} (proj : OWGenes → B).

Lemma keeps_ret {A} (a : A) : keeps proj (mret a).
Proof. intros w. reflexivity. Qed.

Lemma keeps_get : keeps proj get.
Proof. intros w. reflexivity. Qed.

Lemma keeps_lift {A} (r : result A) : keeps proj (lift r).
Proof. intros w. reflexivity. Qed.

Lemma keeps_modify f : (∀ w, proj (f w) = proj w) → keeps proj (modify f).
Proof. intros H w. apply H. Qed.

Lemma keeps_bind {A C} (m : M A) (f : A → M C) :
  keeps proj m → (∀ a, keeps proj (f a)) → keeps proj (m ≫= f).
Proof.
  intros Hm Hf w. unfold mbind, M_bind. specialize (Hm w).
  destruct (m w) as [[a|e] w1]; simpl in *.
  - rewrite Hf. exact Hm.
  - exact Hm.
Qed.
End keeps.

Lemma send_keeps {B} (proj : OWGenes → B) s :
  (∀ x w, proj (set_outputs x w) = proj w) → keeps proj (send s).
Proof. intros H. apply keeps_modify. intros w. apply H. Qed.

(** Goals [keeps proj m] for a method [m] built from the monad's
    operations and case distinctions. *)
Ltac keeps_step :=
  first
    [ apply keeps_ret | apply keeps_get | apply keeps_lift
    | apply send_keeps; assumption
    | apply keeps_modify; intros; reflexivity
    | apply keeps_bind; [|intros]
    | match goal with
      | |- keeps _ (match ?x with _ => _ end) => destruct x
      | |- keeps _ (if ?x then _ else _) => destruct x
      end ].
Ltac keeps_tac := repeat keeps_step.

Lemma commit_keeps {B} (proj : OWGenes → B) :
  (∀ x w, proj (set_outputs x w) = proj w) →
  (∀ x w, proj (set_input_data x w) = proj w) → keeps proj commit.
Proof.
  intros H H'. unfold commit.
  repeat first
    [ keeps_step | apply keeps_modify; intros; apply H' ].
Qed.

Lemma self_commit_keeps {B} (proj : OWGenes → B) :
  (∀ x w, proj (set_outputs x w) = proj w) →
  (∀ x w, proj (set_input_data x w) = proj w) →
  (∀ x w, proj (set_commit_dirty x w) = proj w) → keeps proj self_commit.
Proof.
  intros H1 H3 H2. unfold self_commit.
  apply keeps_bind; [apply keeps_get|]. intros w.
  destruct (auto_commit w).
  - apply keeps_bind; [by apply commit_keeps|]. intros _.
    apply keeps_modify. intros. apply H2.
  - apply keeps_modify. intros. apply H2.
Qed.

(** ** Running a method *)

Lemma modify_bind {C} f (k : unit → M C) w : (modify f ≫= k) w = k tt (f w).
Proof. reflexivity. Qed.

Lemma get_bind {C} (k : OWGenes → M C) w : (get ≫= k) w = k w w.
Proof. reflexivity. Qed.

Lemma lift_bind_Ok {A C} (r : result A) (k : A → M C) w a :
  r = Ok a → (lift r ≫= k) w = k a w.
Proof. intros ->. reflexivity. Qed.

Lemma bind_Ok {A C} (m : M A) (k : A → M C) w a w1 :
  m w = (Ok a, w1) → (m ≫= k) w = k a w1.
Proof. intros H. unfold mbind, M_bind. rewrite H. reflexivity. Qed.

Lemma bind_assoc {A B C} (m : M A) (f : A → M B) (g : B → M C) w :
  ((m ≫= f) ≫= g) w = (m ≫= λ a, f a ≫= g) w.
Proof. unfold mbind, M_bind. by destruct (m w) as [[a|e] w1]. Qed.

Lemma _update_info_box_run w :
  ∃ s, _update_info_box w = (Ok tt, set_info_box s w).
Proof.
  unfold _update_info_box. rewrite get_bind.
  destruct (input_genes w) as [[|n ns]|], (gene_matcher w);
    eexists; reflexivity.
Qed.

Lemma __reset_widget_state_run w :
  ∃ s, __reset_widget_state w =
       (Ok tt,
        set_info_box s
          (set_unknown_model (UnknownGeneInfoModel_clear (unknown_model w))
             (set_table_model (GeneInfoModel_clear (table_model w))
                (set_table_view None w)))).
Proof.
  unfold __reset_widget_state. rewrite !modify_bind.
  match goal with |- context [_update_info_box ?w'] =>
    destruct (_update_info_box_run w') as [s Hs] end.
  exists s. exact Hs.
Qed.

Lemma toggle_radio_options_ok w gm :
  gene_matcher w = Some gm → fst (toggle_radio_options w) = Ok tt.
Proof.
  intros Hgm. unfold toggle_radio_options. rewrite get_bind, modify_bind.
  erewrite lift_bind_Ok; [|simpl; rewrite Hgm; reflexivity].
  by destruct (genes gm).
Qed.

(** ** The display models *)

Lemma filter_has_ncbi_id_partition (gs : list Gene) :
  List.filter has_ncbi_id gs ++
  List.filter (λ g, negb (has_ncbi_id g)) gs ≡ₚ gs.
Proof.
  induction gs as [|g gs IH]; simpl; [done|].
  destruct (has_ncbi_id g); simpl.
  - by rewrite IH.
  - rewrite <- Permutation_middle. by rewrite IH.
Qed.

(** The two display models divide the gene list they are initialised
    with. *)
Lemma initialize_partition (tm : GeneInfoModel)
  (um : UnknownGeneInfoModel) (gs : list Gene) :
  ∃ shown unknown : list Gene,
    GeneInfoModel_initialize gs tm =
      (Ok tt, mkGeneInfoModel (Some gs) (Some (map to_list shown))
                (map to_list shown) (length shown) (row_cache tm)) ∧
    ugm_items (UnknownGeneInfoModel_initialize um gs) =
      [String.concat ", " (map input_name unknown)] ∧
    (∀ g, g ∈ shown ↔ g ∈ gs ∧ has_ncbi_id g = true) ∧
    (∀ g, g ∈ unknown ↔ g ∈ gs ∧ has_ncbi_id g = false) ∧
    (∀ g, g ∈ gs →
       (g ∈ shown ∧ (g ∉ unknown)) ∨ ((g ∉ shown) ∧ g ∈ unknown)) ∧
    shown ++ unknown ≡ₚ gs ∧
    sublist shown gs ∧ sublist unknown gs.
Proof.
  exists (List.filter has_ncbi_id gs),
         (List.filter (λ g, negb (has_ncbi_id g)) gs).
  assert (Hs : ∀ g, g ∈ List.filter has_ncbi_id gs
                    ↔ g ∈ gs ∧ has_ncbi_id g = true).
  { intros g. rewrite !list_elem_of_In. apply filter_In. }
  assert (Hu : ∀ g, g ∈ List.filter (λ g, negb (has_ncbi_id g)) gs
                    ↔ g ∈ gs ∧ has_ncbi_id g = false).
  { intros g. rewrite !list_elem_of_In, filter_In.
    by rewrite negb_true_iff. }
  split.
  { unfold GeneInfoModel_initialize, show_table, wrap. simpl.
    by rewrite length_map. }
  split; [reflexivity|].
  split; [exact Hs|]. split; [exact Hu|]. split; [|split; [|split]].
  - intros g Hg. rewrite Hs, Hu. destruct (has_ncbi_id g); [left|right];
      split; try done; intros [_ ?]; done.
  - apply filter_has_ncbi_id_partition.
  - clear. induction gs as [|g gs IH]; simpl; [constructor|].
    destruct (has_ncbi_id g); by constructor.
  - clear. induction gs as [|g gs IH]; simpl; [constructor|].
    destruct (has_ncbi_id g); by constructor.
Qed.

(** ** The output options *)

Lemma get_known_genes_length gm :
  length (get_known_genes gm) ≤ length (genes gm).
Proof. unfold get_known_genes. apply List.filter_length_le. Qed.

(** C7, as the code has it. With a gene matcher whose gene list is not
    empty, [toggle_radio_options] returns and sets [exclude_unmatched],
    whatever it was, to true exactly when fewer genes are known than the
    matcher holds; with an empty gene list it leaves the setting as it
    was. *)
Theorem toggle_radio_options_exclude (w : OWGenes) (gm : GeneMatcher) :
  gene_matcher w = Some gm →
  fst (toggle_radio_options w) = Ok tt ∧
  (genes gm ≠ [] →
   (exclude_unmatched (snd (toggle_radio_options w)) = true
    ↔ length (get_known_genes gm) < length (genes gm))) ∧
  (genes gm = [] →
   exclude_unmatched (snd (toggle_radio_options w)) = exclude_unmatched w).
Proof.
  intros Hgm. unfold toggle_radio_options, mbind, M_bind, get, modify, lift.
  simpl. rewrite Hgm. simpl.
  pose proof (get_known_genes_length gm) as Hle.
  destruct (genes gm) as [|g gs] eqn:Hgs; simpl.
  - split; [reflexivity|]. split; [done|]. reflexivity.
  - split; [reflexivity|]. split; [|done]. intros _.
    simpl in Hle. destruct (length (get_known_genes gm)) as [|m]; simpl.
    + split; [lia|done].
    + rewrite negb_true_iff, Nat.eqb_neq. lia.
Qed.

Lemma toggle_radio_options_keeps {B} (proj : OWGenes → B) :
  (∀ x w, proj (set_replace_radio x w) = proj w) →
  (∀ x w, proj (set_exclude_radio x w) = proj w) →
  (∀ x w, proj (set_exclude_unmatched x w) = proj w) →
  keeps proj toggle_radio_options.
Proof.
  intros H1 H2 H3. unfold toggle_radio_options.
  apply keeps_bind; [apply keeps_get|]. intros w.
  apply keeps_bind; [apply keeps_modify; intros; apply H1|]. intros _.
  apply keeps_bind; [apply keeps_lift|]. intros gm.
  destruct (genes gm); [apply keeps_ret|].
  apply keeps_bind; [apply keeps_modify; intros; apply H2|]. intros _.
  apply keeps_modify. intros. apply H3.
Qed.

Lemma GeneInfoModel_initialize_Ok gs m :
  fst (GeneInfoModel_initialize gs m) = Ok tt.
Proof. reflexivity. Qed.

Lemma on_table_model_initialize {C} gs (k : unit → M C) w :
  (on_table_model (GeneInfoModel_initialize gs) ≫= k) w =
  k tt (set_table_model (snd (GeneInfoModel_initialize gs (table_model w))) w).
Proof. reflexivity. Qed.

Lemma _handle_matcher_results_models (w : OWGenes) (gm : GeneMatcher) :
  gene_matcher w = Some gm →
  table_model (snd (_handle_matcher_results w)) =
    snd (GeneInfoModel_initialize (genes gm) (table_model w)) ∧
  unknown_model (snd (_handle_matcher_results w)) =
    UnknownGeneInfoModel_initialize (unknown_model w) (genes gm).
Proof.
  intros Hgm. unfold _handle_matcher_results.
  destruct (_update_info_box_run w) as [s Hs].
  rewrite (bind_Ok _ _ _ _ _ Hs).
  set (w1 := set_info_box s w).
  assert (Hgm1 : gene_matcher w1 = Some gm) by exact Hgm.
  pose proof (toggle_radio_options_ok w1 gm Hgm1) as Hok.
  pose proof (toggle_radio_options_keeps gene_matcher
                (λ _ _, eq_refl) (λ _ _, eq_refl) (λ _ _, eq_refl) w1) as Hk1.
  pose proof (toggle_radio_options_keeps table_model
                (λ _ _, eq_refl) (λ _ _, eq_refl) (λ _ _, eq_refl) w1) as Hk2.
  pose proof (toggle_radio_options_keeps unknown_model
                (λ _ _, eq_refl) (λ _ _, eq_refl) (λ _ _, eq_refl) w1) as Hk3.
  destruct (toggle_radio_options w1) as [r w2] eqn:Ht. simpl in *. subst r.
  rewrite (bind_Ok _ _ _ _ _ Ht), get_bind.
  erewrite lift_bind_Ok; [|rewrite Hk1, Hgm1; reflexivity].
  rewrite on_table_model_initialize, !modify_bind.
  rewrite (self_commit_keeps table_model (λ _ _, eq_refl) (λ _ _, eq_refl)
             (λ _ _, eq_refl)).
  rewrite (self_commit_keeps unknown_model (λ _ _, eq_refl)
             (λ _ _, eq_refl) (λ _ _, eq_refl)).
  simpl. rewrite Hk2, Hk3. done.
Qed.

(** X18. After the results of a match run are handled, the two display
    models divide the matcher's gene list: the array [data_table] of the
    table model, and the array the model wraps, hold the rows of the
    genes with an Entrez id, the one item of the list of unknown genes is
    the input names of the genes without, joined by a comma and a space,
    each in the order of the gene list; a gene of the list is among the
    first exactly when it has an Entrez id and among the second exactly
    when it has none, so every gene is in exactly one of the two groups
    and the groups together are the gene list. The cache of the cells of
    the table model is what it was before. *)
Theorem display_models_partition (w : OWGenes) (gm : GeneMatcher) :
  gene_matcher w = Some gm →
  ∃ shown unknown : list Gene,
    table_model (snd (_handle_matcher_results w)) =
      mkGeneInfoModel (Some (genes gm)) (Some (map to_list shown))
        (map to_list shown) (length shown) (row_cache (table_model w)) ∧
    ugm_items (unknown_model (snd (_handle_matcher_results w))) =
      [String.concat ", " (map input_name unknown)] ∧
    (∀ g, g ∈ shown ↔ g ∈ genes gm ∧ has_ncbi_id g = true) ∧
    (∀ g, g ∈ unknown ↔ g ∈ genes gm ∧ has_ncbi_id g = false) ∧
    (∀ g, g ∈ genes gm →
       (g ∈ shown ∧ (g ∉ unknown)) ∨ ((g ∉ shown) ∧ g ∈ unknown)) ∧
    shown ++ unknown ≡ₚ genes gm ∧
    sublist shown (genes gm) ∧ sublist unknown (genes gm).
Proof.
  intros Hgm.
  destruct (_handle_matcher_results_models w gm Hgm) as [-> ->].
  destruct (initialize_partition (table_model w) (unknown_model w) (genes gm))
    as (shown & unknown & -> & H).
  by exists shown, unknown.
Qed.

(** C8, at two match runs. The genes of a first table are matched and
    the view paints the first cell of the table of matched genes, the
    name BRCA1. Then the table of the mouse arrives and its one gene,
    Trp53, is matched: it has an Entrez id, and the table model wraps its
    row. The view paints the first cell again and gets BRCA1, from the
    cache of [_row_instance], which [initialize] does not clear: the
    table shows a gene that is not in the matcher's list, and does not
    show the gene of the list that has an Entrez id. *)
Lemma display_stale_after_second_run :
  fst (paint_cell 0 0 w_rows) = Ok (Some "BRCA1") ∧
  gene_matcher w_second = Some (mkGeneMatcher matched_mouse "10090") ∧
  table_view w_second = Some [] ∧
  _table (table_model w_second) = [["Trp53"; "22059"; "Trp53"]] ∧
  fst (paint_cell 0 0 w_second) = Ok (Some "BRCA1") ∧
  (∀ g, g ∈ matched_mouse → has_ncbi_id g = true ∧ input_name g ≠ "BRCA1").
Proof.
  split; [vm_compute; reflexivity|]. split; [vm_compute; reflexivity|].
  split; [vm_compute; reflexivity|]. split; [vm_compute; reflexivity|].
  split; [vm_compute; reflexivity|].
  intros g Hg. apply list_elem_of_singleton in Hg as ->. by split.
Qed.

(** A text in the filter line clears the cache, and the cell is painted
    from the table the model wraps. *)
Example display_fresh_after_filter :
  fst (apply_filter "t" w_second) = Ok tt ∧
  fst (paint_cell 0 0 (snd (apply_filter "t" w_second))) = Ok (Some "Trp53").
Proof. split; vm_compute; reflexivity. Qed.

(** ** Receiving the input *)

Lemma on_input_option_change_keeps_tax_id : keeps tax_id on_input_option_change.
Proof.
  unfold on_input_option_change, __reset_widget_state, _update_info_box,
    _update_gene_matcher, gene_names_from_table, match_genes.
  keeps_tac.
Qed.

Lemma find_genes_location_keeps_tax_id : keeps tax_id find_genes_location.
Proof. unfold find_genes_location. keeps_tac. Qed.

Lemma openContext_keeps_tax_id d : keeps tax_id (openContext d).
Proof. unfold openContext. keeps_tac. Qed.

(** C9. For an input table with instances and without an entry [TAX_ID]
    in its attributes, [handle_input] leaves the taxonomy id of the widget
    at ['9606'], whether the rest of the method returns or raises; the run
    of the matcher is started after that. *)
Theorem handle_input_default_tax_id (w : OWGenes) (t : Table) :
  tab_rows t ≠ [] →
  tab_attributes t !! TAX_ID = None →
  tax_id (snd (handle_input (Some t) w)) = Some "9606".
Proof.
  intros Hrows Hnone. unfold handle_input. rewrite !modify_bind.
  match goal with |- context [(__reset_widget_state ≫= _) ?w'] =>
    destruct (__reset_widget_state_run w') as [s Hs] end.
  rewrite (bind_Ok _ _ _ _ _ Hs), !modify_bind.
  assert (Htruthy : table_truthy (Some t) = true).
  { simpl. by rewrite bool_decide_eq_false_2. }
  rewrite Htruthy, !modify_bind.
  match goal with |- tax_id (snd (?m ?w')) = _ =>
    assert (Hk : keeps tax_id m) end.
  { apply keeps_bind; [apply keeps_get|]. intros w0.
    apply keeps_bind; [keeps_tac|]. intros _.
    apply keeps_bind; [apply openContext_keeps_tax_id|]. intros _.
    apply keeps_bind; [apply find_genes_location_keeps_tax_id|]. intros _.
    apply on_input_option_change_keeps_tax_id. }
  rewrite Hk. simpl. rewrite Hnone. reflexivity.
Qed.

(** ** Reading the gene names *)

Lemma drop_char_Some chars l l' :
  drop_char chars l = Some l' → ∃ c, c ∈ chars ∧ l = c ++ l'.
Proof.
  unfold drop_char.
  destruct (list_find _ chars) as [[i c]|] eqn:Hfind; [|discriminate].
  intros [= <-]. apply list_find_Some in Hfind as (Hi & [k ->] & _).
  exists c. split; [by eapply list_elem_of_lookup_2|].
  by rewrite drop_app_length.
Qed.

Lemma drop_char_None chars l c :
  drop_char chars l = None → c ∈ chars → ¬ c `prefix_of` l.
Proof.
  unfold drop_char.
  destruct (list_find _ chars) as [[i c']|] eqn:Hfind; [discriminate|].
  intros _ Hc. apply list_find_None in Hfind.
  rewrite Forall_forall in Hfind. by apply Hfind.
Qed.

Lemma lstrip_by_spec chars fuel l :
  Forall (λ c, c ≠ []) chars →
  length l ≤ fuel →
  ∃ run, Forall (λ c, c ∈ chars) run ∧
         l = concat run ++ lstrip_by chars fuel l ∧
         ∀ c, c ∈ chars → ¬ c `prefix_of` lstrip_by chars fuel l.
Proof.
  intros Hne. revert l. induction fuel as [|fuel IH]; intros l Hlen.
  - destruct l; [|simpl in Hlen; lia]. exists []. simpl.
    split; [constructor|]. split; [reflexivity|].
    intros c Hc Hpre. rewrite Forall_forall in Hne.
    apply (Hne c Hc). by apply prefix_nil_inv.
  - simpl. destruct (drop_char chars l) as [l'|] eqn:Hdrop.
    + apply drop_char_Some in Hdrop as (c & Hc & ->).
      rewrite Forall_forall in Hne. pose proof (Hne c Hc) as Hcne.
      destruct (IH l') as (run & Hrun & Hl' & Hno).
      { rewrite length_app in Hlen. destruct c; [done|]. simpl in Hlen. lia. }
      exists (c :: run). split; [by constructor|]. split; [|exact Hno].
      simpl. rewrite <- app_assoc. by rewrite <- Hl'.
    + exists []. split; [constructor|]. split; [reflexivity|].
      intros c Hc. by eapply drop_char_None.
Qed.

Lemma whitespace_ne : Forall (λ c : list ascii, c ≠ []) whitespace.
Proof. repeat constructor; discriminate. Qed.

Lemma lstrip_spec l :
  ∃ pre, white pre ∧ l = pre ++ lstrip l ∧
         ∀ c, c ∈ whitespace → ¬ c `prefix_of` lstrip l.
Proof.
  destruct (lstrip_by_spec whitespace (length l) l whitespace_ne)
    as (run & Hrun & Hl & Hno); [done|].
  exists (concat run). split; [by exists run|]. done.
Qed.

Lemma reverse_concat (run : list (list ascii)) :
  reverse (concat run) = concat (reverse (map reverse run)).
Proof.
  induction run as [|c run IH]; [reflexivity|]. simpl.
  rewrite reverse_app, IH, reverse_cons, concat_app. simpl.
  by rewrite app_nil_r.
Qed.

Lemma rstrip_spec l :
  ∃ suf, white suf ∧ l = rstrip l ++ suf ∧
         ∀ c, c ∈ whitespace → ¬ c `suffix_of` rstrip l.
Proof.
  destruct (lstrip_by_spec (map reverse whitespace) (length l) (reverse l))
    as (run & Hrun & Hl & Hno).
  { apply Forall_fmap, Forall_forall. intros c Hc. simpl.
    pose proof whitespace_ne as Hne. rewrite Forall_forall in Hne.
    intros Hrev. apply (Hne c Hc).
    apply (f_equal reverse) in Hrev. by rewrite reverse_involutive in Hrev. }
  { by rewrite length_reverse. }
  exists (reverse (concat run)). split; [|split].
  - exists (reverse (map reverse run)). split; [|apply reverse_concat].
    apply Forall_reverse, Forall_fmap. eapply Forall_impl; [exact Hrun|].
    intros c Hc. simpl. apply list_elem_of_fmap in Hc as (c' & -> & Hc').
    by rewrite reverse_involutive.
  - unfold rstrip. rewrite <- reverse_app, <- Hl.
    by rewrite reverse_involutive.
  - intros c Hc Hsuf. unfold rstrip in Hsuf.
    apply (Hno (reverse c)); [by apply list_elem_of_fmap_2|].
    apply suffix_prefix_reverse in Hsuf.
    by rewrite reverse_involutive in Hsuf.
Qed.

Lemma strip_stripped (s : string) : stripped s (strip s).
Proof.
  destruct (lstrip_spec (bytes s)) as (pre & Hpre & Hs & Hno_pre).
  destruct (rstrip_spec (lstrip (bytes s))) as (suf & Hsuf & Hm & Hno_suf).
  exists pre, suf. unfold strip, bytes in *.
  rewrite String.list_ascii_of_string_of_list_ascii.
  split; [by rewrite <- Hm|]. split; [exact Hpre|]. split; [exact Hsuf|].
  split; [|exact Hno_suf].
  intros c Hc Hpref. apply (Hno_pre c Hc).
  rewrite Hm at 1. by apply prefix_app_r.
Qed.


Lemma column_names_spec (t : Table) (col : variable) (names : list string) :
  tab_rows t ≠ [] →
  column_names t col = Ok names →
  ∃ p, domain_index_var (tab_domain t) col = Some p ∧
       Forall2 (λ e s, row_str (var_type_of col) p e = Ok s)
               (List.filter (λ e, negb (row_missing (var_type_of col) p e))
                            (tab_rows t))
               names.
Proof.
  intros Hrows. unfold column_names.
  destruct (domain_index_var (tab_domain t) col) as [p|].
  2: { rewrite bool_decide_eq_false_2 by done. discriminate. }
  destruct (mapR _ (tab_rows t)) as [ns|] eqn:Hns; simpl; [|discriminate].
  intros [= <-]. exists p. split; [reflexivity|].
  apply mapR_Forall2 in Hns. clear Hrows.
  induction Hns as [|e o rs ns He _ IH]; simpl; [constructor|].
  unfold gene_name_of in He. unfold row_missing at 1.
  destruct (row_cell e p) as [c|] eqn:Hc; [|discriminate].
  destruct (Value (var_type_of col) c) as [v|] eqn:Hv; simpl in He;
    [|discriminate].
  destruct (value_isnan v); simpl.
  - injection He as <-. simpl. exact IH.
  - destruct (str_val (var_type_of col) v) as [s|] eqn:Hsv; simpl in He;
      [|discriminate].
    injection He as <-. simpl. constructor; [|exact IH].
    unfold row_str. rewrite Hc, Hv. simpl. exact Hsv.
Qed.

Lemma column_names_total_string (t : Table) (col : variable) (p : place) :
  table_wf t →
  var_type_of col = StringVariable →
  domain_index_var (tab_domain t) col = Some p →
  ∃ names, column_names t col = Ok names.
Proof.
  intros Hwf Hty Hp. unfold column_names. rewrite Hp.
  destruct (mapR_total (gene_name_of (var_type_of col) p) (tab_rows t))
    as [ns Hns].
  - intros e He. apply domain_find_Some in Hp as (v & Hv & _).
    destruct (row_cell_is_Some t e p v Hwf He Hv) as [c Hc].
    unfold gene_name_of. rewrite Hc, Hty.
    destruct c as [z|s|]; simpl.
    + eexists. reflexivity.
    + destruct (String.eqb s ""); simpl; eexists; reflexivity.
    + eexists. reflexivity.
  - rewrite Hns. simpl. eexists. reflexivity.
Qed.

Lemma ret_bind {A C} (a : A) (k : A → M C) w : (mret a ≫= k) w = k a w.
Proof. reflexivity. Qed.

Lemma gene_names_tail_run (t : Table) (w1 : OWGenes) (col : variable) :
  selected_gene_col w1 = Some col →
  (get ≫= λ w', lift (attr_of (selected_gene_col w')) ≫= λ col,
     lift (column_names t col) ≫= λ names,
     modify (set_input_genes (Some names))) w1 =
  match column_names t col with
  | Ok names => (Ok tt, set_input_genes (Some names) w1)
  | Raise e => (Raise e, w1)
  end.
Proof.
  intros Hsel. rewrite get_bind, Hsel.
  erewrite lift_bind_Ok; [|reflexivity].
  by destruct (column_names t col).
Qed.


(** ** Assembling the outputs *)

(** The selection as [commit] hands it to the match report. *)
Lemma commit_run (w : OWGenes) :
  commit w =
  match table_view w with
  | None => (Raise AttributeError, w)
  | Some sel =>
      match get_target_ids w with
      | Raise e => (Raise e, w)
      | Ok ids =>
          match known_of ids with
          | [] =>
              (Ok tt, set_outputs (outputs w ++ [Data None; Genes None]) w)
          | k :: ks =>
              match input_data w, gene_matcher w with
              | Some t, Some gm =>
                  let report :=
                    to_data_table gm (match sel with
                                      | [] => None
                                      | _ => Some sel
                                      end) in
                  if negb (use_attr_names w) then
                    let w' :=
                      set_input_data
                        (Some (commit_rows_input w t ids sel)) w in
                    match commit_rows w t ids (k :: ks) sel with
                    | Ok tb =>
                        (Ok tt,
                         set_outputs
                           (outputs w ++ [Data (Some tb); Data (Some tb);
                                          Genes (Some report)]) w')
                    | Raise e => (Raise e, w')
                    end
                  else
                    let w' :=
                      set_input_data
                        (Some (commit_columns_input w t gm (k :: ks) sel))
                        w in
                    match commit_columns w t gm (k :: ks) sel with
                    | Ok tb =>
                        (Ok tt,
                         set_outputs
                           (outputs w ++ [Data (Some tb);
                                          Genes (Some report)]) w')
                    | Raise e => (Raise e, w')
                    end
              | _, _ => (Raise AttributeError, w)
              end
          end
      end
  end.
Proof.
  unfold commit. rewrite get_bind.
  destruct (table_view w) as [sel|]; [|reflexivity].
  erewrite lift_bind_Ok; [|reflexivity].
  destruct (get_target_ids w) as [ids|e]; [|reflexivity].
  erewrite lift_bind_Ok; [|reflexivity].
  destruct (known_of ids) as [|k ks].
  { unfold mbind, M_bind, send, modify, set_outputs. simpl.
    by rewrite <- app_assoc. }
  destruct (input_data w) as [t|]; [|by destruct (gene_matcher w)].
  destruct (gene_matcher w) as [gm|]; [|reflexivity].
  destruct (use_attr_names w); simpl negb; cbv iota;
    cbv [mbind M_bind lift attr_of mret M_ret].
  - destruct (commit_columns w t gm (k :: ks) sel) as [tb|e]; [|reflexivity].
    unfold send, modify, set_outputs. simpl. by rewrite <- app_assoc.
  - destruct (commit_rows w t ids (k :: ks) sel) as [tb|e]; [|reflexivity].
    unfold send, modify, set_outputs. simpl. by rewrite <- !app_assoc.
Qed.

Lemma filterR_elem_of {A} (p : A → result bool) l l' x :
  filterR p l = Ok l' → x ∈ l' → x ∈ l ∧ p x = Ok true.
Proof.
  revert l'. induction l as [|y l IH]; intros l'; simpl.
  - intros [= <-] Hx. inversion Hx.
  - destruct (p y) as [b|] eqn:Hy; simpl; [|discriminate].
    destruct (filterR p l) as [ys|]; simpl; [|discriminate].
    intros [= <-] Hx. destruct b.
    + apply elem_of_cons in Hx as [->|Hx].
      * split; [left|exact Hy].
      * destruct (IH ys eq_refl Hx). split; [by right|done].
    + destruct (IH ys eq_refl Hx). split; [by right|done].
Qed.

Lemma filterR_sublist {A} (p : A → result bool) l l' :
  filterR p l = Ok l' → sublist l' l.
Proof.
  revert l'. induction l as [|y l IH]; intros l'; simpl.
  - intros [= <-]. constructor.
  - destruct (p y) as [b|]; simpl; [|discriminate].
    destruct (filterR p l) as [ys|]; simpl; [|discriminate].
    intros [= <-]. destruct b; constructor; by apply IH.
Qed.

Lemma known_of_elem_of ids s : s ∈ known_of ids ↔ s ∈ ids ∧ s ≠ "?".
Proof.
  unfold known_of. rewrite !list_elem_of_In, filter_In, negb_true_iff.
  by rewrite String.eqb_neq.
Qed.

Lemma target_id_known g : target_id g ≠ "?" → has_ncbi_id g = true.
Proof.
  unfold target_id, has_ncbi_id. destruct (ncbi_id g) as [z|]; [|done].
  by destruct (Z.eqb z 0).
Qed.

(** A known id is the id of a gene of the matcher with an Entrez id. *)
Lemma known_of_gene gm s :
  s ∈ known_of (map target_id (genes gm)) →
  s ≠ "?" ∧ ∃ g, g ∈ genes gm ∧ has_ncbi_id g = true ∧ s = target_id g.
Proof.
  intros Hs. apply known_of_elem_of in Hs as [Hs Hq]. split; [exact Hq|].
  apply list_elem_of_fmap in Hs as (g & -> & Hg).
  exists g. split; [exact Hg|]. split; [|reflexivity].
  by apply target_id_known.
Qed.

Lemma cell_in_spec c values :
  cell_in c values = true ↔ ∃ s, c = Some (CStr s) ∧ s ∈ values.
Proof.
  destruct c as [[z|s|]|]; simpl.
  - split; [discriminate|]. by intros (s & [=] & _).
  - rewrite str_in_spec. split.
    + intros H. by exists s.
    + by intros (s' & [= ->] & H).
  - split; [discriminate|]. by intros (s & [=] & _).
  - split; [discriminate|]. by intros (s & [=] & _).
Qed.

(** *** Genes in rows *)

Lemma zip_set_elem_of p rs cs r' :
  length cs = length rs → r' ∈ zip_set p rs cs →
  ∃ r c, r ∈ rs ∧ c ∈ cs ∧ r' = row_set r p c.
Proof.
  revert cs. induction rs as [|r rs IH]; intros [|c cs] Hlen Hr';
    simpl in *; try discriminate.
  - inversion Hr'.
  - apply elem_of_cons in Hr' as [->|Hr'].
    + exists r, c. split; [left|]. split; [left|reflexivity].
    + destruct (IH cs) as (r0 & c0 & ? & ? & ?); [lia|exact Hr'|].
      exists r0, c0. split; [by right|]. split; [by right|done].
Qed.

Lemma assign_column_spec t p ids t' :
  assign_column t p ids = Ok t' →
  tab_domain t' = tab_domain t ∧
  tab_attributes t' = tab_attributes t ∧
  ∀ r', r' ∈ tab_rows t' →
    ∃ r id c, r ∈ tab_rows t ∧ id ∈ ids ∧ coerce p id = Ok c ∧
              r' = row_set r p c.
Proof.
  unfold assign_column.
  destruct (bool_decide (length ids = length (tab_rows t)) ||
            bool_decide (length ids = 1)) eqn:Hlen; [|discriminate].
  destruct (mapR (coerce p) ids) as [cs|] eqn:Hcs; simpl; [|discriminate].
  intros [= <-]. simpl. split; [reflexivity|]. split; [reflexivity|].
  intros r' Hr'.
  assert (Hcs_len := mapR_length _ _ _ Hcs).
  apply zip_set_elem_of in Hr' as (r & c & Hr & Hc & ->).
  - exists r.
    assert (Hc' : c ∈ cs).
    { case_bool_decide; [exact Hc|].
      apply elem_of_replicate in Hc as [-> _].
      destruct cs as [|c0 cs']; simpl.
      - destruct ids; [|discriminate].
        apply orb_true_iff in Hlen as [Hl|Hl]; discriminate.
      - left. }
    destruct (mapR_elem_of _ _ _ _ Hcs Hc') as (id & Hid & Hco).
    exists id, c. done.
  - case_bool_decide; [congruence|]. apply length_replicate.
Qed.

Lemma coerce_not_meta p id c :
  (∀ i, p ≠ Meta i) → coerce p id = Ok c → ∃ z, c = CNum z.
Proof.
  intros Hp. destruct p as [i|i|i]; simpl; [| |by destruct (Hp i)];
    destruct (py_float id) as [z|]; simpl; try discriminate;
    intros [= <-]; by exists z.
Qed.

Lemma row_cell_row_set r p c :
  row_cell (row_set r p c) p = None ∨ row_cell (row_set r p c) p = Some c.
Proof.
  destruct p as [i|i|i]; simpl.
  - destruct (decide (i < length (row_X r))).
    + right. by apply list_lookup_insert_eq.
    + left. apply lookup_ge_None. rewrite length_insert. lia.
  - destruct (decide (i < length (row_Y r))).
    + right. by apply list_lookup_insert_eq.
    + left. apply lookup_ge_None. rewrite length_insert. lia.
  - destruct (decide (i < length (row_metas r))).
    + right. by apply list_lookup_insert_eq.
    + left. apply lookup_ge_None. rewrite length_insert. lia.
Qed.

Lemma table_rows_at_spec t idx t' :
  table_rows_at t idx = Ok t' →
  tab_domain t' = tab_domain t ∧ tab_attributes t' = tab_attributes t ∧
  ∀ r, r ∈ tab_rows t' → r ∈ tab_rows t.
Proof.
  unfold table_rows_at.
  destruct (mapR (py_index (tab_rows t)) idx) as [rs|] eqn:Hrs; simpl;
    [|discriminate].
  intros [= <-]. simpl. split; [reflexivity|]. split; [reflexivity|].
  intros r Hr. destruct (mapR_elem_of _ _ _ _ Hrs Hr) as (i & _ & Hi).
  unfold py_index in Hi. destruct (tab_rows t !! i) as [r0|] eqn:Hl;
    [|discriminate].
  injection Hi as ->. by eapply list_elem_of_lookup_2.
Qed.

(** What the branch for genes in rows returns: the domain with the gene
    variable, the three attributes of the table, rows that hold an id of
    the matcher in the gene column and, when unmatched genes are
    excluded, only rows whose id is known. *)
Lemma commit_rows_spec w t ids known sel tb :
  commit_rows w t ids known sel = Ok tb →
  let gv := gene_variable (target_database w) (tab_domain t) in
  ∃ org,
    get_selected_organism w = Ok org ∧
    tab_domain tb = mkDomain (dom_attributes (tab_domain t))
                             (dom_class_vars (tab_domain t)) gv.2 ∧
    tab_attributes tb =
      <[GENE_ID_COLUMN := PStr (target_database w)]>
        (<[GENE_AS_ATTRIBUTE_NAME := PBool false]>
           (<[TAX_ID := PStr org]> (tab_attributes t))) ∧
    (∀ r', r' ∈ tab_rows tb →
       ∃ r id c, r ∈ tab_rows (transform_rows t gv.2) ∧ id ∈ ids ∧
                 coerce gv.1.2 id = Ok c ∧ r' = row_set r gv.1.2 c) ∧
    (exclude_unmatched w = true →
     ∀ r', r' ∈ tab_rows tb → cell_in (row_cell r' gv.1.2) known = true).
Proof.
  unfold commit_rows.
  destruct (gene_variable (target_database w) (tab_domain t))
    as [[gene_var p] metas]. simpl.
  destruct (assign_column (transform_rows t metas) p ids) as [t1|] eqn:Ht1;
    simpl; [|discriminate].
  destruct (selected_rows_from _ _ _ _ _) as [rows|]; simpl; [|discriminate].
  destruct (get_selected_organism w) as [org|]; simpl; [|discriminate].
  apply assign_column_spec in Ht1 as (Hd1 & Ha1 & Hr1).
  set (t2 := set_table_attributes _ t1).
  assert (Ht3 : ∀ t3,
    match rows with [] => Ok t2 | _ => table_rows_at t2 rows end = Ok t3 →
    tab_domain t3 = tab_domain t2 ∧ tab_attributes t3 = tab_attributes t2 ∧
    ∀ r, r ∈ tab_rows t3 → r ∈ tab_rows t2).
  { intros t3. destruct rows.
    - intros [= <-]. done.
    - apply table_rows_at_spec. }
  destruct (match rows with [] => Ok t2 | _ => _ end) as [t3|]; simpl;
    [|discriminate].
  destruct (Ht3 t3 eq_refl) as (Hd3 & Ha3 & Hr3). clear Ht3.
  intros [= <-]. exists org. split; [reflexivity|].
  split; [|split; [|split]].
  - destruct (exclude_unmatched w); simpl; rewrite Hd3; simpl;
      rewrite Hd1; reflexivity.
  - destruct (exclude_unmatched w); simpl; rewrite Ha3; simpl;
      rewrite Ha1; reflexivity.
  - intros r' Hr'. apply Hr1, Hr3.
    destruct (exclude_unmatched w); simpl in Hr'; [|exact Hr'].
    apply list_elem_of_In, filter_In in Hr' as [Hr' _].
    by apply list_elem_of_In.
  - intros -> r' Hr'. simpl in Hr'.
    apply list_elem_of_In, filter_In in Hr' as [_ Hr']. exact Hr'.
Qed.

Lemma zip_set_lookup p rs cs j r' :
  length cs = length rs → zip_set p rs cs !! j = Some r' →
  ∃ r c, rs !! j = Some r ∧ cs !! j = Some c ∧ r' = row_set r p c.
Proof.
  revert cs j. induction rs as [|r rs IH]; intros [|c cs] j Hlen Hj;
    simpl in *; try discriminate.
  destruct j as [|j]; simpl in *.
  - injection Hj as <-. by exists r, c.
  - apply IH; [lia|exact Hj].
Qed.

Lemma mapR_lookup {A B} (f : A → result B) l ys j y :
  mapR f l = Ok ys → ys !! j = Some y → ∃ x, l !! j = Some x ∧ f x = Ok y.
Proof.
  intros H Hy. apply mapR_Forall2 in H.
  destruct (Forall2_lookup_r _ _ _ _ _ H Hy) as (x & Hx & Hf). by exists x.
Qed.

Lemma assign_column_lookup t p ids t' j r' :
  assign_column t p ids = Ok t' → length ids = length (tab_rows t) →
  tab_rows t' !! j = Some r' →
  ∃ r id c, tab_rows t !! j = Some r ∧ ids !! j = Some id ∧
            coerce p id = Ok c ∧ r' = row_set r p c.
Proof.
  unfold assign_column. intros H Hlen.
  rewrite (bool_decide_eq_true_2 _ Hlen) in H. simpl in H.
  destruct (mapR (coerce p) ids) as [cs|] eqn:Hcs; simpl in H;
    [|discriminate].
  injection H as <-. simpl. intros Hj.
  apply zip_set_lookup in Hj as (r & c & Hr & Hc & ->);
    [|by rewrite (mapR_length _ _ _ Hcs)].
  destruct (mapR_lookup _ _ _ _ _ Hcs Hc) as (id & Hid & Hco).
  by exists r, id, c.
Qed.

(** With an id for each instance of the input, an instance of the result
    is the instance at some index of the input with the id at that index
    written into the gene column. *)
Lemma commit_rows_aligned w t ids known sel tb :
  commit_rows w t ids known sel = Ok tb →
  length ids = length (tab_rows t) →
  let gv := gene_variable (target_database w) (tab_domain t) in
  ∀ r', r' ∈ tab_rows tb →
    ∃ j r id c, tab_rows (transform_rows t gv.2) !! j = Some r ∧
                ids !! j = Some id ∧ coerce gv.1.2 id = Ok c ∧
                r' = row_set r gv.1.2 c.
Proof.
  unfold commit_rows.
  destruct (gene_variable (target_database w) (tab_domain t))
    as [[gene_var p] metas]. simpl.
  destruct (assign_column (transform_rows t metas) p ids) as [t1|] eqn:Ht1;
    simpl; [|discriminate].
  destruct (selected_rows_from _ _ _ _ _) as [rows|]; simpl; [|discriminate].
  destruct (get_selected_organism w) as [org|]; simpl; [|discriminate].
  set (t2 := set_table_attributes _ t1).
  assert (Ht3 : ∀ t3,
    match rows with [] => Ok t2 | _ => table_rows_at t2 rows end = Ok t3 →
    ∀ r, r ∈ tab_rows t3 → r ∈ tab_rows t1).
  { intros t3. destruct rows.
    - intros [= <-]. done.
    - intros H. by apply table_rows_at_spec in H as (_ & _ & H). }
  destruct (match rows with [] => Ok t2 | _ => _ end) as [t3|]; simpl;
    [|discriminate].
  intros [= <-] Hlen r' Hr'.
  assert (Hr1 : r' ∈ tab_rows t1).
  { apply (Ht3 t3 eq_refl).
    destruct (exclude_unmatched w); simpl in Hr'; [|exact Hr'].
    apply list_elem_of_In, filter_In in Hr' as [Hr' _].
    by apply list_elem_of_In. }
  apply list_elem_of_lookup in Hr1 as [j Hj].
  assert (Hlen' : length ids = length (tab_rows (transform_rows t metas)))
    by (simpl; by rewrite length_map).
  destruct (assign_column_lookup _ _ _ _ _ _ Ht1 Hlen' Hj)
    as (r & id & c & Hr & Hid & Hc & ->).
  by exists j, r, id, c.
Qed.

(** *** Genes in columns *)

Lemma domain_var_alter f p' d p :
  domain_var (domain_alter f p' d) p =
  if decide (p = p') then f <$> domain_var d p else domain_var d p.
Proof.
  case_decide as Hp.
  - subst p'. destruct p; simpl; apply list_lookup_alter_eq.
  - destruct p' as [j|j|j], p as [i|i|i]; simpl; try reflexivity;
      apply list_lookup_alter_ne; congruence.
Qed.

Lemma annotate_fold_var target replace d0 gs d p :
  domain_var (fold_left (annotate_gene target replace d0) gs d) p =
  annotate_all target replace (resolving_genes d0 p gs) <$> domain_var d p.
Proof.
  revert d. induction gs as [|g gs IH]; intros d; simpl.
  - by destruct (domain_var d p).
  - rewrite IH. unfold annotate_gene.
    destruct (domain_index_name d0 (input_name g)) as [p'|] eqn:Hp'.
    + rewrite domain_var_alter. case_bool_decide as Hdec.
      * injection Hdec as ->. rewrite decide_True by reflexivity.
        by destruct (domain_var d p).
      * rewrite decide_False by congruence. reflexivity.
    + rewrite bool_decide_eq_false_2 by discriminate. reflexivity.
Qed.

(** The variable at a place of the annotated domain is the variable of
    the input there after the loop body ran for the genes that resolve to
    it. *)
Lemma annotate_domain_var target replace gs d0 p :
  domain_var (annotate_domain target replace gs d0) p =
  annotate_all target replace (resolving_genes d0 p gs) <$> domain_var d0 p.
Proof. apply annotate_fold_var. Qed.

Lemma annotate_all_snoc target replace gs g v :
  annotate_all target replace (gs ++ [g]) v =
  annotate_variable target replace g (annotate_all target replace gs v).
Proof. unfold annotate_all. by rewrite fold_left_app. Qed.

Lemma last_inv {A} (l : list A) x :
  last l = Some x → ∃ l' : list A, l = l' ++ [x].
Proof.
  destruct l as [|y l0 _] using rev_ind; [discriminate|].
  rewrite last_snoc. intros [= ->]. by exists l0.
Qed.

(** After the loop the attribute [target] of a variable is the id of the
    last gene that resolved to it. *)
Lemma annotate_all_attribute target replace gs g v :
  last gs = Some g →
  var_attributes (annotate_all target replace gs v) !! target =
    Some (PStr (target_id g)).
Proof.
  intros Hlast. apply last_inv in Hlast as [gs' ->].
  rewrite annotate_all_snoc. simpl. apply lookup_insert_eq.
Qed.

(** With [replace_id_with_symbol] the name of a variable is after the
    loop the symbol of the last gene that resolved to it, when that gene
    has a symbol. *)
Lemma annotate_all_name target gs g s v :
  last gs = Some g → symbol g = Some s →
  var_name (annotate_all target true gs v) = s.
Proof.
  intros Hlast Hs. apply last_inv in Hlast as [gs' ->].
  rewrite annotate_all_snoc. simpl. by rewrite Hs.
Qed.

Lemma annotate_all_nil target replace v :
  annotate_all target replace [] v = v.
Proof. reflexivity. Qed.

Lemma annotate_all_no_replace target gs v :
  var_name (annotate_all target false gs v) = var_name v.
Proof.
  revert v. induction gs as [|g gs IH]; intros v; [reflexivity|].
  unfold annotate_all in *. simpl. by rewrite IH.
Qed.

Lemma enumerate_elem_of {A} (l : list A) i x :
  (i, x) ∈ enumerate l ↔ l !! i = Some x.
Proof.
  unfold enumerate. rewrite list_elem_of_lookup. split.
  - intros (k & Hk). apply lookup_zip_with_Some in Hk
      as (i' & x' & [= <- <-] & Hi & Hx).
    apply lookup_seq in Hi as [-> _]. exact Hx.
  - intros Hx. exists i. apply lookup_zip_with_Some. exists i, x.
    split; [reflexivity|]. split; [|exact Hx].
    apply lookup_seq. split; [reflexivity|]. by eapply lookup_lt_Some.
Qed.

Lemma List_filter_sublist {A} (f : A → bool) l : sublist (List.filter f l) l.
Proof.
  induction l as [|x l IH]; simpl; [constructor|].
  destruct (f x); by constructor.
Qed.

Lemma enumerate_snd {A} (l : list A) : (enumerate l).*2 = l.
Proof. unfold enumerate. apply snd_zip. by rewrite length_seq. Qed.

Lemma pyval_in_spec v known :
  pyval_in v known = true ↔ ∃ s, v = PStr s ∧ s ∈ known.
Proof.
  destruct v as [s|z|b]; simpl.
  - rewrite str_in_spec. split; [by exists s|]. by intros (? & [= ->] & ?).
  - split; [discriminate|]. by intros (? & [=] & _).
  - split; [discriminate|]. by intros (? & [=] & _).
Qed.

(** What the branch for genes in columns returns: the three attributes of
    the table, the class variables and metas of the annotated domain, of
    its attributes a selection in their order and, when unmatched genes
    are excluded, only attributes marked with a known id. *)
Lemma commit_columns_spec w t gm known sel tb :
  commit_columns w t gm known sel = Ok tb →
  let d := annotate_domain (target_database w) (replace_id_with_symbol w)
                           (genes gm) (tab_domain t) in
  ∃ org,
    get_selected_organism w = Ok org ∧
    tab_attributes tb =
      <[GENE_ID_ATTRIBUTE := PStr (target_database w)]>
        (<[GENE_AS_ATTRIBUTE_NAME := PBool true]>
           (<[TAX_ID := PStr org]> (tab_attributes t))) ∧
    dom_class_vars (tab_domain tb) = dom_class_vars d ∧
    dom_metas (tab_domain tb) = dom_metas d ∧
    sublist (dom_attributes (tab_domain tb)) (dom_attributes d) ∧
    (exclude_unmatched w = true →
     ∀ v, v ∈ dom_attributes (tab_domain tb) →
       ∃ s, var_attributes v !! target_database w = Some (PStr s) ∧
            s ∈ known).
Proof.
  unfold commit_columns.
  set (d := annotate_domain _ _ _ _).
  set (columns := enumerate (dom_attributes d)).
  set (selected := List.filter _ columns).
  set (out0 := match selected with [] => columns | _ => selected end).
  assert (Hout0 : sublist out0 columns).
  { unfold out0. destruct selected eqn:Hsel; [done|].
    rewrite <- Hsel. apply List_filter_sublist. }
  destruct (if exclude_unmatched w then _ else Ok out0) as [out|] eqn:Hout;
    simpl; [|discriminate].
  destruct (get_selected_organism w) as [org|]; simpl; [|discriminate].
  intros [= <-]. exists org. simpl.
  split; [reflexivity|]. split; [reflexivity|]. split; [reflexivity|].
  split; [reflexivity|]. split.
  - rewrite <- (enumerate_snd (dom_attributes d)). apply fmap_sublist.
    fold columns. etrans; [|exact Hout0].
    destruct (exclude_unmatched w).
    + by eapply filterR_sublist.
    + by injection Hout as <-.
  - intros Hex v Hv. rewrite Hex in Hout.
    apply list_elem_of_fmap in Hv as ([i v'] & -> & Hiv).
    apply (filterR_elem_of _ _ _ _ Hout) in Hiv as [_ Hk].
    unfold column_known in Hk. simpl in *.
    destruct (var_attributes v' !! target_database w) as [val|];
      [|discriminate].
    injection Hk as Hk. apply pyval_in_spec in Hk as (s & -> & Hs).
    by exists s.
Qed.

(** *** The signals of a commit *)

(** A table sent by a commit is the result of one of the two branches. *)
Lemma commit_emitted (w : OWGenes) (new : list signal) (tb : Table) :
  outputs (snd (commit w)) = outputs w ++ new →
  Data (Some tb) ∈ new →
  ∃ sel t gm,
    table_view w = Some sel ∧ input_data w = Some t ∧
    gene_matcher w = Some gm ∧
    known_of (map target_id (genes gm)) ≠ [] ∧
    fst (commit w) = Ok tt ∧
    ((use_attr_names w = false ∧
      commit_rows w t (map target_id (genes gm))
                  (known_of (map target_id (genes gm))) sel = Ok tb) ∨
     (use_attr_names w = true ∧
      commit_columns w t gm (known_of (map target_id (genes gm))) sel
        = Ok tb)).
Proof.
  rewrite commit_run. unfold get_target_ids.
  assert (Hnil : ∀ l : list signal, outputs w = outputs w ++ l →
                 Data (Some tb) ∈ l → False).
  { intros l Hl Hin. rewrite <- (app_nil_r (outputs w)) in Hl at 1.
    apply app_inv_head in Hl as <-. inversion Hin. }
  destruct (table_view w) as [sel|]; [|intros; exfalso; eauto].
  destruct (gene_matcher w) as [gm|]; simpl; [|intros; exfalso; eauto].
  destruct (known_of (map target_id (genes gm))) as [|k ks] eqn:Hknown.
  { simpl. intros Hl Hin. apply app_inv_head in Hl as <-.
    apply elem_of_cons in Hin as [[=]|Hin].
    apply list_elem_of_singleton in Hin. discriminate. }
  destruct (input_data w) as [t|]; [|intros; exfalso; eauto].
  destruct (use_attr_names w); simpl.
  - destruct (commit_columns w t gm (k :: ks) sel) as [tb'|e] eqn:Hc;
      [|intros; exfalso; eauto].
    simpl. intros Hl Hin. apply app_inv_head in Hl as <-.
    apply elem_of_cons in Hin as [[= ->]|Hin].
    2: { apply list_elem_of_singleton in Hin. discriminate. }
    exists sel, t, gm. rewrite Hknown. repeat split; try done; right; done.
  - destruct (commit_rows w t _ (k :: ks) sel) as [tb'|e] eqn:Hc;
      [|intros; exfalso; eauto].
    simpl. intros Hl Hin. apply app_inv_head in Hl as <-.
    assert (tb = tb') as ->.
    { apply elem_of_cons in Hin as [[= ->]|Hin]; [done|].
      apply elem_of_cons in Hin as [[= ->]|Hin]; [done|].
      apply list_elem_of_singleton in Hin. discriminate. }
    exists sel, t, gm. rewrite Hknown. repeat split; try done; left; done.
Qed.

(** C2. With [exclude_unmatched] a table that a commit sends on the Data
    output holds no unmatched gene. There is then at least one known gene.
    With the genes in rows every row of the table has, in the gene
    column, which is a column of the metas, the Entrez id of a gene of
    the matcher that has one, and never ['?']; with the genes in columns
    every attribute of the table carries under [target_database] the
    Entrez id of such a gene, which is one of the known ids. *)
Theorem commit_excludes_unmatched (w : OWGenes) (new : list signal)
  (tb : Table) :
  exclude_unmatched w = true →
  outputs (snd (commit w)) = outputs w ++ new →
  Data (Some tb) ∈ new →
  ∃ t gm,
    input_data w = Some t ∧ gene_matcher w = Some gm ∧
    let known_genes := known_of (map target_id (genes gm)) in
    known_genes ≠ [] ∧
    (use_attr_names w = false →
     let p := (gene_variable (target_database w) (tab_domain t)).1.2 in
     ∀ r, r ∈ tab_rows tb →
       ∃ i s g, p = Meta i ∧ row_cell r p = Some (CStr s) ∧
                s ∈ known_genes ∧ s ≠ "?" ∧
                g ∈ genes gm ∧ has_ncbi_id g = true ∧ s = target_id g) ∧
    (use_attr_names w = true →
     ∀ v, v ∈ dom_attributes (tab_domain tb) →
       ∃ s g, var_attributes v !! target_database w = Some (PStr s) ∧
              s ∈ known_genes ∧ s ≠ "?" ∧
              g ∈ genes gm ∧ has_ncbi_id g = true ∧ s = target_id g).
Proof.
  intros Hex Hout Hin.
  destruct (commit_emitted w new tb Hout Hin)
    as (sel & t & gm & Hsel & Ht & Hgm & Hknown & _ & Hbranch).
  exists t, gm. split; [exact Ht|]. split; [exact Hgm|].
  split; [exact Hknown|]. split.
  - intros Huse. destruct Hbranch as [[_ Hrows]|[Hcontra _]]; [|congruence].
    apply commit_rows_spec in Hrows as (org & _ & _ & _ & Hwritten & Hfil).
    intros p r Hr. subst p. specialize (Hfil Hex r Hr).
    apply cell_in_spec in Hfil as (s & Hcell & Hs).
    destruct (known_of_gene gm s Hs) as (Hq & g & Hg & Hid & Heq).
    destruct (Hwritten r Hr) as (r0 & id & c & _ & _ & Hco & ->).
    assert (Hmeta : ∃ i, (gene_variable (target_database w)
                                        (tab_domain t)).1.2 = Meta i).
    { destruct ((gene_variable (target_database w) (tab_domain t)).1.2)
        as [i|i|i] eqn:Hp; [| |by exists i]; exfalso.
      - destruct (coerce_not_meta (Attr i) id c) as [z ->];
          [done|exact Hco|].
        destruct (row_cell_row_set r0 (Attr i) (CNum z)) as [H|H];
          rewrite H in Hcell; discriminate.
      - destruct (coerce_not_meta (Class i) id c) as [z ->];
          [done|exact Hco|].
        destruct (row_cell_row_set r0 (Class i) (CNum z)) as [H|H];
          rewrite H in Hcell; discriminate. }
    destruct Hmeta as [i Hi]. exists i, s, g. done.
  - intros Huse. destruct Hbranch as [[Hcontra _]|[_ Hcols]]; [congruence|].
    apply commit_columns_spec in Hcols as (org & _ & _ & _ & _ & _ & Hfil).
    intros v Hv. destruct (Hfil Hex v Hv) as (s & Hattr & Hs).
    destruct (known_of_gene gm s Hs) as (Hq & g & Hg & Hid & Heq).
    exists s, g. done.
Qed.

(** C6, as the code has it. A commit that runs to its end sends on both
    channels, last a value on Data and then a value on Genes. With at
    least one known gene the values are the table that the branch for the
    orientation assembled and the match report of the gene matcher for
    the selection, and with the genes in rows the table is sent on Data
    twice; without a known gene both values are [None]. *)
Theorem commit_sends_both (w : OWGenes) :
  fst (commit w) = Ok tt →
  ∃ sel gm data report,
    table_view w = Some sel ∧ gene_matcher w = Some gm ∧
    let known_genes := known_of (map target_id (genes gm)) in
    outputs (snd (commit w)) =
      outputs w ++
      (if negb (use_attr_names w) && negb (bool_decide (known_genes = []))
       then [Data data] else []) ++
      [Data data; Genes report] ∧
    (known_genes = [] → data = None ∧ report = None) ∧
    (known_genes ≠ [] →
     ∃ t tb,
       input_data w = Some t ∧ data = Some tb ∧
       report = Some (to_data_table gm (match sel with
                                        | [] => None
                                        | _ => Some sel
                                        end)) ∧
       ((use_attr_names w = false ∧
         commit_rows w t (map target_id (genes gm)) known_genes sel
           = Ok tb) ∨
        (use_attr_names w = true ∧
         commit_columns w t gm known_genes sel = Ok tb))).
Proof.
  rewrite commit_run. unfold get_target_ids.
  destruct (table_view w) as [sel|]; [|discriminate].
  destruct (gene_matcher w) as [gm|]; simpl; [|discriminate].
  destruct (known_of (map target_id (genes gm))) as [|k ks] eqn:Hknown.
  { intros _. exists sel, gm, None, None. rewrite Hknown. simpl.
    rewrite andb_false_r. simpl. done. }
  destruct (input_data w) as [t|]; [|discriminate].
  destruct (use_attr_names w); simpl.
  - destruct (commit_columns w t gm (k :: ks) sel) as [tb|e] eqn:Hc;
      [|discriminate].
    intros _. exists sel, gm, (Some tb), (Some (to_data_table gm
      (match sel with [] => None | _ => Some sel end))).
    rewrite Hknown. simpl. repeat split; try done.
    intros _. exists t, tb. repeat split; try done. by right.
  - destruct (commit_rows w t _ (k :: ks) sel) as [tb|e] eqn:Hc;
      [|discriminate].
    intros _. exists sel, gm, (Some tb), (Some (to_data_table gm
      (match sel with [] => None | _ => Some sel end))).
    rewrite Hknown. simpl. repeat split; try done.
    intros _. exists t, tb. repeat split; try done. by left.
Qed.

(** A lookup in a dictionary after the writes of the table attributes. *)
Ltac lookup_attr :=
  unfold TAX_ID, GENE_AS_ATTRIBUTE_NAME, GENE_ID_COLUMN, GENE_ID_ATTRIBUTE;
  repeat first [ rewrite lookup_insert_eq
               | rewrite lookup_insert_ne by discriminate ];
  reflexivity.

Lemma gene_variable_spec (target : string) (d : Domain) :
  let gv := gene_variable target d in
  var_name gv.1.1 = target ∧
  domain_var (mkDomain (dom_attributes d) (dom_class_vars d) gv.2) gv.1.2
    = Some gv.1.1 ∧
  (∀ p, domain_index_name d target = Some p →
        gv.1.2 = p ∧ domain_var d p = Some gv.1.1 ∧ gv.2 = dom_metas d) ∧
  (domain_index_name d target = None →
   gv.1.1 = mkVariable target StringVariable ∅ ∧
   gv.1.2 = Meta (length (dom_metas d)) ∧
   gv.2 = dom_metas d ++ [gv.1.1]).
Proof.
  unfold gene_variable.
  destruct (domain_index_name d target) as [p|] eqn:Hp; simpl.
  - apply domain_find_Some in Hp as (v & Hv & Hname).
    apply String.eqb_eq in Hname. rewrite Hv. simpl.
    split; [exact Hname|]. split; [by destruct p|].
    split; [|discriminate]. by intros p' [= <-].
  - split; [reflexivity|]. split.
    + rewrite lookup_app_r by done. by rewrite Nat.sub_diag.
    + split; [discriminate|]. done.
Qed.

Lemma sublist_lookup {A} (l1 l2 : list A) x :
  sublist l1 l2 → x ∈ l1 → ∃ i, l2 !! i = Some x.
Proof.
  intros Hsub Hx. apply list_elem_of_lookup. by eapply elem_of_sublist.
Qed.

(** An attribute of the table assembled from columns is an attribute of
    the input after the loop over the genes that resolve to it. *)
Lemma output_attribute_origin w t gm known sel tb v :
  commit_columns w t gm known sel = Ok tb →
  v ∈ dom_attributes (tab_domain tb) →
  ∃ i v0,
    dom_attributes (tab_domain t) !! i = Some v0 ∧
    v = annotate_all (target_database w) (replace_id_with_symbol w)
          (resolving_genes (tab_domain t) (Attr i) (genes gm)) v0.
Proof.
  intros Hc Hv.
  apply commit_columns_spec in Hc as (org & _ & _ & _ & _ & Hsub & _).
  destruct (sublist_lookup _ _ v Hsub Hv) as [i Hi].
  change (domain_var (annotate_domain (target_database w)
            (replace_id_with_symbol w) (genes gm) (tab_domain t)) (Attr i)
          = Some v) in Hi.
  rewrite annotate_domain_var in Hi. simpl in Hi.
  destruct (dom_attributes (tab_domain t) !! i) as [v0|] eqn:Hv0;
    [|discriminate].
  injection Hi as <-. by exists i, v0.
Qed.

(** C3, as the code has it. A table that a commit sends on the Data output
    is built in the orientation [use_attr_names] selects, and its
    attribute [TAX_ID] is the selected organism. With the genes in rows
    its attribute [GENE_AS_ATTRIBUTE_NAME] is [False] and the ids of the
    matcher's genes are written into the column of the variable named
    [target_database]: the variable of that name of the input domain when
    there is one, whatever its class and part of the domain, and
    otherwise a new string variable added at the end of the metas; when
    the matcher has a gene for each instance of the input, an instance of
    the table is the instance at some index of the input with the id of
    the gene at that index in this column. With the genes in columns the
    attribute is [True] and every attribute of the table is an attribute
    of the input that carries, when the name of a gene resolved to it,
    the id of that gene, the last such gene of the matcher's list, under
    [target_database]. *)
Theorem commit_orientation (w : OWGenes) (new : list signal) (tb : Table) :
  outputs (snd (commit w)) = outputs w ++ new →
  Data (Some tb) ∈ new →
  ∃ t gm org,
    input_data w = Some t ∧ gene_matcher w = Some gm ∧
    get_selected_organism w = Ok org ∧
    tab_attributes tb !! TAX_ID = Some (PStr org) ∧
    (use_attr_names w = false →
     let gv := gene_variable (target_database w) (tab_domain t) in
     tab_attributes tb !! GENE_AS_ATTRIBUTE_NAME = Some (PBool false) ∧
     tab_domain tb = mkDomain (dom_attributes (tab_domain t))
                              (dom_class_vars (tab_domain t)) gv.2 ∧
     domain_var (tab_domain tb) gv.1.2 = Some gv.1.1 ∧
     var_name gv.1.1 = target_database w ∧
     (∀ p, domain_index_name (tab_domain t) (target_database w) = Some p →
           gv.1.2 = p ∧ domain_var (tab_domain t) p = Some gv.1.1 ∧
           gv.2 = dom_metas (tab_domain t)) ∧
     (domain_index_name (tab_domain t) (target_database w) = None →
      gv.1.1 = mkVariable (target_database w) StringVariable ∅ ∧
      gv.1.2 = Meta (length (dom_metas (tab_domain t))) ∧
      gv.2 = dom_metas (tab_domain t) ++ [gv.1.1]) ∧
     (∀ r', r' ∈ tab_rows tb →
        ∃ r g c, r ∈ tab_rows (transform_rows t gv.2) ∧ g ∈ genes gm ∧
                 coerce gv.1.2 (target_id g) = Ok c ∧
                 r' = row_set r gv.1.2 c) ∧
     (length (genes gm) = length (tab_rows t) →
      ∀ r', r' ∈ tab_rows tb →
        ∃ j r g c, tab_rows (transform_rows t gv.2) !! j = Some r ∧
                   genes gm !! j = Some g ∧
                   coerce gv.1.2 (target_id g) = Ok c ∧
                   r' = row_set r gv.1.2 c)) ∧
    (use_attr_names w = true →
     tab_attributes tb !! GENE_AS_ATTRIBUTE_NAME = Some (PBool true) ∧
     ∀ v, v ∈ dom_attributes (tab_domain tb) →
       ∃ i v0,
         dom_attributes (tab_domain t) !! i = Some v0 ∧
         v = annotate_all (target_database w) (replace_id_with_symbol w)
               (resolving_genes (tab_domain t) (Attr i) (genes gm)) v0 ∧
         ∀ g, last (resolving_genes (tab_domain t) (Attr i) (genes gm))
                = Some g →
              var_attributes v !! target_database w
                = Some (PStr (target_id g))).
Proof.
  intros Hout Hin.
  destruct (commit_emitted w new tb Hout Hin)
    as (sel & t & gm & Hsel & Ht & Hgm & Hknown & _ & Hbranch).
  exists t, gm.
  destruct Hbranch as [[Huse Hrows]|[Huse Hcols]].
  - pose proof (commit_rows_aligned _ _ _ _ _ _ Hrows) as Hal.
    apply commit_rows_spec in Hrows as (org & Horg & Hdom & Hattrs & Hw & _).
    exists org. split; [exact Ht|]. split; [exact Hgm|].
    split; [exact Horg|]. split; [rewrite Hattrs; lookup_attr|].
    split; [|intros; congruence]. intros _ gv.
    destruct (gene_variable_spec (target_database w) (tab_domain t))
      as (Hname & Hvar & Hsome & Hnone).
    split; [rewrite Hattrs; lookup_attr|]. split; [exact Hdom|].
    split; [by rewrite Hdom|]. split; [exact Hname|].
    split; [exact Hsome|]. split; [exact Hnone|]. split.
    + intros r' Hr'.
      destruct (Hw r' Hr') as (r & id & c & Hr & Hid & Hc & ->).
      apply list_elem_of_fmap in Hid as (g & -> & Hg). by exists r, g, c.
    + intros Hlen r' Hr'.
      destruct (Hal ltac:(by rewrite length_map) r' Hr')
        as (j & r & id & c & Hr & Hid & Hc & ->).
      apply list_lookup_fmap_Some in Hid as (g & -> & Hg).
      by exists j, r, g, c.
  - pose proof Hcols as Hcols'.
    apply commit_columns_spec in Hcols as (org & Horg & Hattrs & _).
    exists org. split; [exact Ht|]. split; [exact Hgm|].
    split; [exact Horg|]. split; [rewrite Hattrs; lookup_attr|].
    split; [intros; congruence|]. intros _.
    split; [rewrite Hattrs; lookup_attr|]. intros v Hv.
    destruct (output_attribute_origin _ _ _ _ _ _ v Hcols' Hv)
      as (i & v0 & Hv0 & ->).
    exists i, v0. split; [exact Hv0|]. split; [reflexivity|].
    intros g Hlast. by apply annotate_all_attribute.
Qed.


(** ** The theorems at work *)


(** C1, at a column with missing values. The string column of the table
    holds three different names; the discrete column holds one value and
    is missing in three instances, which makes two different values when
    a missing value is a value, and one when it is none. [np.unique]
    counts four for it, and [gene_column_identifier] returns the discrete
    column: not the candidate with the most unique values. *)
Lemma gene_column_identifier_counts_missing :
  omap is_candidate (gene_columns_model w_nan) = [v_gene; v_kind] ∧
  gene_column_identifier w_nan = Ok v_kind ∧
  ∃ view_gene view_kind,
    get_column_view t_nan (Meta 0) = Ok view_gene ∧
    get_column_view t_nan (Meta 1) = Ok view_kind ∧
    distinct_count view_gene 3 ∧ present_count view_gene 3 ∧
    distinct_count view_kind 2 ∧ present_count view_kind 1.
Proof.
  split; [vm_compute; reflexivity|]. split; [vm_compute; reflexivity|].
  exists [CStr "BRCA1"; CStr "FOO"; CStr "P53"; CStr "BRCA1"],
         [CNum 0; CNaN; CNaN; CNaN].
  split; [reflexivity|]. split; [reflexivity|].
  assert (Hgene : ∀ c, c ∈ [CStr "BRCA1"; CStr "FOO"; CStr "P53"]
                       ↔ c ∈ [CStr "BRCA1"; CStr "FOO"; CStr "P53";
                              CStr "BRCA1"]).
  { intros c. rewrite !elem_of_cons, !elem_of_nil. tauto. }
  split; [|split; [|split]].
  - exists [CStr "BRCA1"; CStr "FOO"; CStr "P53"].
    split; [by apply (bool_decide_unpack _)|]. split; [exact Hgene|reflexivity].
  - exists [CStr "BRCA1"; CStr "FOO"; CStr "P53"].
    split; [by apply (bool_decide_unpack _)|]. split; [|reflexivity].
    intros c. rewrite Hgene, !elem_of_cons, !elem_of_nil.
    split; [|tauto]. intros H. split; [exact H|].
    intros ->. destruct H as [|[|[|[|[]]]]]; discriminate.
  - exists [CNum 0; CNaN].
    split; [by apply (bool_decide_unpack _)|]. split; [|reflexivity].
    intros c. rewrite !elem_of_cons, !elem_of_nil. tauto.
  - exists [CNum 0].
    split; [by apply (bool_decide_unpack _)|]. split; [|reflexivity].
    intros c. rewrite !elem_of_cons, !elem_of_nil. split.
    + intros [->|[]]. split; [by left|discriminate].
    + intros [[->|[->|[->|[->|[]]]]] Hc]; try (by left); by destruct Hc.
Qed.

(** A second commit on the table with genes in rows, where the gene FOO
    is not known and unmatched genes are excluded. *)
Lemma commit_excludes_unmatched_witness :
  ∃ t gm,
    input_data w_rows = Some t ∧ gene_matcher w_rows = Some gm ∧
    let known_genes := known_of (map target_id (genes gm)) in
    known_genes ≠ [] ∧
    (use_attr_names w_rows = false →
     let p := (gene_variable (target_database w_rows) (tab_domain t)).1.2 in
     ∀ r, r ∈ tab_rows (last_data (commit_signals w_rows)) →
       ∃ i s g, p = Meta i ∧ row_cell r p = Some (CStr s) ∧
                s ∈ known_genes ∧ s ≠ "?" ∧
                g ∈ genes gm ∧ has_ncbi_id g = true ∧ s = target_id g) ∧
    (use_attr_names w_rows = true →
     ∀ v, v ∈ dom_attributes
                (tab_domain (last_data (commit_signals w_rows))) →
       ∃ s g, var_attributes v !! target_database w_rows = Some (PStr s) ∧
              s ∈ known_genes ∧ s ≠ "?" ∧
              g ∈ genes gm ∧ has_ncbi_id g = true ∧ s = target_id g).
Proof.
  apply (commit_excludes_unmatched w_rows (commit_signals w_rows)).
  - reflexivity.
  - vm_compute. reflexivity.
  - vm_compute. left.
Defined.

(** A second commit on the table with genes in columns. *)
Lemma commit_orientation_witness :
  ∃ t gm org,
    input_data w_columns = Some t ∧ gene_matcher w_columns = Some gm ∧
    get_selected_organism w_columns = Ok org ∧
    tab_attributes (last_data (commit_signals w_columns)) !! TAX_ID
      = Some (PStr org) ∧
    (use_attr_names w_columns = false →
     let gv := gene_variable (target_database w_columns) (tab_domain t) in
     tab_attributes (last_data (commit_signals w_columns))
       !! GENE_AS_ATTRIBUTE_NAME = Some (PBool false) ∧
     tab_domain (last_data (commit_signals w_columns)) =
       mkDomain (dom_attributes (tab_domain t))
                (dom_class_vars (tab_domain t)) gv.2 ∧
     domain_var (tab_domain (last_data (commit_signals w_columns))) gv.1.2
       = Some gv.1.1 ∧
     var_name gv.1.1 = target_database w_columns ∧
     (∀ p, domain_index_name (tab_domain t) (target_database w_columns)
             = Some p →
           gv.1.2 = p ∧ domain_var (tab_domain t) p = Some gv.1.1 ∧
           gv.2 = dom_metas (tab_domain t)) ∧
     (domain_index_name (tab_domain t) (target_database w_columns) = None →
      gv.1.1 = mkVariable (target_database w_columns) StringVariable ∅ ∧
      gv.1.2 = Meta (length (dom_metas (tab_domain t))) ∧
      gv.2 = dom_metas (tab_domain t) ++ [gv.1.1]) ∧
     (∀ r', r' ∈ tab_rows (last_data (commit_signals w_columns)) →
        ∃ r g c, r ∈ tab_rows (transform_rows t gv.2) ∧ g ∈ genes gm ∧
                 coerce gv.1.2 (target_id g) = Ok c ∧
                 r' = row_set r gv.1.2 c) ∧
     (length (genes gm) = length (tab_rows t) →
      ∀ r', r' ∈ tab_rows (last_data (commit_signals w_columns)) →
        ∃ j r g c, tab_rows (transform_rows t gv.2) !! j = Some r ∧
                   genes gm !! j = Some g ∧
                   coerce gv.1.2 (target_id g) = Ok c ∧
                   r' = row_set r gv.1.2 c)) ∧
    (use_attr_names w_columns = true →
     tab_attributes (last_data (commit_signals w_columns))
       !! GENE_AS_ATTRIBUTE_NAME = Some (PBool true) ∧
     ∀ v, v ∈ dom_attributes
                (tab_domain (last_data (commit_signals w_columns))) →
       ∃ i v0,
         dom_attributes (tab_domain t) !! i = Some v0 ∧
         v = annotate_all (target_database w_columns)
               (replace_id_with_symbol w_columns)
               (resolving_genes (tab_domain t) (Attr i) (genes gm)) v0 ∧
         ∀ g, last (resolving_genes (tab_domain t) (Attr i) (genes gm))
                = Some g →
              var_attributes v !! target_database w_columns
                = Some (PStr (target_id g))).
Proof.
  apply (commit_orientation w_columns (commit_signals w_columns)).
  - vm_compute. reflexivity.
  - vm_compute. left.
Defined.


(** In that commit the feature P53 goes out under the symbol TP53. *)
Example commit_columns_names :
  map var_name
      (dom_attributes (tab_domain (last_data (commit_signals w_columns))))
  = ["BRCA1"; "TP53"].
Proof. vm_compute. reflexivity. Qed.


(** The names read from the example tables, and a name between a
    no-break space and a line separator. *)
Example gene_names_padded :
  use_attr_names w_padded_input = true ∧
  input_genes (snd (gene_names_from_table w_padded_input))
  = Some ["BRCA1"; "P53"; "FOO"] ∧
  strip (String.string_of_list_ascii
           (map ascii_of_nat [194; 160] ++ bytes "P53" ++
            map ascii_of_nat [226; 128; 168])) = "P53".
Proof. repeat split; vm_compute; reflexivity. Qed.

Example gene_names_rows :
  input_genes (snd (gene_names_from_table w_rows_input))
  = Some ["BRCA1"; "FOO"; "P53"].
Proof. vm_compute. reflexivity. Qed.

Example gene_names_columns :
  input_genes (snd (gene_names_from_table w_columns_input))
  = Some ["BRCA1"; "P53"; "FOO"].
Proof. vm_compute. reflexivity. Qed.

Lemma commit_sends_both_witness :
  ∃ sel gm data report,
    table_view w_rows = Some sel ∧ gene_matcher w_rows = Some gm ∧
    let known_genes := known_of (map target_id (genes gm)) in
    outputs (snd (commit w_rows)) =
      outputs w_rows ++
      (if negb (use_attr_names w_rows) &&
          negb (bool_decide (known_genes = []))
       then [Data data] else []) ++
      [Data data; Genes report] ∧
    (known_genes = [] → data = None ∧ report = None) ∧
    (known_genes ≠ [] →
     ∃ t tb,
       input_data w_rows = Some t ∧ data = Some tb ∧
       report = Some (to_data_table gm (match sel with
                                        | [] => None
                                        | _ => Some sel
                                        end)) ∧
       ((use_attr_names w_rows = false ∧
         commit_rows w_rows t (map target_id (genes gm)) known_genes sel
           = Ok tb) ∨
        (use_attr_names w_rows = true ∧
         commit_columns w_rows t gm known_genes sel = Ok tb))).
Proof.
  apply (commit_sends_both w_rows). vm_compute. reflexivity.
Defined.

(** C6, the claim as stated. When the matcher knows no gene of the input,
    a commit returns and what it sends is [None] on both channels:
    neither a data set nor a match report. *)
Lemma commit_without_known_genes :
  fst (commit w_unmatched) = Ok tt ∧
  commit_signals w_unmatched = [Data None; Genes None] ∧
  ¬ (∃ t, Data (Some t) ∈ commit_signals w_unmatched) ∧
  ¬ (∃ r, Genes (Some r) ∈ commit_signals w_unmatched).
Proof.
  assert (Hs : commit_signals w_unmatched = [Data None; Genes None])
    by (vm_compute; reflexivity).
  split; [vm_compute; reflexivity|]. split; [exact Hs|]. rewrite Hs.
  split.
  - intros (t & Ht). apply elem_of_cons in Ht as [[=]|Ht].
    apply list_elem_of_singleton in Ht. discriminate.
  - intros (r & Hr). apply elem_of_cons in Hr as [[=]|Hr].
    apply list_elem_of_singleton in Hr. discriminate.
Qed.

Lemma toggle_radio_options_exclude_witness :
  fst (toggle_radio_options w_rows) = Ok tt ∧
  (genes (mkGeneMatcher matched_rows "9606") ≠ [] →
   (exclude_unmatched (snd (toggle_radio_options w_rows)) = true
    ↔ length (get_known_genes (mkGeneMatcher matched_rows "9606"))
      < length (genes (mkGeneMatcher matched_rows "9606")))) ∧
  (genes (mkGeneMatcher matched_rows "9606") = [] →
   exclude_unmatched (snd (toggle_radio_options w_rows))
   = exclude_unmatched w_rows).
Proof.
  apply (toggle_radio_options_exclude
           w_rows (mkGeneMatcher matched_rows "9606")).
  reflexivity.
Defined.

(** C7, the claim as stated. The gene column of the input holds no value,
    so the matcher has no gene; the setting [exclude_unmatched], true
    before, is true after [toggle_radio_options] and after the whole
    handling of the results, although the number of known genes, zero, is
    not less than the number of genes, zero. *)
Lemma toggle_radio_options_empty_gene_list :
  gene_matcher w_missing_input = Some (mkGeneMatcher [] "9606") ∧
  exclude_unmatched w_missing_input = true ∧
  exclude_unmatched (snd (toggle_radio_options w_missing_input)) = true ∧
  exclude_unmatched (snd (matcher_finished [] w_missing_input)) = true ∧
  ¬ (length (get_known_genes (mkGeneMatcher [] "9606"))
     < length (genes (mkGeneMatcher [] "9606"))).
Proof.
  split; [reflexivity|]. split; [reflexivity|]. split; [reflexivity|].
  split; [reflexivity|]. simpl. lia.
Qed.

Lemma display_models_partition_witness :
  ∃ shown unknown : list Gene,
    table_model (snd (_handle_matcher_results w_rows)) =
      mkGeneInfoModel (Some matched_rows) (Some (map to_list shown))
        (map to_list shown) (length shown) (row_cache (table_model w_rows)) ∧
    ugm_items (unknown_model (snd (_handle_matcher_results w_rows))) =
      [String.concat ", " (map input_name unknown)] ∧
    (∀ g, g ∈ shown ↔ g ∈ matched_rows ∧ has_ncbi_id g = true) ∧
    (∀ g, g ∈ unknown ↔ g ∈ matched_rows ∧ has_ncbi_id g = false) ∧
    (∀ g, g ∈ matched_rows →
       (g ∈ shown ∧ (g ∉ unknown)) ∨ ((g ∉ shown) ∧ g ∈ unknown)) ∧
    shown ++ unknown ≡ₚ matched_rows ∧
    sublist shown matched_rows ∧ sublist unknown matched_rows.
Proof.
  apply (display_models_partition
           w_rows (mkGeneMatcher matched_rows "9606")).
  reflexivity.
Defined.

(** The two views of the example: two genes in the table, one unknown. *)
Example display_models_rows :
  _table (table_model w_rows) =
    [["BRCA1"; "672"; "BRCA1"]; ["P53"; "7157"; "TP53"]] ∧
  ugm_items (unknown_model w_rows) = ["FOO"].
Proof. split; vm_compute; reflexivity. Qed.

Lemma handle_input_default_tax_id_witness :
  tax_id (snd (handle_input (Some t_rows) widget0)) = Some "9606".
Proof.
  apply (handle_input_default_tax_id widget0 t_rows).
  - discriminate.
  - reflexivity.
Defined.

(** C3, the claim as stated, in each orientation. With the genes in rows,
    the input has a continuous attribute named as the target database:
    the commit writes the id 672 into that attribute, as a number, and
    the table it sends has no string meta column of this name, its metas
    are those of the input. With the genes in columns, the feature named
    P53 between spaces matched the gene P53, whose Entrez id is 7157: the
    table of the commit has this feature and no feature of it carries
    this id. *)
Lemma commit_existing_column_and_padded_feature :
  (use_attr_names w_entrez_matched = false ∧
   target_database w_entrez_matched = "Entrez ID" ∧
   Data (Some (last_data (commit_signals w_entrez_matched)))
     ∈ commit_signals w_entrez_matched ∧
   tab_rows (last_data (commit_signals w_entrez_matched)) =
     [mkRow [CNum 672] [] [CStr "BRCA1"]] ∧
   dom_attributes (tab_domain (last_data (commit_signals w_entrez_matched)))
     = [v_entrez] ∧
   ¬ (∃ v, v ∈ dom_metas
                 (tab_domain (last_data (commit_signals w_entrez_matched))) ∧
           var_name v = "Entrez ID" ∧ var_type_of v = StringVariable)) ∧
  (use_attr_names w_spaced = true ∧
   target_database w_spaced = "Entrez ID" ∧
   input_genes w_spaced = Some ["BRCA1"; "P53"] ∧
   gene_matcher w_spaced = Some (mkGeneMatcher matched_spaced "9606") ∧
   Data (Some (last_data (commit_signals w_spaced)))
     ∈ commit_signals w_spaced ∧
   map (λ v, (var_name v, var_attributes v !! "Entrez ID"))
       (dom_attributes (tab_domain (last_data (commit_signals w_spaced))))
   = [("BRCA1", Some (PStr "672")); (" P53 ", None)] ∧
   ¬ (∃ v, v ∈ dom_attributes
                 (tab_domain (last_data (commit_signals w_spaced))) ∧
           var_attributes v !! "Entrez ID" = Some (PStr "7157"))).
Proof.
  split.
  - split; [reflexivity|]. split; [reflexivity|].
    split; [vm_compute; left|]. split; [vm_compute; reflexivity|].
    split; [vm_compute; reflexivity|].
    assert (Hm : dom_metas
              (tab_domain (last_data (commit_signals w_entrez_matched)))
            = [v_gene]) by (vm_compute; reflexivity).
    rewrite Hm. intros (v & Hv & Hname & _).
    apply list_elem_of_singleton in Hv as ->. discriminate.
  - split; [reflexivity|]. split; [reflexivity|].
    split; [vm_compute; reflexivity|]. split; [vm_compute; reflexivity|].
    split; [vm_compute; left|].
    assert (Ha : map (λ v, (var_name v, var_attributes v !! "Entrez ID"))
              (dom_attributes
                 (tab_domain (last_data (commit_signals w_spaced))))
            = [("BRCA1", Some (PStr "672")); (" P53 ", None)])
      by (vm_compute; reflexivity).
    split; [exact Ha|]. intros (v & Hv & Hid).
    apply list_elem_of_In,
      (in_map (λ v, (var_name v, var_attributes v !! "Entrez ID"))) in Hv.
    rewrite Ha, Hid in Hv. simpl in Hv.
    destruct Hv as [[=]|[[=]|[]]].
Qed.


(** ** Commits that raise *)

(** A commit before any input, as the check boxes of the output options
    can start it: the view has no model, hence no selection model. *)
Example commit_before_input :
  commit widget0 = (Raise AttributeError, widget0).
Proof. reflexivity. Qed.

(** The input has a continuous attribute named as the target database and
    its second gene is not known. The ids are assigned to the attribute
    of the input one after the other: the first is stored, the second,
    a question mark, is no number, and nothing is sent. *)
Example commit_partial_assignment :
  fst (matcher_finished matched_pair w_entrez_pair) = Raise ValueError ∧
  option_map tab_rows
             (input_data (snd (matcher_finished matched_pair w_entrez_pair)))
  = Some [mkRow [CNum 672] [] [CStr "BRCA1"];
          mkRow [CNum 0] [] [CStr "FOO"]] ∧
  outputs (snd (matcher_finished matched_pair w_entrez_pair)) = [].
Proof. repeat split; vm_compute; reflexivity. Qed.

(** The commit of the example with one gene leaves its id in the
    attribute of the input table, and the three entries in the
    attributes of that table. *)
Example commit_writes_input :
  option_map tab_rows (input_data w_entrez) =
    Some [mkRow [CNum 0] [] [CStr "BRCA1"]] ∧
  option_map tab_rows (input_data w_entrez_matched) =
    Some [mkRow [CNum 672] [] [CStr "BRCA1"]] ∧
  option_map (λ t, (tab_attributes t !! TAX_ID,
                    tab_attributes t !! GENE_AS_ATTRIBUTE_NAME,
                    tab_attributes t !! GENE_ID_COLUMN))
             (input_data w_entrez_matched) =
    Some (Some (PStr "9606"), Some (PBool false), Some (PStr "Entrez ID")).
Proof. repeat split; vm_compute; reflexivity. Qed.

(** The names of the features are stripped when they are read and looked
    up as stripped when the features are marked. A feature with white
    space around its name is not found and gets no id; when unmatched
    genes are excluded, the test of its id raises and nothing is sent. *)
Example commit_padded_feature_name :
  input_genes w_padded_input = Some ["BRCA1"; "P53"; "FOO"] ∧
  fst (matcher_finished matched_columns w_padded_input) = Raise KeyError ∧
  outputs (snd (matcher_finished matched_columns w_padded_input)) = [].
Proof. repeat split; vm_compute; reflexivity. Qed.

(** * Further properties of the widget *)

(** ** The ids of the genes *)

Lemma pretty_N_go_ne_unknown x s : s ≠ "?" → pretty_N_go x s ≠ "?".
Proof.
  revert s. induction (N.lt_wf_0 x) as [x _ IH]; intros s Hs.
  assert (x = 0 ∨ 0 < x)%N as [->|Hx] by lia.
  - by rewrite pretty_N_go_0.
  - rewrite pretty_N_go_step by done. apply IH.
    + by apply N.div_lt.
    + unfold pretty_N_char. by repeat case_match.
Qed.

Lemma pretty_N_go_ne_empty x s : s ≠ "" → pretty_N_go x s ≠ "".
Proof.
  revert s. induction (N.lt_wf_0 x) as [x _ IH]; intros s Hs.
  assert (x = 0 ∨ 0 < x)%N as [->|Hx] by lia.
  - by rewrite pretty_N_go_0.
  - rewrite pretty_N_go_step by done. apply IH; [by apply N.div_lt|done].
Qed.

Lemma pretty_positive_step (x : positive) :
  pretty x = pretty_N_go (N.pos x `div` 10)
               (String (pretty_N_char (N.pos x `mod` 10)) "").
Proof.
  unfold pretty, pretty_positive, pretty, pretty_N.
  rewrite decide_False by done. by rewrite pretty_N_go_step.
Qed.

(** The decimal text of an integer is neither the unknown mark nor
    empty. *)
Lemma pretty_Z_ne_unknown (z : Z) : pretty z ≠ "?" ∧ pretty z ≠ "".
Proof.
  destruct z as [|x|x]; [done| |by split].
  change (pretty (Z.pos x)) with (pretty x). rewrite pretty_positive_step.
  split.
  - apply pretty_N_go_ne_unknown. unfold pretty_N_char.
    by repeat case_match.
  - by apply pretty_N_go_ne_empty.
Qed.

Lemma target_id_unknown g : target_id g = "?" ↔ has_ncbi_id g = false.
Proof.
  unfold target_id, has_ncbi_id. destruct (ncbi_id g) as [z|]; [|done].
  destruct (Z.eqb z 0); simpl; [done|].
  split; [|discriminate]. intros H. by destruct (pretty_Z_ne_unknown z).
Qed.

Lemma target_id_ne_empty g : target_id g ≠ "".
Proof.
  unfold target_id. destruct (ncbi_id g) as [z|]; [|done].
  destruct (Z.eqb z 0); [done|]. by destruct (pretty_Z_ne_unknown z).
Qed.

Lemma known_of_target_ids gs :
  known_of (map target_id gs) = map target_id (List.filter has_ncbi_id gs).
Proof.
  induction gs as [|g gs IH]; simpl; [done|].
  unfold known_of in *. simpl. rewrite IH.
  destruct (has_ncbi_id g) eqn:Hg.
  - destruct (String.eqb_spec (target_id g) "?") as [Heq|_]; [|done].
    apply target_id_unknown in Heq. congruence.
  - apply target_id_unknown in Hg. rewrite Hg. reflexivity.
Qed.

(** X1. The ids [commit] takes for known are the ids of the genes the
    matcher counts as known, one for one; there is none exactly when the
    matcher knows no gene. *)
Theorem known_ids_of_known_genes (w : OWGenes) (gm : GeneMatcher) :
  gene_matcher w = Some gm →
  ∃ gene_ids,
    get_target_ids w = Ok gene_ids ∧
    length gene_ids = length (genes gm) ∧
    known_of gene_ids = map target_id (get_known_genes gm) ∧
    (known_of gene_ids = [] ↔ get_known_genes gm = []) ∧
    (fst (commit w) = Ok tt →
     (outputs (snd (commit w)) = outputs w ++ [Data None; Genes None]
      ↔ get_known_genes gm = [])).
Proof.
  intros Hgm. exists (map target_id (genes gm)).
  assert (Hk := known_of_target_ids (genes gm)).
  assert (Hiff : known_of (map target_id (genes gm)) = []
                 ↔ get_known_genes gm = []).
  { rewrite Hk. unfold get_known_genes.
    by destruct (List.filter has_ncbi_id (genes gm)). }
  split; [unfold get_target_ids; by rewrite Hgm|].
  split; [by rewrite length_map|]. split; [exact Hk|]. split; [exact Hiff|].
  rewrite <- Hiff. rewrite commit_run. unfold get_target_ids. rewrite Hgm.
  destruct (table_view w) as [sel|]; [|discriminate]. simpl.
  destruct (known_of (map target_id (genes gm))) as [|k ks]; [done|].
  destruct (input_data w) as [t|]; [|discriminate].
  destruct (use_attr_names w); simpl.
  - destruct (commit_columns w t gm (k :: ks) sel) as [tb|]; [|discriminate].
    intros _. split; [|done]. simpl. intros H.
    apply app_inv_head in H. discriminate.
  - destruct (commit_rows w t _ (k :: ks) sel) as [tb|]; [|discriminate].
    intros _. split; [|done]. simpl. intros H.
    apply app_inv_head in H. discriminate.
Qed.

(** ** What a commit changes *)

Lemma set_outputs_same (w : OWGenes) : set_outputs (outputs w) w = w.
Proof. by destruct w. Qed.

Lemma set_input_data_same (w : OWGenes) : set_input_data (input_data w) w = w.
Proof. by destruct w. Qed.

Lemma set_outputs_nil x (w : OWGenes) :
  set_outputs (outputs w ++ []) (set_input_data x w) = set_input_data x w.
Proof. destruct w. unfold set_outputs. simpl. by rewrite app_nil_r. Qed.

Lemma store_each_length p rs ids : length (store_each p rs ids) = length rs.
Proof.
  revert ids. induction rs as [|r rs IH]; intros [|id ids]; simpl; try done.
  destruct (coerce p id); simpl; [by rewrite IH|done].
Qed.

Lemma assign_written_length p rs ids :
  length (assign_written p rs ids) = length rs.
Proof.
  unfold assign_written. repeat case_bool_decide; try done;
    apply store_each_length.
Qed.

Lemma store_each_zip_set p rs ids cs :
  mapR (coerce p) ids = Ok cs → store_each p rs ids = zip_set p rs cs.
Proof.
  intros H. apply mapR_Forall2 in H. revert rs.
  induction H as [|id c ids cs Hc _ IH]; intros [|r rs]; simpl; try done.
  by rewrite Hc, IH.
Qed.

(** An assignment that returns has stored what [assign_written] tells. *)
Lemma assign_column_written t p ids t' :
  assign_column t p ids = Ok t' →
  tab_rows t' = assign_written p (tab_rows t) ids.
Proof.
  unfold assign_column, assign_written.
  destruct (decide (length ids = length (tab_rows t))) as [Hlen|Hlen].
  - rewrite (bool_decide_eq_true_2 _ Hlen). simpl.
    destruct (mapR (coerce p) ids) as [cs|] eqn:Hcs; simpl; [|discriminate].
    intros [= <-]. simpl. symmetry. by apply store_each_zip_set.
  - rewrite (bool_decide_eq_false_2 _ Hlen). simpl.
    case_bool_decide as Hone; [|discriminate].
    destruct ids as [|id [|??]]; try discriminate. simpl.
    destruct (coerce p id) as [c|] eqn:Hc; simpl; [|discriminate].
    intros [= <-]. simpl. symmetry. apply store_each_zip_set.
    apply mapR_Forall2. clear -Hc.
    induction (length (tab_rows t)); simpl; by constructor.
Qed.

(** The input table as the branch for genes in rows leaves it. *)
Lemma commit_rows_input_spec w t ids sel :
  tab_domain (commit_rows_input w t ids sel) = tab_domain t ∧
  length (tab_rows (commit_rows_input w t ids sel)) = length (tab_rows t) ∧
  (domain_index_name (tab_domain t) (target_database w) = None →
   tab_rows (commit_rows_input w t ids sel) = tab_rows t) ∧
  (∀ key, key ∉ [TAX_ID; GENE_AS_ATTRIBUTE_NAME; GENE_ID_COLUMN] →
          tab_attributes (commit_rows_input w t ids sel) !! key
          = tab_attributes t !! key).
Proof.
  unfold commit_rows_input.
  destruct (gene_variable (target_database w) (tab_domain t))
    as [[gene_var p] metas].
  set (rows := match domain_index_name _ _ with
               | Some _ => _ | None => _ end).
  assert (Hlen : length rows = length (tab_rows t)).
  { unfold rows. destruct (domain_index_name _ _); [|done].
    apply assign_written_length. }
  assert (Hnone : domain_index_name (tab_domain t) (target_database w) = None
                  → rows = tab_rows t).
  { unfold rows. by intros ->. }
  destruct (_ ≫= _) as [org|e]; simpl.
  - split; [done|]. split; [done|]. split; [done|].
    intros key Hkey. rewrite !not_elem_of_cons in Hkey.
    destruct Hkey as (H1 & H2 & H3 & _).
    by rewrite !lookup_insert_ne by done.
  - done.
Qed.

(** The input table as the branch for genes in columns leaves it. *)
Lemma commit_columns_input_spec w t gm known sel :
  tab_domain (commit_columns_input w t gm known sel) = tab_domain t ∧
  tab_rows (commit_columns_input w t gm known sel) = tab_rows t ∧
  (∀ key, key ∉ [TAX_ID; GENE_AS_ATTRIBUTE_NAME; GENE_ID_ATTRIBUTE] →
          tab_attributes (commit_columns_input w t gm known sel) !! key
          = tab_attributes t !! key).
Proof.
  unfold commit_columns_input.
  destruct (commit_columns w t gm known sel) as [tb|e] eqn:Hc; [|done].
  apply commit_columns_spec in Hc as (org & _ & Hattrs & _). simpl.
  split; [done|]. split; [done|].
  intros key Hkey. rewrite !not_elem_of_cons in Hkey.
  destruct Hkey as (H1 & H2 & H3 & _).
  by rewrite Hattrs, !lookup_insert_ne by done.
Qed.


(** ** Commits that cannot be assembled *)

Lemma commit_rows_input_mismatch w t ids sel :
  length ids ≠ length (tab_rows t) → length ids ≠ 1 →
  commit_rows_input w t ids sel = t.
Proof.
  intros Hlen Hone. unfold commit_rows_input, assign_written, assign_column.
  destruct (gene_variable (target_database w) (tab_domain t))
    as [[gene_var p] metas].
  cbn [tab_rows transform_rows]. rewrite length_map.
  rewrite (bool_decide_eq_false_2 _ Hlen), (bool_decide_eq_false_2 _ Hone).
  simpl. destruct t. by destruct (domain_index_name _ _).
Qed.

(** X3. With the genes in rows the ids of the matcher's genes are assigned
    to a column of the table. When the matcher has more than one gene and
    not one for each row, as after reading a gene column with missing
    values, the assignment raises: the commit ends with a ValueError and
    has sent nothing. *)
Theorem commit_rows_length_mismatch (w : OWGenes) (t : Table)
  (gm : GeneMatcher) (sel : list string) :
  use_attr_names w = false →
  table_view w = Some sel →
  input_data w = Some t →
  gene_matcher w = Some gm →
  get_known_genes gm ≠ [] →
  length (genes gm) ≠ length (tab_rows t) →
  length (genes gm) ≠ 1 →
  commit w = (Raise ValueError, w).
Proof.
  intros Huse Hsel Ht Hgm Hknown Hlen Hone.
  assert (Hk : known_of (map target_id (genes gm)) ≠ []).
  { rewrite known_of_target_ids. unfold get_known_genes in Hknown.
    by destruct (List.filter has_ncbi_id (genes gm)). }
  rewrite commit_run. unfold get_target_ids. rewrite Hsel, Hgm, Ht. simpl.
  destruct (known_of (map target_id (genes gm))) as [|k ks]; [done|].
  rewrite Huse. simpl.
  rewrite commit_rows_input_mismatch by (by rewrite length_map).
  rewrite <- Ht, set_input_data_same. unfold commit_rows.
  destruct (gene_variable (target_database w) (tab_domain t))
    as [[gene_var p] metas].
  unfold assign_column. simpl. rewrite !length_map.
  rewrite (bool_decide_eq_false_2 _ Hlen), (bool_decide_eq_false_2 _ Hone).
  reflexivity.
Qed.

Lemma filterR_KeyError {A} (p : A → result bool) l x :
  x ∈ l → p x = Raise KeyError →
  (∀ y e, y ∈ l → p y = Raise e → e = KeyError) →
  filterR p l = Raise KeyError.
Proof.
  intros Hx Hp Hall. induction Hx as [x l|x y l Hx IH]; simpl.
  - by rewrite Hp.
  - destruct (p y) as [b|e] eqn:Hy; simpl.
    + rewrite IH; [done|exact Hp|]. intros y' e' Hy'. apply Hall. by right.
    + f_equal. eapply Hall; [left|exact Hy].
Qed.

(** X4. With the genes in columns and unmatched genes excluded, a feature
    that is not marked stops the commit. When no row of the match table is
    selected and some feature of the input has no entry [target_database]
    in its attributes and is the feature of no gene's name, the test of
    that entry raises: the commit ends with a KeyError and has sent
    nothing. *)
Theorem commit_columns_unmarked_feature (w : OWGenes) (t : Table)
  (gm : GeneMatcher) (i : nat) (v0 : variable) :
  use_attr_names w = true →
  exclude_unmatched w = true →
  table_view w = Some [] →
  input_data w = Some t →
  gene_matcher w = Some gm →
  get_known_genes gm ≠ [] →
  dom_attributes (tab_domain t) !! i = Some v0 →
  var_attributes v0 !! target_database w = None →
  resolving_genes (tab_domain t) (Attr i) (genes gm) = [] →
  commit w = (Raise KeyError, w).
Proof.
  intros Huse Hex Hsel Ht Hgm Hknown Hv0 Hattr Hres.
  assert (Hk : known_of (map target_id (genes gm)) ≠ []).
  { rewrite known_of_target_ids. unfold get_known_genes in Hknown.
    by destruct (List.filter has_ncbi_id (genes gm)). }
  rewrite commit_run. unfold get_target_ids. rewrite Hsel, Hgm, Ht. simpl.
  destruct (known_of (map target_id (genes gm))) as [|k ks]; [done|].
  rewrite Huse. simpl.
  assert (Hc : commit_columns w t gm (k :: ks) [] = Raise KeyError);
    [|unfold commit_columns_input; rewrite Hc;
      by rewrite <- Ht, set_input_data_same].
  unfold commit_columns. rewrite Hex.
  set (d := annotate_domain _ _ _ _).
  assert (Hsel0 : List.filter
            (λ iv : nat * variable,
               column_selected (target_database w) [] iv.2)
            (enumerate (dom_attributes d)) = []).
  { induction (enumerate (dom_attributes d)) as [|iv l IH]; [done|].
    simpl. unfold column_selected at 1.
    by destruct (var_attributes iv.2 !! target_database w). }
  rewrite Hsel0.
  assert (Hi : dom_attributes d !! i = Some v0).
  { change (domain_var d (Attr i) = Some v0). unfold d.
    rewrite annotate_domain_var, Hres. simpl. by rewrite Hv0. }
  rewrite (filterR_KeyError _ _ (i, v0)); [reflexivity| | |].
  - by apply enumerate_elem_of.
  - unfold column_known. simpl. by rewrite Hattr.
  - intros y e _. unfold column_known.
    destruct (var_attributes y.2 !! target_database w); [discriminate|].
    by intros [= <-].
Qed.

(** ** Ties between gene columns *)

Lemma last_insert_by {A} (key : A → nat) x l :
  last (insert_by key x l) =
  if forallb (λ y, key y <? key x) l then Some x else last l.
Proof.
  induction l as [|y l IH]; simpl; [done|].
  destruct (key x <=? key y) eqn:Hle.
  - apply Nat.leb_le in Hle.
    assert ((key y <? key x) = false) as -> by (apply Nat.ltb_ge; lia).
    reflexivity.
  - apply Nat.leb_gt in Hle.
    assert ((key y <? key x) = true) as -> by (by apply Nat.ltb_lt).
    simpl. destruct l as [|z l']; [done|].
    change (last (y :: insert_by key x (z :: l')))
      with (match insert_by key x (z :: l') with
            | [] => Some y
            | _ => last (insert_by key x (z :: l'))
            end).
    destruct (insert_by key x (z :: l')) eqn:Hins.
    + simpl in Hins. by destruct (key x <=? key z).
    + exact IH.
Qed.

(** The last element of the sorted list is the last of the elements with
    the largest key. *)
Lemma last_sorted_split {A} (key : A → nat) l b :
  last (sorted key l) = Some b →
  ∃ l1 l2, l = l1 ++ b :: l2 ∧
           (∀ y, y ∈ l1 → key y ≤ key b) ∧
           (∀ y, y ∈ l2 → key y < key b).
Proof.
  revert b. induction l as [|x l IH]; intros b; simpl; [discriminate|].
  rewrite last_insert_by.
  destruct (forallb (λ y, key y <? key x) (sorted key l)) eqn:Hall.
  - intros [= <-]. exists [], l. split; [done|]. split.
    + intros y Hy. inversion Hy.
    + intros y Hy. rewrite forallb_forall in Hall.
      apply Nat.ltb_lt, Hall, list_elem_of_In.
      by rewrite sorted_Permutation.
  - intros Hlast. destruct (IH b Hlast) as (l1 & l2 & -> & H1 & H2).
    exists (x :: l1), l2. split; [done|]. split; [|exact H2].
    intros y Hy. apply elem_of_cons in Hy as [->|Hy]; [|by apply H1].
    apply last_sorted_max in Hlast as [_ Hmax].
    apply not_true_iff_false in Hall.
    destruct (Nat.le_gt_cases (key x) (key b)) as [Hle|Hgt]; [exact Hle|].
    exfalso. apply Hall, forallb_forall. intros z Hz.
    apply Nat.ltb_lt. apply list_elem_of_In in Hz.
    rewrite sorted_Permutation in Hz. specialize (Hmax z Hz). lia.
Qed.

(** X5. Of several candidate columns with the largest number of unique
    values, [gene_column_identifier] returns the one that comes last in
    the combo box model: every candidate after the returned one has fewer
    unique values, and none before it has more. *)
Theorem gene_column_identifier_tie (w : OWGenes)
  (cs : list (variable * nat)) (best : variable) :
  candidates w = Ok cs →
  gene_column_identifier w = Ok best →
  ∃ n before after,
    cs = before ++ (best, n) :: after ∧
    (∀ c m, (c, m) ∈ before → m ≤ n) ∧
    (∀ c m, (c, m) ∈ after → m < n).
Proof.
  intros Hcs. unfold gene_column_identifier. rewrite Hcs. simpl.
  destruct (last (sorted snd cs)) as [[b n]|] eqn:Hlast; [|discriminate].
  intros [= ->].
  destruct (last_sorted_split snd cs (best, n) Hlast)
    as (l1 & l2 & -> & H1 & H2).
  exists n, l1, l2. split; [done|]. split.
  - intros c m Hc. apply (H1 (c, m) Hc).
  - intros c m Hc. apply (H2 (c, m) Hc).
Qed.

(** ** The table of a commit with the genes in rows *)

Lemma gene_variable_new target d :
  domain_index_name d target = None →
  gene_variable target d =
    (mkVariable target StringVariable ∅, Meta (length (dom_metas d)),
     dom_metas d ++ [mkVariable target StringVariable ∅]).
Proof. intros H. unfold gene_variable. by rewrite H. Qed.

Lemma mapR_coerce_meta n ids :
  mapR (coerce (Meta n)) ids = Ok (map CStr ids).
Proof. induction ids as [|id ids IH]; simpl; [done|]. by rewrite IH. Qed.

Lemma zip_set_new_column n (rs : list row) (gs : list Gene) :
  Forall (λ r, length (row_metas r) = n) rs →
  zip_set (Meta n)
          (map (λ r, mkRow (row_X r) (row_Y r)
                           (row_metas r ++ replicate 1 (CStr ""))) rs)
          (map CStr (map target_id gs))
  = zip_with with_gene_id rs gs ++ 
    map (λ r, mkRow (row_X r) (row_Y r) (row_metas r ++ [CStr ""]))
        (drop (length gs) rs).
Proof.
  intros Hwf. revert gs. induction Hwf as [|r rs Hr _ IH]; intros gs.
  - by destruct gs.
  - destruct gs as [|g gs]; simpl; [done|]. rewrite IH. f_equal.
    unfold with_gene_id. f_equal.
    rewrite <- Hr. rewrite insert_app_r_alt by done.
    by rewrite Nat.sub_diag.
Qed.

Lemma assign_new_column (t : Table) (gs : list Gene) (v : variable) :
  table_wf t →
  length gs = length (tab_rows t) →
  assign_column (transform_rows t (dom_metas (tab_domain t) ++ [v]))
                (Meta (length (dom_metas (tab_domain t))))
                (map target_id gs)
  = Ok (mkTable (mkDomain (dom_attributes (tab_domain t))
                          (dom_class_vars (tab_domain t))
                          (dom_metas (tab_domain t) ++ [v]))
                (zip_with with_gene_id (tab_rows t) gs)
                (tab_attributes t)).
Proof.
  intros Hwf Hlen. unfold assign_column, transform_rows. simpl.
  rewrite !length_map, bool_decide_eq_true_2 by done. simpl.
  rewrite mapR_coerce_meta. simpl. f_equal. f_equal.
  rewrite length_app. simpl.
  replace (length (dom_metas (tab_domain t)) + 1
           - length (dom_metas (tab_domain t))) with 1 by lia.
  rewrite zip_set_new_column.
  - rewrite Hlen, drop_all. simpl. by rewrite app_nil_r.
  - eapply Forall_impl; [exact Hwf|]. by intros r (_ & _ & ?).
Qed.

Lemma row_str_gene_id p r s :
  row_cell r p = Some (CStr s) → s ≠ "" → row_str StringVariable p r = Ok s.
Proof.
  intros Hc Hs. unfold row_str. rewrite Hc. simpl.
  destruct (String.eqb_spec s "") as [->|_]; done.
Qed.

(** The indices the comprehension of the selected rows keeps are those of
    the rows whose id is selected. *)
Lemma selected_rows_from_spec p sel (pre suf : list row) :
  Forall (has_gene_id p) suf →
  ∃ idx,
    selected_rows_from StringVariable p sel (length pre) suf = Ok idx ∧
    mapR (py_index (pre ++ suf)) idx =
      Ok (List.filter (λ r, cell_in (row_cell r p) sel) suf) ∧
    (idx = [] ↔ List.filter (λ r, cell_in (row_cell r p) sel) suf = []).
Proof.
  intros Hsuf. revert pre.
  induction Hsuf as [|r suf (s & Hc & Hs) _ IH]; intros pre.
  - exists []. done.
  - destruct (IH (pre ++ [r])) as (idx & Hidx & Hmap & Hnil).
    rewrite length_app, Nat.add_1_r in Hidx. rewrite <- app_assoc in Hmap.
    simpl in Hmap. simpl.
    rewrite (row_str_gene_id _ _ _ Hc Hs), Hidx, Hc. simpl.
    destruct (str_in s sel).
    + exists (length pre :: idx). split; [done|]. split; [|done].
      assert (py_index (pre ++ r :: suf) (length pre) = Ok r) as Hpre
        by (unfold py_index; by rewrite list_lookup_middle).
      cbn [mapR]. rewrite Hpre, Hmap. reflexivity.
    + exists idx. done.
Qed.

Lemma with_gene_id_cell n r g :
  length (row_metas r) = n →
  row_cell (with_gene_id r g) (Meta n) = Some (CStr (target_id g)).
Proof.
  intros <-. simpl. rewrite lookup_app_r by done.
  by rewrite Nat.sub_diag.
Qed.

Lemma zip_with_gene_id_has_id n rs gs :
  Forall (λ r, length (row_metas r) = n) rs →
  Forall (has_gene_id (Meta n)) (zip_with with_gene_id rs gs).
Proof.
  intros Hwf. revert gs. induction Hwf as [|r rs Hr _ IH]; intros [|g gs];
    simpl; try constructor; [|apply IH].
  exists (target_id g). split; [by apply with_gene_id_cell|].
  apply target_id_ne_empty.
Qed.

Lemma commit_rows_new_column_table (w : OWGenes) (t : Table)
  (gm : GeneMatcher) (sel known : list string) (org : string) :
  table_wf t →
  domain_index_name (tab_domain t) (target_database w) = None →
  length (genes gm) = length (tab_rows t) →
  get_selected_organism w = Ok org →
  commit_rows w t (map target_id (genes gm)) known sel =
  Ok (mkTable
        (mkDomain (dom_attributes (tab_domain t))
                  (dom_class_vars (tab_domain t))
                  (dom_metas (tab_domain t) ++
                   [mkVariable (target_database w) StringVariable ∅]))
        (kept_rows (Meta (length (dom_metas (tab_domain t)))) sel known
                   (exclude_unmatched w)
                   (zip_with with_gene_id (tab_rows t) (genes gm)))
        (<[GENE_ID_COLUMN := PStr (target_database w)]>
           (<[GENE_AS_ATTRIBUTE_NAME := PBool false]>
              (<[TAX_ID := PStr org]> (tab_attributes t))))).
Proof.
  intros Hwf Hnew Hlen Horg.
  assert (Hmetas : Forall (λ r, length (row_metas r)
                                = length (dom_metas (tab_domain t)))
                          (tab_rows t)).
  { eapply Forall_impl; [exact Hwf|]. by intros r (_ & _ & ?). }
  unfold commit_rows, kept_rows.
  rewrite (gene_variable_new _ _ Hnew).
  rewrite (assign_new_column t (genes gm) _ Hwf Hlen).
  remember (Meta (length (dom_metas (tab_domain t)))) as p eqn:Hp.
  remember (zip_with with_gene_id (tab_rows t) (genes gm)) as all eqn:Hall.
  destruct (selected_rows_from_spec p sel [] all) as (idx & Hidx & Hmap & Hnil).
  { subst. by apply zip_with_gene_id_has_id. }
  change (length (@nil row)) with 0 in Hidx.
  change ([] ++ all) with all in Hmap.
  remember (List.filter (λ r, cell_in (row_cell r p) sel) all) as chosen.
  cbn [mbind result_bind tab_rows var_type_of].
  rewrite Hidx. cbn [mbind result_bind]. rewrite Horg.
  cbn [mbind result_bind].
  destruct idx as [|i idx].
  - assert (chosen = []) as -> by (by apply Hnil).
    cbn [mbind result_bind]. by destruct (exclude_unmatched w).
  - unfold table_rows_at. cbn [tab_rows set_table_attributes].
    rewrite Hmap. cbn [mbind result_bind].
    destruct chosen as [|c chosen'].
    { destruct Hnil as [_ Hnil]. by specialize (Hnil eq_refl). }
    by destruct (exclude_unmatched w).
Qed.

Lemma commit_rows_input_Ok w t ids known sel tb :
  commit_rows w t ids known sel = Ok tb →
  domain_index_name (tab_domain t) (target_database w) = None →
  commit_rows_input w t ids sel =
    mkTable (tab_domain t) (tab_rows t) (tab_attributes tb).
Proof.
  intros Hc Hnew.
  pose proof (commit_rows_spec _ _ _ _ _ _ Hc) as (org & Horg & _ & Ha & _).
  unfold commit_rows in Hc. unfold commit_rows_input. rewrite Hnew.
  destruct (gene_variable (target_database w) (tab_domain t))
    as [[gene_var p] metas].
  destruct (assign_column (transform_rows t metas) p ids) as [t1|];
    [|discriminate].
  cbn [mbind result_bind] in *.
  destruct (selected_rows_from _ _ _ _ _) as [rows|]; [|discriminate].
  cbn [mbind result_bind]. rewrite Horg. by rewrite Ha.
Qed.


(** ** The table of a commit with the genes in columns *)

Lemma annotate_all_type target replace gs v :
  var_type_of (annotate_all target replace gs v) = var_type_of v.
Proof.
  revert v. induction gs as [|g gs IH]; intros v; [done|].
  unfold annotate_all in *. simpl. by rewrite IH.
Qed.

Lemma annotate_all_other_attribute target replace gs v k :
  k ≠ target →
  var_attributes (annotate_all target replace gs v) !! k
  = var_attributes v !! k.
Proof.
  intros Hk. revert v. induction gs as [|g gs IH]; intros v; [done|].
  unfold annotate_all in *. simpl. rewrite IH. simpl.
  by rewrite lookup_insert_ne.
Qed.

Lemma annotate_all_name_origin target replace gs v :
  var_name (annotate_all target replace gs v) = var_name v ∨
  ∃ g, g ∈ gs ∧ symbol g = Some (var_name (annotate_all target replace gs v)).
Proof.
  revert v. induction gs as [|g gs IH]; intros v; [by left|].
  unfold annotate_all in *. simpl.
  destruct (IH (annotate_variable target replace g v)) as [Heq|(g' & Hg' & Hs)].
  - rewrite Heq. simpl. destruct replace; [|by left].
    destruct (symbol g) as [s|] eqn:Hsym; [|by left].
    right. exists g. split; [left|]. simpl. by rewrite Hsym.
  - right. exists g'. split; [by right|exact Hs].
Qed.

Lemma domain_alter_lengths f p d :
  length (dom_attributes (domain_alter f p d)) = length (dom_attributes d) ∧
  length (dom_class_vars (domain_alter f p d)) = length (dom_class_vars d) ∧
  length (dom_metas (domain_alter f p d)) = length (dom_metas d).
Proof. destruct p; simpl; by rewrite length_alter. Qed.

Lemma annotate_fold_lengths target replace d0 gs d :
  let d' := fold_left (annotate_gene target replace d0) gs d in
  length (dom_attributes d') = length (dom_attributes d) ∧
  length (dom_class_vars d') = length (dom_class_vars d) ∧
  length (dom_metas d') = length (dom_metas d).
Proof.
  revert d. induction gs as [|g gs IH]; intros d; simpl; [done|].
  destruct (IH (annotate_gene target replace d0 d g)) as (Ha & Hc & Hm).
  rewrite Ha, Hc, Hm. unfold annotate_gene.
  destruct (domain_index_name d0 (input_name g)); [|done].
  apply domain_alter_lengths.
Qed.

Lemma annotate_domain_lengths target replace gs d0 :
  let d := annotate_domain target replace gs d0 in
  length (dom_attributes d) = length (dom_attributes d0) ∧
  length (dom_class_vars d) = length (dom_class_vars d0) ∧
  length (dom_metas d) = length (dom_metas d0).
Proof. apply annotate_fold_lengths. Qed.

Lemma commit_columns_table w t gm known sel tb :
  commit_columns w t gm known sel = Ok tb →
  let d := annotate_domain (target_database w) (replace_id_with_symbol w)
                           (genes gm) (tab_domain t) in
  ∃ out org,
    sublist out (enumerate (dom_attributes d)) ∧
    get_selected_organism w = Ok org ∧
    tb = mkTable
           (mkDomain out.*2 (dom_class_vars d) (dom_metas d))
           (map (λ r, mkRow (map (λ i, default CNaN (row_X r !! i)) out.*1)
                            (row_Y r) (row_metas r))
                (tab_rows t))
           (<[GENE_ID_ATTRIBUTE := PStr (target_database w)]>
              (<[GENE_AS_ATTRIBUTE_NAME := PBool true]>
                 (<[TAX_ID := PStr org]> (tab_attributes t)))).
Proof.
  unfold commit_columns.
  set (d := annotate_domain _ _ _ _).
  set (columns := enumerate (dom_attributes d)).
  set (selected := List.filter _ columns).
  set (out0 := match selected with [] => columns | _ => selected end).
  assert (Hout0 : sublist out0 columns).
  { unfold out0. destruct selected eqn:Hsel; [done|].
    rewrite <- Hsel. apply List_filter_sublist. }
  destruct (if exclude_unmatched w then _ else Ok out0) as [out|] eqn:Hout;
    simpl; [|discriminate].
  destruct (get_selected_organism w) as [org|]; simpl; [|discriminate].
  intros [= <-]. exists out, org. split; [|split; [done|]].
  - etrans; [|exact Hout0]. destruct (exclude_unmatched w).
    + by eapply filterR_sublist.
    + by injection Hout as <-.
  - unfold from_table_columns, set_table_attributes. simpl.
    f_equal. apply map_ext. intros r. f_equal.
    change (map ?f ?l) with (f <$> l). by rewrite <- list_fmap_compose.
Qed.

Lemma enumerate_fst {A} (l : list A) : (enumerate l).*1 = seq 0 (length l).
Proof. unfold enumerate. apply fst_zip. by rewrite length_seq. Qed.

(** X7. With the genes in columns a commit drops no row and changes no
    value. The table it sends has the class variables and metas of the
    annotated domain, of the features a selection in their order, and for
    each row of the input one row with the same class values and metas and
    with the values of the chosen features. *)
Theorem commit_columns_data (w : OWGenes) (new : list signal) (tb : Table) :
  use_attr_names w = true →
  outputs (snd (commit w)) = outputs w ++ new →
  Data (Some tb) ∈ new →
  ∃ t gm positions,
    input_data w = Some t ∧ gene_matcher w = Some gm ∧
    let d := annotate_domain (target_database w) (replace_id_with_symbol w)
                             (genes gm) (tab_domain t) in
    sublist positions (seq 0 (length (dom_attributes (tab_domain t)))) ∧
    Forall2 (λ i v, dom_attributes d !! i = Some v)
            positions (dom_attributes (tab_domain tb)) ∧
    dom_class_vars (tab_domain tb) = dom_class_vars d ∧
    dom_metas (tab_domain tb) = dom_metas d ∧
    length (tab_rows tb) = length (tab_rows t) ∧
    tab_rows tb =
      map (λ r, mkRow (map (λ i, default CNaN (row_X r !! i)) positions)
                      (row_Y r) (row_metas r))
          (tab_rows t).
Proof.
  intros Huse Hout Hin.
  destruct (commit_emitted w new tb Hout Hin)
    as (sel & t & gm & Hsel & Ht & Hgm & Hknown & _ & Hbranch).
  destruct Hbranch as [[Hcontra _]|[_ Hcols]]; [congruence|].
  apply commit_columns_table in Hcols as (out & org & Hsub & _ & ->).
  exists t, gm, out.*1. split; [exact Ht|]. split; [exact Hgm|]. simpl.
  split; [|split; [|split; [done|split; [done|split]]]].
  - destruct (annotate_domain_lengths (target_database w)
                (replace_id_with_symbol w) (genes gm) (tab_domain t))
      as (<- & _ & _).
    rewrite <- enumerate_fst. by apply fmap_sublist.
  - apply Forall2_fmap, Forall_Forall2_diag, Forall_forall.
    intros [i v] Hiv. simpl. apply enumerate_elem_of.
    by eapply elem_of_sublist.
  - by rewrite length_map.
  - reflexivity.
Qed.

(** X8. The loop of [commit] over the genes marks features and does
    nothing else to them. A feature of a table sent with the genes in
    columns is a feature of the input with the same class and with the
    same attributes but for the entry [target_database]; it is the feature
    of the input itself when no gene's name resolves to it; its name is
    the name in the input or the symbol of a gene of the matcher, and it
    is the name in the input when ids are not replaced by symbols. *)
Theorem commit_columns_features (w : OWGenes) (new : list signal)
  (tb : Table) :
  use_attr_names w = true →
  outputs (snd (commit w)) = outputs w ++ new →
  Data (Some tb) ∈ new →
  ∃ t gm,
    input_data w = Some t ∧ gene_matcher w = Some gm ∧
    ∀ v, v ∈ dom_attributes (tab_domain tb) →
      ∃ i v0,
        dom_attributes (tab_domain t) !! i = Some v0 ∧
        var_type_of v = var_type_of v0 ∧
        (∀ k, k ≠ target_database w →
              var_attributes v !! k = var_attributes v0 !! k) ∧
        (resolving_genes (tab_domain t) (Attr i) (genes gm) = [] →
         v = v0) ∧
        (var_name v = var_name v0 ∨
         ∃ g, g ∈ genes gm ∧ symbol g = Some (var_name v)) ∧
        (replace_id_with_symbol w = false → var_name v = var_name v0).
Proof.
  intros Huse Hout Hin.
  destruct (commit_emitted w new tb Hout Hin)
    as (sel & t & gm & Hsel & Ht & Hgm & Hknown & _ & Hbranch).
  destruct Hbranch as [[Hcontra _]|[_ Hcols]]; [congruence|].
  exists t, gm. split; [exact Ht|]. split; [exact Hgm|]. intros v Hv.
  destruct (output_attribute_origin _ _ _ _ _ _ v Hcols Hv)
    as (i & v0 & Hv0 & ->).
  exists i, v0. split; [exact Hv0|].
  split; [apply annotate_all_type|].
  split; [intros k Hk; by apply annotate_all_other_attribute|].
  split; [by intros ->|]. split.
  - destruct (annotate_all_name_origin (target_database w)
                (replace_id_with_symbol w)
                (resolving_genes (tab_domain t) (Attr i) (genes gm)) v0)
      as [Heq|(g & Hg & Hs)]; [by left|].
    right. exists g. split; [|exact Hs].
    apply list_elem_of_In, filter_In in Hg as [Hg _].
    by apply list_elem_of_In.
  - intros ->. apply annotate_all_no_replace.
Qed.

(** ** Receiving a table *)

Lemma __reset_widget_state_no_genes w :
  input_genes w = None → __reset_widget_state w = (Ok tt, reset_state w).
Proof.
  intros Hg. unfold __reset_widget_state, reset_state.
  rewrite !modify_bind. unfold _update_info_box. rewrite get_bind.
  cbn [input_genes set_unknown_model set_table_model set_table_view].
  by rewrite Hg.
Qed.

Lemma select_tax_id_bind {C} (k : unit → M C) w :
  (match tax_id w with
   | Some tid =>
       match list_index tid (organisms w) with
       | Some i => modify (set_selected_organism i)
       | None => mret tt
       end
   | None => mret tt
   end ≫= k) w = k tt (select_tax_id w).
Proof.
  unfold select_tax_id. destruct (tax_id w) as [tid|]; [|done].
  by destruct (list_index tid (organisms w)).
Qed.

(** [handle_input] for a table with instances: the table is stored, and
    then the genes are located and the matcher is started. *)
Lemma handle_input_run (t : Table) (w : OWGenes) :
  tab_rows t ≠ [] →
  handle_input (Some t) w =
  (find_genes_location ≫= λ _, on_input_option_change) (input_stored t w).
Proof.
  intros Hrows. unfold handle_input. rewrite !modify_bind.
  rewrite (bind_Ok _ _ _ _ _
             (__reset_widget_state_no_genes
                (set_input_genes None (set_input_data None w)) eq_refl)).
  rewrite !modify_bind.
  assert (Htruthy : table_truthy (Some t) = true).
  { simpl. by rewrite bool_decide_eq_false_2. }
  rewrite Htruthy, !modify_bind, get_bind, select_tax_id_bind.
  unfold openContext. rewrite bind_assoc, get_bind. unfold input_stored.
  match goal with
  | |- context [saved_context (select_tax_id ?w2) _] =>
      assert (Hctx : saved_context (select_tax_id w2) (tab_domain t)
                     = saved_context w (tab_domain t))
  end.
  { unfold select_tax_id.
    match goal with |- context [tax_id ?w2] => destruct (tax_id w2) end;
      [|done].
    match goal with |- context [list_index ?a ?b] =>
      by destruct (list_index a b) end. }
  rewrite Hctx.
  destruct (saved_context w (tab_domain t)) as [[col b]|]; [|done].
  by rewrite bind_assoc, !modify_bind.
Qed.

Lemma gene_names_from_table_input_genes (w : OWGenes) :
  is_Some (input_genes (snd (gene_names_from_table w))).
Proof.
  unfold gene_names_from_table. rewrite modify_bind, get_bind.
  cbn [input_data set_input_genes use_attr_names selected_gene_col].
  destruct (input_data w) as [t|]; [|by eexists].
  destruct (table_truthy (Some t)); [|by eexists].
  destruct (use_attr_names w); [by eexists|].
  destruct (selected_gene_col w) as [col|] eqn:Hsel.
  - rewrite ret_bind, (gene_names_tail_run t _ col) by exact Hsel.
    destruct (column_names t col); by eexists.
  - rewrite bind_assoc.
    destruct (gene_column_identifier (set_input_genes (Some []) w))
      as [col|e] eqn:Hcol.
    + erewrite lift_bind_Ok; [|reflexivity].
      rewrite modify_bind, (gene_names_tail_run t _ col) by reflexivity.
      destruct (column_names t col); by eexists.
    + by eexists.
Qed.

Lemma gene_names_from_table_keeps {B} (proj : OWGenes → B) :
  (∀ x w, proj (set_input_genes x w) = proj w) →
  (∀ x w, proj (set_selected_gene_col x w) = proj w) →
  keeps proj gene_names_from_table.
Proof.
  intros H1 H2. unfold gene_names_from_table.
  repeat first
    [ apply keeps_ret | apply keeps_get | apply keeps_lift
    | apply keeps_modify; intros; first [apply H1 | apply H2]
    | apply keeps_bind; [|intros]
    | match goal with
      | |- keeps _ (match ?x with _ => _ end) => destruct x
      | |- keeps _ (if ?x then _ else _) => destruct x
      end ].
Qed.

Lemma _update_gene_matcher_Ok (w w' : OWGenes) :
  _update_gene_matcher w = (Ok tt, w') →
  ∃ names org,
    input_genes w' = Some names ∧
    get_selected_organism w = Ok org ∧
    gene_matcher w' = Some (mkGeneMatcher (genes_of_names names) org) ∧
    threadpool w' = threadpool w ∧ table_view w' = table_view w ∧
    outputs w' = outputs w ∧ organisms w' = organisms w ∧
    selected_organism w' = selected_organism w ∧
    exclude_unmatched w' = exclude_unmatched w ∧
    input_data w' = input_data w.
Proof.
  unfold _update_gene_matcher.
  pose proof (gene_names_from_table_input_genes w) as [names Hnames].
  pose proof (gene_names_from_table_keeps organisms
                (λ _ _, eq_refl) (λ _ _, eq_refl) w) as Horgs.
  pose proof (gene_names_from_table_keeps selected_organism
                (λ _ _, eq_refl) (λ _ _, eq_refl) w) as Hsel.
  pose proof (gene_names_from_table_keeps threadpool
                (λ _ _, eq_refl) (λ _ _, eq_refl) w) as Htp.
  pose proof (gene_names_from_table_keeps table_view
                (λ _ _, eq_refl) (λ _ _, eq_refl) w) as Htv.
  pose proof (gene_names_from_table_keeps outputs
                (λ _ _, eq_refl) (λ _ _, eq_refl) w) as Hout.
  pose proof (gene_names_from_table_keeps exclude_unmatched
                (λ _ _, eq_refl) (λ _ _, eq_refl) w) as Hex.
  pose proof (gene_names_from_table_keeps input_data
                (λ _ _, eq_refl) (λ _ _, eq_refl) w) as Hin.
  destruct (gene_names_from_table w) as [[[]|e] w2] eqn:Hrun;
    [|unfold mbind, M_bind; rewrite Hrun; discriminate].
  simpl in *. rewrite (bind_Ok _ _ _ _ _ Hrun), get_bind.
  assert (Horg : get_selected_organism w2 = get_selected_organism w).
  { unfold get_selected_organism. by rewrite Horgs, Hsel. }
  rewrite Horg.
  destruct (get_selected_organism w) as [org|e] eqn:Horg'; [|discriminate].
  erewrite lift_bind_Ok; [|reflexivity].
  rewrite modify_bind, get_bind.
  erewrite lift_bind_Ok; [|reflexivity].
  cbn [input_genes set_gene_matcher]. rewrite Hnames.
  erewrite lift_bind_Ok; [|reflexivity].
  rewrite modify_bind, get_bind.
  erewrite lift_bind_Ok; [|reflexivity].
  assert (Horg2 : ∀ x y, get_selected_organism
                          (set_gene_matcher x (set_gene_matcher y w2))
                        = Ok org).
  { intros x y. unfold get_selected_organism in *. simpl.
    by rewrite <- Horg. }
  rewrite Horg2. erewrite lift_bind_Ok; [|reflexivity].
  intros [= <-]. exists names, org. simpl. repeat split; done.
Qed.

Lemma on_input_option_change_Ok (w w' : OWGenes) :
  on_input_option_change w = (Ok tt, w') →
  ∃ names org,
    input_genes w' = Some names ∧
    get_selected_organism w = Ok org ∧
    gene_matcher w' = Some (mkGeneMatcher (genes_of_names names) org) ∧
    threadpool w' =
      threadpool w ++ [mkGeneMatcher (genes_of_names names) org] ∧
    table_view w' = None ∧
    outputs w' = outputs w ∧ organisms w' = organisms w ∧
    selected_organism w' = selected_organism w ∧
    exclude_unmatched w' = exclude_unmatched w ∧
    input_data w' = input_data w.
Proof.
  unfold on_input_option_change.
  destruct (__reset_widget_state_run w) as [s Hs].
  rewrite (bind_Ok _ _ _ _ _ Hs).
  set (w1 := set_info_box s _).
  destruct (_update_gene_matcher w1) as [[[]|e] w2] eqn:Hrun;
    [|unfold mbind, M_bind; rewrite Hrun; discriminate].
  rewrite (bind_Ok _ _ _ _ _ Hrun).
  apply _update_gene_matcher_Ok in Hrun
    as (names & org & Hn & Horg & Hgm & Htp & Htv & Hout & Horgs & Hsel
        & Hex & Hin).
  unfold match_genes. rewrite get_bind, Hgm. unfold modify.
  intros [= <-]. exists names, org. simpl.
  rewrite Htp, Htv, Hout, Horgs, Hsel, Hex, Hin. repeat split; done.
Qed.

Lemma find_genes_location_keeps {B} (proj : OWGenes → B) :
  (∀ x w, proj (set_selected_gene_col x w) = proj w) →
  (∀ x w, proj (set_use_attr_names x w) = proj w) →
  keeps proj find_genes_location.
Proof.
  intros H1 H2. unfold find_genes_location.
  repeat first
    [ apply keeps_ret | apply keeps_get | apply keeps_lift
    | apply keeps_modify; intros; first [apply H1 | apply H2]
    | apply keeps_bind; [|intros]
    | match goal with
      | |- keeps _ (match ?x with _ => _ end) => destruct x
      end ].
Qed.

Lemma on_input_option_change_keeps {B} (proj : OWGenes → B) :
  (∀ x w, proj (set_table_view x w) = proj w) →
  (∀ x w, proj (set_table_model x w) = proj w) →
  (∀ x w, proj (set_unknown_model x w) = proj w) →
  (∀ x w, proj (set_info_box x w) = proj w) →
  (∀ x w, proj (set_input_genes x w) = proj w) →
  (∀ x w, proj (set_selected_gene_col x w) = proj w) →
  (∀ x w, proj (set_gene_matcher x w) = proj w) →
  (∀ x w, proj (set_threadpool x w) = proj w) →
  keeps proj on_input_option_change.
Proof.
  intros H1 H2 H3 H4 H5 H6 H7 H8.
  unfold on_input_option_change, __reset_widget_state, _update_info_box,
    _update_gene_matcher, gene_names_from_table, match_genes.
  repeat first
    [ apply keeps_ret | apply keeps_get | apply keeps_lift
    | apply keeps_modify; intros;
      first [apply H1 | apply H2 | apply H3 | apply H4 | apply H5
            | apply H6 | apply H7 | apply H8 ]
    | apply keeps_bind; [|intros]
    | match goal with
      | |- keeps _ (match ?x with _ => _ end) => destruct x
      | |- keeps _ (if ?x then _ else _) => destruct x
      end ].
Qed.

Lemma select_tax_id_fields (w : OWGenes) :
  input_data (select_tax_id w) = input_data w ∧
  gene_columns_model (select_tax_id w) = gene_columns_model w ∧
  selected_gene_col (select_tax_id w) = selected_gene_col w ∧
  threadpool (select_tax_id w) = threadpool w ∧
  gene_matcher (select_tax_id w) = gene_matcher w ∧
  outputs (select_tax_id w) = outputs w ∧
  organisms (select_tax_id w) = organisms w ∧
  tax_id (select_tax_id w) = tax_id w ∧
  table_view (select_tax_id w) = table_view w ∧
  exclude_unmatched (select_tax_id w) = exclude_unmatched w ∧
  use_attr_names (select_tax_id w) = use_attr_names w.
Proof.
  unfold select_tax_id. destruct (tax_id w) as [tid|] eqn:Htid; [|done].
  by destruct (list_index tid (organisms w)) eqn:Hi.
Qed.


Lemma input_stored_fields (t : Table) (w : OWGenes) :
  input_data (input_stored t w) = Some t ∧
  gene_columns_model (input_stored t w) = set_domain (Some (tab_domain t)) ∧
  selected_gene_col (input_stored t w) =
    match saved_context w (tab_domain t) with
    | Some (col, _) => col
    | None => None
    end ∧
  threadpool (input_stored t w) = threadpool w ∧
  gene_matcher (input_stored t w) = gene_matcher w ∧
  outputs (input_stored t w) = outputs w ∧
  organisms (input_stored t w) = organisms w ∧
  tax_id (input_stored t w) =
    Some (py_str (default (PStr "9606") (tab_attributes t !! TAX_ID))) ∧
  table_view (input_stored t w) = None ∧
  exclude_unmatched (input_stored t w) = exclude_unmatched w.
Proof.
  unfold input_stored.
  match goal with |- context [select_tax_id ?w2] =>
    destruct (select_tax_id_fields w2)
      as (H1 & H2 & H3 & H4 & H5 & H6 & H7 & H8 & H9 & H10 & _);
    generalize dependent (select_tax_id w2)
  end.
  intros w3 H1 H2 H3 H4 H5 H6 H7 H8 H9 H10.
  destruct (saved_context w (tab_domain t)) as [[col b]|];
    repeat split;
    first [ exact H1 | exact H2 | exact H3 | exact H4 | exact H5
          | exact H6 | exact H7 | exact H8 | exact H9 | exact H10
          | reflexivity ].
Qed.

(** X9. [handle_input] without data, or with a table without instances: it
    returns; the input, its genes, the columns offered and the column
    selected are cleared and the view is detached; no matcher is made or
    queued and nothing is sent, so that the matcher of the previous input
    and what was sent for it stay. *)
Theorem handle_input_without_instances (data : option Table) (w : OWGenes) :
  table_truthy data = false →
  ∃ w', handle_input data w = (Ok tt, w') ∧
        input_data w' = None ∧ input_genes w' = None ∧
        gene_columns_model w' = [] ∧ selected_gene_col w' = None ∧
        table_view w' = None ∧ info_box w' = "No data on input." ∧
        gene_matcher w' = gene_matcher w ∧
        threadpool w' = threadpool w ∧
        outputs w' = outputs w.
Proof.
  intros Hdata. eexists. split.
  { unfold handle_input. rewrite !modify_bind.
    rewrite (bind_Ok _ _ _ _ _
               (__reset_widget_state_no_genes
                  (set_input_genes None (set_input_data None w)) eq_refl)).
    rewrite !modify_bind. rewrite Hdata.
    destruct data; reflexivity. }
  repeat split.
Qed.

(** X10. [handle_input] with a table that has instances but no attributes,
    no saved context and no discrete or string column among those offered:
    the search for the gene column finds no candidate and the handler
    raises [IndexError], after the table has been stored. *)
Theorem handle_input_no_candidate_column (t : Table) (w : OWGenes) :
  tab_rows t ≠ [] →
  dom_attributes (tab_domain t) = [] →
  saved_context w (tab_domain t) = None →
  omap is_candidate (set_domain (Some (tab_domain t))) = [] →
  ∃ w', handle_input (Some t) w = (Raise IndexError, w') ∧
        input_data w' = Some t ∧ selected_gene_col w' = None ∧
        gene_matcher w' = gene_matcher w ∧
        threadpool w' = threadpool w ∧ outputs w' = outputs w.
Proof.
  intros Hrows Hattrs Hctx Hcand.
  destruct (input_stored_fields t w)
    as (Hin & Hmodel & Hcol & Htp & Hgm & Hout & _).
  rewrite Hctx in Hcol.
  exists (input_stored t w). split; [|done].
  rewrite handle_input_run by exact Hrows.
  unfold find_genes_location. rewrite bind_assoc, get_bind, Hin.
  cbn [attr_of]. rewrite bind_assoc, (lift_bind_Ok _ _ _ t) by done.
  rewrite Hattrs, Hcol.
  unfold gene_column_identifier, candidates. rewrite Hmodel, Hcand.
  reflexivity.
Qed.

(** X11. [handle_input] with a table that has instances, when it returns:
    the names of the genes have been read from the table; a matcher of
    these names for the organism selected has been made and queued once,
    behind what was queued; the view stays detached and nothing is sent
    before the matcher has finished. *)
Theorem handle_input_starts_matcher (t : Table) (w w' : OWGenes) :
  tab_rows t ≠ [] →
  handle_input (Some t) w = (Ok tt, w') →
  ∃ names org,
    input_data w' = Some t ∧
    input_genes w' = Some names ∧
    get_selected_organism w' = Ok org ∧
    gene_matcher w' = Some (mkGeneMatcher (genes_of_names names) org) ∧
    threadpool w' =
      threadpool w ++ [mkGeneMatcher (genes_of_names names) org] ∧
    table_view w' = None ∧
    outputs w' = outputs w.
Proof.
  intros Hrows. rewrite handle_input_run by exact Hrows.
  destruct (input_stored_fields t w)
    as (Hin & _ & _ & Htp & _ & Hout & _).
  unfold mbind, M_bind.
  destruct (find_genes_location (input_stored t w)) as [[[]|e] w1] eqn:Hfind;
    [|discriminate].
  intros Hrun.
  apply on_input_option_change_Ok in Hrun
    as (names & org & Hn & Horg & Hgm & Htp' & Htv & Hout' & Horgs & Hsel
        & _ & Hin').
  assert (Hk : ∀ {B} (proj : OWGenes → B),
             (∀ x w, proj (set_selected_gene_col x w) = proj w) →
             (∀ x w, proj (set_use_attr_names x w) = proj w) →
             proj w1 = proj (input_stored t w)).
  { intros B proj H1 H2.
    pose proof (find_genes_location_keeps proj H1 H2 (input_stored t w))
      as Hkeep.
    by rewrite Hfind in Hkeep. }
  exists names, org.
  rewrite Hin', Htp', Hout', (Hk _ input_data), (Hk _ threadpool),
    (Hk _ outputs), Hin, Htp, Hout by done.
  repeat split; try done.
  unfold get_selected_organism in *. by rewrite Horgs, Hsel.
Qed.

Lemma list_index_lookup (x : string) (l : list string) (i : nat) :
  list_index x l = Some i → l !! i = Some x.
Proof.
  revert i. induction l as [|y l IH]; intros i; [done|]. simpl.
  destruct (String.eqb y x) eqn:Hyx.
  - apply String.eqb_eq in Hyx as ->. by intros [= <-].
  - destruct (list_index x l) as [j|]; [|done].
    intros [= <-]. by apply IH.
Qed.

Lemma list_index_elem_of (x : string) (l : list string) :
  x ∈ l → is_Some (list_index x l).
Proof.
  induction 1 as [x l|x y l _ IH]; simpl.
  - rewrite String.eqb_refl. by eexists.
  - destruct (String.eqb y x); [by eexists|].
    destruct IH as [j ->]. by eexists.
Qed.

Lemma list_index_not_elem_of (x : string) (l : list string) :
  x ∉ l → list_index x l = None.
Proof.
  intros Hx. destruct (list_index x l) as [i|] eqn:Hi; [|done].
  destruct Hx. eapply list_elem_of_lookup_2, list_index_lookup, Hi.
Qed.

Lemma input_stored_organism (t : Table) (w : OWGenes) :
  selected_organism (input_stored t w) =
  match list_index
          (py_str (default (PStr "9606") (tab_attributes t !! TAX_ID)))
          (organisms w) with
  | Some i => i
  | None => selected_organism w
  end.
Proof.
  unfold input_stored.
  assert (Hsel : ∀ w2, selected_organism (select_tax_id w2) =
                       match tax_id w2 with
                       | Some tid => match list_index tid (organisms w2) with
                                     | Some i => i
                                     | None => selected_organism w2
                                     end
                       | None => selected_organism w2
                       end).
  { intros w2. unfold select_tax_id. destruct (tax_id w2) as [tid|]; [|done].
    by destruct (list_index tid (organisms w2)). }
  match goal with |- context [select_tax_id ?w2] =>
    specialize (Hsel w2); generalize dependent (select_tax_id w2)
  end.
  intros w3 Hsel.
  destruct (saved_context w (tab_domain t)) as [[col b]|]; exact Hsel.
Qed.

(** X12. [handle_input] with a table that has instances, whether it
    returns or raises: the taxonomy id of the widget is the one of the
    table, or the one of the human when the table has none; when the
    widget offers it, it is the organism selected afterwards, and when it
    does not, the selection is as it was. *)
Theorem handle_input_selects_organism (t : Table) (w : OWGenes) :
  tab_rows t ≠ [] →
  let tid := py_str (default (PStr "9606") (tab_attributes t !! TAX_ID)) in
  let w' := snd (handle_input (Some t) w) in
  tax_id w' = Some tid ∧
  organisms w' = organisms w ∧
  (tid ∈ organisms w → get_selected_organism w' = Ok tid) ∧
  (tid ∉ organisms w → selected_organism w' = selected_organism w).
Proof.
  intros Hrows tid w'. subst w'.
  rewrite handle_input_run by exact Hrows.
  set (m := find_genes_location ≫= λ _, on_input_option_change).
  assert (Hk : ∀ {B} (proj : OWGenes → B),
             (∀ x w, proj (set_table_view x w) = proj w) →
             (∀ x w, proj (set_table_model x w) = proj w) →
             (∀ x w, proj (set_unknown_model x w) = proj w) →
             (∀ x w, proj (set_info_box x w) = proj w) →
             (∀ x w, proj (set_input_genes x w) = proj w) →
             (∀ x w, proj (set_selected_gene_col x w) = proj w) →
             (∀ x w, proj (set_gene_matcher x w) = proj w) →
             (∀ x w, proj (set_threadpool x w) = proj w) →
             (∀ x w, proj (set_use_attr_names x w) = proj w) →
             keeps proj m).
  { intros B proj H1 H2 H3 H4 H5 H6 H7 H8 H9. apply keeps_bind.
    - by apply find_genes_location_keeps.
    - intros _. by apply on_input_option_change_keeps. }
  destruct (input_stored_fields t w)
    as (_ & _ & _ & _ & _ & _ & Horgs & Htid & _).
  pose proof (input_stored_organism t w) as Hsel. fold tid in Hsel, Htid.
  rewrite (Hk _ tax_id), (Hk _ organisms) by done.
  split; [exact Htid|]. split; [exact Horgs|].
  unfold get_selected_organism.
  rewrite (Hk _ selected_organism), (Hk _ organisms), Horgs, Hsel by done.
  split.
  - intros [i Hi]%list_index_elem_of. rewrite Hi.
    unfold py_index. by rewrite (list_index_lookup _ _ _ Hi).
  - intros Hnot. by rewrite (list_index_not_elem_of _ _ Hnot).
Qed.

(** ** Filtering the match table *)

(** X14. [apply_filter] with a pattern that is not empty when no gene was
    matched: the cache of the table model is cleared, the match table
    has no row, taking its two dimensions raises [ValueError], and the
    view is left without its model. *)
Theorem apply_filter_empty_match_table (search_pattern : string)
  (w : OWGenes) (t : Table) :
  input_data w = Some t →
  data_table (table_model w) = Some [] →
  search_pattern ≠ "" →
  apply_filter search_pattern w =
    (Raise ValueError,
     set_table_model (cache_clear (table_model w)) (set_table_view None w)).
Proof.
  intros Hin Hrows Hpat. unfold apply_filter.
  rewrite get_bind, Hin, Hrows, modify_bind.
  destruct search_pattern as [|a pat]; [done|].
  unfold mbind, M_bind, on_table_model, show_table, filter_table.
  cbn [table_model set_table_view cache_clear set_row_cache data_table].
  by rewrite Hrows.
Qed.

(** ** The organisms offered *)

Lemma insert_on_Permutation {A} (key : A → string) (x : A) (l : list A) :
  Permutation (insert_on key x l) (x :: l).
Proof.
  induction l as [|y l IH]; [done|]. simpl.
  destruct (String.leb (key x) (key y)); [done|].
  rewrite IH. apply perm_swap.
Qed.

Lemma sorted_on_Permutation {A} (key : A → string) (l : list A) :
  Permutation (sorted_on key l) l.
Proof.
  induction l as [|x l IH]; [done|]. simpl.
  by rewrite insert_on_Permutation, IH.
Qed.

Lemma insert_on_Sorted {A} (key : A → string) (x : A) (l : list A) :
  Sorted (λ a b, String.leb (key a) (key b) = true) l →
  Sorted (λ a b, String.leb (key a) (key b) = true) (insert_on key x l).
Proof.
  induction 1 as [|y l Hl IH Hhd]; simpl.
  - by repeat constructor.
  - destruct (String.leb (key x) (key y)) eqn:Hxy.
    + constructor; [by constructor|by constructor].
    + constructor; [exact IH|].
      assert (Hyx : String.leb (key y) (key x) = true).
      { destruct (String.leb_total (key x) (key y)) as [H|H]; [|done].
        by rewrite H in Hxy. }
      destruct Hhd as [|z l Hyz]; simpl.
      * by constructor.
      * destruct (String.leb (key x) (key z)); by constructor.
Qed.

Lemma sorted_on_Sorted {A} (key : A → string) (l : list A) :
  Sorted (λ a b, String.leb (key a) (key b) = true) (sorted_on key l).
Proof.
  induction l as [|x l IH]; simpl; [constructor|].
  by apply insert_on_Sorted.
Qed.

Lemma Sorted_map_key {A} (key : A → string) (l : list A) :
  Sorted (λ a b, String.leb (key a) (key b) = true) l →
  Sorted (λ a b, String.leb a b = true) (map key l).
Proof.
  induction 1 as [|p l Hl IH Hhd]; simpl; [constructor|].
  constructor; [exact IH|]. destruct Hhd; by constructor.
Qed.

(** X15. [get_available_organisms]: the widget offers the common taxonomy
    ids, each as often as it is listed, in the order of their names; the
    items of the combo box are the names of the organisms offered, in the
    same order, so that the index of an item is the index of its taxonomy
    id. *)
Theorem get_available_organisms_aligned (common_taxids : list string)
  (name : string → string) (w : OWGenes) :
  ∃ items w',
    get_available_organisms common_taxids name w = (Ok items, w') ∧
    Permutation (organisms w') common_taxids ∧
    items = map name (organisms w') ∧
    Sorted (λ a b, String.leb a b = true) items ∧
    (∀ i item, items !! i = Some item →
       ∃ tid, get_selected_organism (set_selected_organism i w') = Ok tid ∧
              name tid = item).
Proof.
  unfold get_available_organisms.
  set (pairs := map (λ tax_id, (tax_id, name tax_id)) common_taxids).
  assert (Hpairs : ∀ p, p ∈ sorted_on snd pairs → snd p = name (fst p)).
  { intros p Hp. rewrite sorted_on_Permutation in Hp.
    apply list_elem_of_fmap in Hp as (tid & -> & _). done. }
  assert (Hitems : map snd (sorted_on snd pairs)
                   = map name (map fst (sorted_on snd pairs))).
  { induction (sorted_on snd pairs) as [|p l IH]; [done|]. simpl.
    rewrite Hpairs by left. f_equal. apply IH.
    intros q Hq. apply Hpairs. by right. }
  eexists _, _. split; [reflexivity|]. cbn [organisms set_organisms].
  split; [|split; [exact Hitems|split]].
  - change (map fst ?l) with (fst <$> l).
    rewrite sorted_on_Permutation. unfold pairs.
    change (map ?f ?l) with (f <$> l). rewrite <- list_fmap_compose.
    by rewrite list_fmap_id.
  - apply Sorted_map_key, sorted_on_Sorted.
  - intros i item Hi. rewrite Hitems in Hi.
    change (map name ?l) with (name <$> l) in Hi.
    apply list_lookup_fmap_Some in Hi as (tid & -> & Htid).
    exists tid. unfold get_selected_organism, py_index. cbn.
    by rewrite Htid.
Qed.

(** ** The results of the matcher *)

Lemma bind_Ok_inv {A C} (m : M A) (k : A → M C) w c w' :
  (m ≫= k) w = (Ok c, w') →
  ∃ a w1, m w = (Ok a, w1) ∧ k a w1 = (Ok c, w').
Proof.
  unfold mbind, M_bind.
  destruct (m w) as [[a|e] w1]; [by exists a, w1|discriminate].
Qed.

Lemma _handle_matcher_results_run (w : OWGenes) (gm : GeneMatcher) :
  gene_matcher w = Some gm →
  ∃ w3, _handle_matcher_results w = self_commit w3 ∧
        gene_matcher w3 = Some gm ∧
        table_view w3 = Some [] ∧
        outputs w3 = outputs w ∧
        exclude_unmatched w3 =
          match genes gm with
          | [] => exclude_unmatched w
          | _ :: _ =>
              negb (length (genes gm) =? length (get_known_genes gm))
          end ∧
        auto_commit w3 = auto_commit w ∧
        commit_dirty w3 = commit_dirty w.
Proof.
  intros Hgm. unfold _handle_matcher_results.
  destruct (_update_info_box_run w) as [s Hs].
  rewrite (bind_Ok _ _ _ _ _ Hs).
  unfold toggle_radio_options.
  rewrite bind_assoc, get_bind, bind_assoc, modify_bind, bind_assoc.
  rewrite (lift_bind_Ok _ _ _ gm) by (simpl; by rewrite Hgm).
  destruct (genes gm) as [|g gs] eqn:Hgenes.
  - rewrite ret_bind, get_bind.
    rewrite (lift_bind_Ok _ _ _ gm) by (simpl; by rewrite Hgm).
    rewrite on_table_model_initialize, !modify_bind.
    eexists. split; [reflexivity|]. by simpl.
  - rewrite bind_assoc, !modify_bind, get_bind.
    rewrite (lift_bind_Ok _ _ _ gm) by (simpl; by rewrite Hgm).
    rewrite on_table_model_initialize, !modify_bind.
    eexists. split; [reflexivity|]. by simpl.
Qed.

(** A commit with no row selected that returns: what it sends, and that
    it changes nothing else but the input table. *)
Lemma commit_unselected (w3 w1 : OWGenes) (gm : GeneMatcher) :
  gene_matcher w3 = Some gm → table_view w3 = Some [] →
  commit w3 = (Ok tt, w1) →
  ∃ new data,
    w1 = set_outputs (outputs w3 ++ new) (set_input_data data w3) ∧
    (∀ r, Genes (Some r) ∈ new → r = to_data_table gm None) ∧
    (get_known_genes gm = [] → new = [Data None; Genes None]).
Proof.
  intros Hgm3 Htv Hrun.
  assert (Hknown := known_of_target_ids (genes gm)).
  rewrite commit_run in Hrun. unfold get_target_ids in Hrun.
  rewrite Htv, Hgm3 in Hrun. simpl in Hrun.
  destruct (known_of (map target_id (genes gm))) as [|k ks] eqn:Hk.
  - injection Hrun as <-. exists [Data None; Genes None], (input_data w3).
    split; [by rewrite set_input_data_same|]. split; [|done].
    intros r Hr. rewrite !elem_of_cons, elem_of_nil in Hr.
    repeat (destruct Hr as [Hr|Hr]; [by inversion Hr|]). done.
  - assert (Hne : get_known_genes gm ≠ []).
    { intros Hnil. unfold get_known_genes in Hnil.
      rewrite Hnil in Hknown. discriminate. }
    destruct (input_data w3) as [t|]; [|discriminate].
    destruct (negb (use_attr_names w3)).
    + destruct (commit_rows w3 t _ (k :: ks) []) as [tb|e]; [|discriminate].
      injection Hrun as <-. do 2 eexists. split; [reflexivity|].
      split; [|done].
      intros r Hr. rewrite !elem_of_cons, elem_of_nil in Hr.
      repeat (destruct Hr as [Hr|Hr]; [by inversion Hr|]). done.
    + destruct (commit_columns w3 t gm (k :: ks) []) as [tb|e];
        [|discriminate].
      injection Hrun as <-. do 2 eexists. split; [reflexivity|].
      split; [|done].
      intros r Hr. rewrite !elem_of_cons, elem_of_nil in Hr.
      repeat (destruct Hr as [Hr|Hr]; [by inversion Hr|]). done.
Qed.

(** X16. [_handle_matcher_results], when it returns, leaves the view with
    its model and no row selected and, when the matcher has genes, the
    option to exclude unmatched genes set anew, on when a gene of the
    matcher is unknown and off when all are known, whatever it was
    before. It ends with [self.commit], the gate of the commit button.
    With the setting [auto_commit] on, the commit is made, the outputs
    are marked as up to date, what is sent is sent behind what was sent,
    a match report sent covers all genes of the matcher, and with no
    known gene the two empty outputs are all that is sent. With the
    setting off nothing is sent and the outputs are marked as out of
    date. *)
Theorem _handle_matcher_results_commit (w w' : OWGenes) (gm : GeneMatcher) :
  gene_matcher w = Some gm →
  _handle_matcher_results w = (Ok tt, w') →
  table_view w' = Some [] ∧
  (genes gm ≠ [] →
   exclude_unmatched w' =
     negb (length (genes gm) =? length (get_known_genes gm))) ∧
  auto_commit w' = auto_commit w ∧
  (auto_commit w = true →
   commit_dirty w' = false ∧
   ∃ new,
     outputs w' = outputs w ++ new ∧
     (∀ r, Genes (Some r) ∈ new → r = to_data_table gm None) ∧
     (get_known_genes gm = [] → new = [Data None; Genes None])) ∧
  (auto_commit w = false →
   commit_dirty w' = true ∧ outputs w' = outputs w).
Proof.
  intros Hgm Hrun.
  destruct (_handle_matcher_results_run w gm Hgm)
    as (w3 & Hw3 & Hgm3 & Htv & Hout & Hex & Hac & Hcd).
  rewrite Hw3 in Hrun. clear Hw3.
  unfold self_commit in Hrun. rewrite get_bind in Hrun.
  assert (Hex' : genes gm ≠ [] →
            exclude_unmatched w3 =
              negb (length (genes gm) =? length (get_known_genes gm))).
  { intros Hne. rewrite Hex. by destruct (genes gm). }
  destruct (auto_commit w3) eqn:Hauto; rewrite <- Hac.
  - apply bind_Ok_inv in Hrun as ([] & w1 & Hc & Hm).
    destruct (commit_unselected _ _ _ Hgm3 Htv Hc)
      as (new & data & -> & Hrep & Hn).
    injection Hm as <-.
    split; [exact Htv|]. split; [exact Hex'|]. split; [exact Hauto|].
    split; [|discriminate]. intros _. split; [reflexivity|].
    exists new. split; [|done].
    change (outputs w3 ++ new = outputs w ++ new). by rewrite Hout.
  - injection Hrun as <-.
    split; [exact Htv|]. split; [exact Hex'|]. split; [exact Hauto|].
    split; [discriminate|]. intros _. split; [reflexivity|]. exact Hout.
Qed.

(** ** The further properties at work *)

Lemma known_ids_of_known_genes_witness :
  ∃ gene_ids,
    get_target_ids w_rows = Ok gene_ids ∧
    length gene_ids = length (genes (mkGeneMatcher matched_rows "9606")) ∧
    known_of gene_ids
      = map target_id (get_known_genes (mkGeneMatcher matched_rows "9606")) ∧
    (known_of gene_ids = []
     ↔ get_known_genes (mkGeneMatcher matched_rows "9606") = []) ∧
    (fst (commit w_rows) = Ok tt →
     (outputs (snd (commit w_rows))
      = outputs w_rows ++ [Data None; Genes None]
      ↔ get_known_genes (mkGeneMatcher matched_rows "9606") = [])).
Proof.
  apply (known_ids_of_known_genes w_rows (mkGeneMatcher matched_rows "9606")).
  vm_compute. reflexivity.
Defined.

(** The gene column has a gap: two genes for three rows. *)
Lemma commit_rows_length_mismatch_witness :
  commit w_gap = (Raise ValueError, w_gap).
Proof.
  apply (commit_rows_length_mismatch w_gap t_gap
           (mkGeneMatcher [mkGene "BRCA1" (Some 672%Z) (Some "BRCA1");
                           mkGene "P53" (Some 7157%Z) (Some "TP53")] "9606")
           []).
  - vm_compute. reflexivity.
  - vm_compute. reflexivity.
  - vm_compute. reflexivity.
  - vm_compute. reflexivity.
  - vm_compute. discriminate.
  - simpl. lia.
  - simpl. lia.
Defined.

(** The feature with the padded name is the feature of no gene. *)
Lemma commit_columns_unmarked_feature_witness :
  commit w_padded = (Raise KeyError, w_padded).
Proof.
  apply (commit_columns_unmarked_feature w_padded t_padded
           (mkGeneMatcher matched_columns "9606") 1
           (mkVariable " P53 " (ContinuousVariable 3) ∅)).
  - vm_compute. reflexivity.
  - vm_compute. reflexivity.
  - vm_compute. reflexivity.
  - vm_compute. reflexivity.
  - vm_compute. reflexivity.
  - vm_compute. discriminate.
  - reflexivity.
  - reflexivity.
  - vm_compute. reflexivity.
Defined.

(** Two candidates with two unique values each: the later one is taken. *)
Lemma gene_column_identifier_tie_witness :
  ∃ n before after,
    [(v_gene, 2); (v_tissue, 2)] = before ++ (v_tissue, n) :: after ∧
    (∀ c m, (c, m) ∈ before → m ≤ n) ∧
    (∀ c m, (c, m) ∈ after → m < n).
Proof.
  apply (gene_column_identifier_tie w_tie [(v_gene, 2); (v_tissue, 2)]
           v_tissue).
  - vm_compute. reflexivity.
  - vm_compute. reflexivity.
Defined.


Lemma commit_columns_data_witness :
  ∃ t gm positions,
    input_data w_columns = Some t ∧ gene_matcher w_columns = Some gm ∧
    let d := annotate_domain (target_database w_columns)
                             (replace_id_with_symbol w_columns)
                             (genes gm) (tab_domain t) in
    sublist positions (seq 0 (length (dom_attributes (tab_domain t)))) ∧
    Forall2 (λ i v, dom_attributes d !! i = Some v)
            positions
            (dom_attributes
               (tab_domain (last_data (commit_signals w_columns)))) ∧
    dom_class_vars (tab_domain (last_data (commit_signals w_columns)))
      = dom_class_vars d ∧
    dom_metas (tab_domain (last_data (commit_signals w_columns)))
      = dom_metas d ∧
    length (tab_rows (last_data (commit_signals w_columns)))
      = length (tab_rows t) ∧
    tab_rows (last_data (commit_signals w_columns)) =
      map (λ r, mkRow (map (λ i, default CNaN (row_X r !! i)) positions)
                      (row_Y r) (row_metas r))
          (tab_rows t).
Proof.
  apply (commit_columns_data w_columns (commit_signals w_columns)).
  - vm_compute. reflexivity.
  - vm_compute. reflexivity.
  - vm_compute. left.
Defined.

Lemma commit_columns_features_witness :
  ∃ t gm,
    input_data w_columns = Some t ∧ gene_matcher w_columns = Some gm ∧
    ∀ v, v ∈ dom_attributes
               (tab_domain (last_data (commit_signals w_columns))) →
      ∃ i v0,
        dom_attributes (tab_domain t) !! i = Some v0 ∧
        var_type_of v = var_type_of v0 ∧
        (∀ k, k ≠ target_database w_columns →
              var_attributes v !! k = var_attributes v0 !! k) ∧
        (resolving_genes (tab_domain t) (Attr i) (genes gm) = [] →
         v = v0) ∧
        (var_name v = var_name v0 ∨
         ∃ g, g ∈ genes gm ∧ symbol g = Some (var_name v)) ∧
        (replace_id_with_symbol w_columns = false →
         var_name v = var_name v0).
Proof.
  apply (commit_columns_features w_columns (commit_signals w_columns)).
  - vm_compute. reflexivity.
  - vm_compute. reflexivity.
  - vm_compute. left.
Defined.

(** A table without instances arrives after the genes in rows were
    matched and sent. *)
Lemma handle_input_without_instances_witness :
  ∃ w', handle_input (Some no_table) w_rows = (Ok tt, w') ∧
        input_data w' = None ∧ input_genes w' = None ∧
        gene_columns_model w' = [] ∧ selected_gene_col w' = None ∧
        table_view w' = None ∧ info_box w' = "No data on input." ∧
        gene_matcher w' = gene_matcher w_rows ∧
        threadpool w' = threadpool w_rows ∧
        outputs w' = outputs w_rows.
Proof.
  apply (handle_input_without_instances (Some no_table) w_rows).
  reflexivity.
Defined.

Lemma handle_input_no_candidate_column_witness :
  ∃ w', handle_input (Some t_numeric) widget0 = (Raise IndexError, w') ∧
        input_data w' = Some t_numeric ∧ selected_gene_col w' = None ∧
        gene_matcher w' = gene_matcher widget0 ∧
        threadpool w' = threadpool widget0 ∧ outputs w' = outputs widget0.
Proof.
  apply (handle_input_no_candidate_column t_numeric widget0).
  - simpl. discriminate.
  - reflexivity.
  - reflexivity.
  - reflexivity.
Defined.

Lemma handle_input_starts_matcher_witness :
  ∃ names org,
    input_data w_rows_input = Some t_rows ∧
    input_genes w_rows_input = Some names ∧
    get_selected_organism w_rows_input = Ok org ∧
    gene_matcher w_rows_input
      = Some (mkGeneMatcher (genes_of_names names) org) ∧
    threadpool w_rows_input =
      threadpool widget0 ++ [mkGeneMatcher (genes_of_names names) org] ∧
    table_view w_rows_input = None ∧
    outputs w_rows_input = outputs widget0.
Proof.
  apply (handle_input_starts_matcher t_rows widget0 w_rows_input).
  - simpl. discriminate.
  - vm_compute. reflexivity.
Defined.

(** The table of the mouse: the widget offers its taxonomy id second. *)
Lemma handle_input_selects_organism_witness :
  let tid :=
    py_str (default (PStr "9606") (tab_attributes t_mouse !! TAX_ID)) in
  let w' := snd (handle_input (Some t_mouse) widget0) in
  tax_id w' = Some tid ∧
  organisms w' = organisms widget0 ∧
  (tid ∈ organisms widget0 → get_selected_organism w' = Ok tid) ∧
  (tid ∉ organisms widget0 →
   selected_organism w' = selected_organism widget0).
Proof.
  apply (handle_input_selects_organism t_mouse widget0).
  simpl. discriminate.
Defined.

(** No gene of the input was found, and a letter is typed in the filter
    line. *)
Lemma apply_filter_empty_match_table_witness :
  apply_filter "b" w_unmatched
  = (Raise ValueError,
     set_table_model (cache_clear (table_model w_unmatched))
                     (set_table_view None w_unmatched)).
Proof.
  apply (apply_filter_empty_match_table "b" w_unmatched t_rows).
  - vm_compute. reflexivity.
  - vm_compute. reflexivity.
  - discriminate.
Defined.

Lemma _handle_matcher_results_commit_witness :
  table_view w_rows = Some [] ∧
  (genes (mkGeneMatcher matched_rows "9606") ≠ [] →
   exclude_unmatched w_rows =
     negb (length (genes (mkGeneMatcher matched_rows "9606"))
           =? length (get_known_genes (mkGeneMatcher matched_rows "9606")))) ∧
  auto_commit w_rows =
    auto_commit (set_gene_matcher (Some (mkGeneMatcher matched_rows "9606"))
                                  w_rows_input) ∧
  (auto_commit (set_gene_matcher (Some (mkGeneMatcher matched_rows "9606"))
                                 w_rows_input) = true →
   commit_dirty w_rows = false ∧
   ∃ new,
     outputs w_rows =
       outputs (set_gene_matcher (Some (mkGeneMatcher matched_rows "9606"))
                                 w_rows_input) ++ new ∧
     (∀ r, Genes (Some r) ∈ new →
           r = to_data_table (mkGeneMatcher matched_rows "9606") None) ∧
     (get_known_genes (mkGeneMatcher matched_rows "9606") = [] →
      new = [Data None; Genes None])) ∧
  (auto_commit (set_gene_matcher (Some (mkGeneMatcher matched_rows "9606"))
                                 w_rows_input) = false →
   commit_dirty w_rows = true ∧
   outputs w_rows =
     outputs (set_gene_matcher (Some (mkGeneMatcher matched_rows "9606"))
                               w_rows_input)).
Proof.
  apply (_handle_matcher_results_commit
           (set_gene_matcher (Some (mkGeneMatcher matched_rows "9606"))
                             w_rows_input)
           w_rows (mkGeneMatcher matched_rows "9606")).
  - reflexivity.
  - vm_compute. reflexivity.
Defined.

(** With the setting [auto_commit] off the results of the matcher are
    shown and nothing is sent; the button then commits. *)
Example matcher_finished_not_committed :
  outputs w_rows_shown = [] ∧
  commit_dirty w_rows_shown = true ∧
  input_data w_rows_shown = Some t_rows ∧
  _table (table_model w_rows_shown) =
    [["BRCA1"; "672"; "BRCA1"]; ["P53"; "7157"; "TP53"]] ∧
  length (outputs (snd (commit w_rows_shown))) = 3.
Proof. repeat split; vm_compute; reflexivity. Qed.
